(** * Sports oracle: resolution pipeline, statistic consensus, classifier, breaker

    A shallow embedding of the reconciliation core of the sports oracle
    (resolver.ts, stats/consensus.ts, stats/confidence.ts, stats/resolver.ts,
    stats/queryClassifier.ts, parsers/query-schema.ts and utils.ts) and of
    what feeds it (agent/deepAgent.ts, stats/providers.ts,
    stats/normalization.ts, stats/validation.ts, stats/tools.ts and
    stats/graph.ts), together with the properties established about it.

    Conventions of the embedding:
    - a JavaScript number is a binary64 floating-point number ([float]),
      with its rounding, its infinities and [NaN]; counts and lengths are
      [nat]; epoch milliseconds are [Z];
    - a JavaScript string is a [string] of bytes; case folding, white space
      and word characters are the ASCII ones;
    - [undefined]/[null] are [None]; a value used as a condition goes through
      [Js.truthy] (the empty string is falsy);
    - a [Map] is an association list in insertion order, a [Set] a
      duplicate-free list in insertion order;
    - what the host provides ([Date.now], [Date.parse], number printing, the
      language-model call, the environment, timers, requests and tools) is a
      parameter of the function that uses it;
    - what a provider or a tool hands back is a JSON value ([Json.t]); an
      exception is the [None] or the [inl] of a result. *)

From Stdlib Require Import Bool Arith ZArith Floats Lia.
From Stdlib Require Import List ListSet String Ascii Permutation DecimalString.
Import ListNotations.

Set Warnings "-inexact-float".

Open Scope float_scope.
Open Scope string_scope.
Open Scope list_scope.

(** ** JavaScript string helpers *)

Module Js.

Definition is_upper (c : ascii) : bool :=
  let n := nat_of_ascii c in (65 <=? n)%nat && (n <=? 90)%nat.

Definition is_lower (c : ascii) : bool :=
  let n := nat_of_ascii c in (97 <=? n)%nat && (n <=? 122)%nat.

Definition is_digit (c : ascii) : bool :=
  let n := nat_of_ascii c in (48 <=? n)%nat && (n <=? 57)%nat.

Definition lower_ascii (c : ascii) : ascii :=
  if is_upper c then ascii_of_nat (nat_of_ascii c + 32) else c.

(** [s.toLowerCase()] *)
Fixpoint toLowerCase (s : string) : string :=
  match s with
  | EmptyString => EmptyString
  | String c r => String (lower_ascii c) (toLowerCase r)
  end.

(** [s.startsWith(p)] *)
Fixpoint startsWith (s p : string) : bool :=
  match p, s with
  | EmptyString, _ => true
  | String _ _, EmptyString => false
  | String a p', String b s' => Ascii.eqb a b && startsWith s' p'
  end.

(** [s.includes(sub)] *)
Fixpoint includes (s sub : string) : bool :=
  startsWith s sub
  || match s with
     | EmptyString => false
     | String _ r => includes r sub
     end.

(** A string-or-undefined used as a condition. *)
Definition truthy (o : option string) : bool :=
  match o with
  | Some (String _ _) => true
  | _ => false
  end.

(** [isDefinedString]: keeps the non-empty strings. *)
Definition definedStrings (l : list (option string)) : list string :=
  flat_map (fun o => match o with
                     | Some (String c r) => [String c r]
                     | _ => []
                     end) l.

(** [xs.join(sep)] *)
Fixpoint join (sep : string) (xs : list string) : string :=
  match xs with
  | [] => ""
  | [x] => x
  | x :: rest => x ++ sep ++ join sep rest
  end.

(** [Array.from(new Set(xs))]: first occurrences, in order. *)
Definition dedupe (xs : list string) : list string :=
  fold_left (fun acc x => set_add string_dec x acc) xs [].

Definition is_space (c : ascii) : bool :=
  let n := nat_of_ascii c in
  ((9 <=? n)%nat && (n <=? 13)%nat) || (n =? 32)%nat.

Fixpoint trimStart (s : string) : string :=
  match s with
  | EmptyString => EmptyString
  | String c r => if is_space c then trimStart r else s
  end.

Definition reverse (s : string) : string :=
  string_of_list_ascii (rev (list_ascii_of_string s)).

(** [s.trim()] *)
Definition trim (s : string) : string :=
  reverse (trimStart (reverse (trimStart s))).

(** [s.slice(from)] and [s.slice(0, to)] for indices within the string. *)
Definition sliceFrom (from : nat) (s : string) : string :=
  string_of_list_ascii (skipn from (list_ascii_of_string s)).
Definition sliceTo (to : nat) (s : string) : string :=
  string_of_list_ascii (firstn to (list_ascii_of_string s)).

(** [xs.slice(0, n)] *)
Definition slice0 {A} (n : nat) (xs : list A) : list A := firstn n xs.

(** *** Numbers

    The comparisons [a < b], [a <= b] and [a === b] and the arithmetic of
    numbers are those of [float]: [<?], [<=?], [=?], [+], [-], [*], [/]
    and [abs] round and treat [NaN], the infinities and the two zeros as
    the hosts do. *)

(** [Number.isFinite(x)] *)
Definition isFinite (x : float) : bool := is_finite x.

(** [Math.trunc(x)] of a finite number, as an integer. *)
Definition trunc (x : float) : Z :=
  match Prim2SF x with
  | S754_finite negative m e =>
      let magnitude :=
        if (0 <=? e)%Z then (Zpos m * 2 ^ e)%Z else (Zpos m / 2 ^ (- e))%Z in
      if negative then (- magnitude)%Z else magnitude
  | _ => 0%Z
  end.

(** An integer as a number: the lengths, counts and epoch milliseconds of
    the sources lie below 2^53, where this is exact. *)
Definition ofZ (z : Z) : float :=
  if (z <? 0)%Z then (- of_uint63 (Uint63.of_Z (- z)))%float
  else of_uint63 (Uint63.of_Z z).

Definition ofNat (n : nat) : float := ofZ (Z.of_nat n).

(** [Math.min(a, b)] and [Math.max(a, b)]: [NaN] when an argument is, and
    the negative zero below the positive one. *)
Definition min (a b : float) : float :=
  if is_nan a || is_nan b then nan
  else if (a <? b)%float then a
  else if (b <? a)%float then b
  else if get_sign a then a else b.

Definition max (a b : float) : float :=
  if is_nan a || is_nan b then nan
  else if (a <? b)%float then b
  else if (b <? a)%float then a
  else if get_sign a then b else a.

(** [x ** 2]: the hosts compute the power of two as the product. *)
Definition square (x : float) : float := (x * x)%float.

(** The number a decimal numeral denotes, [numerator / denominator] with a
    power of ten below: the nearest float, ties to even, as
    [Number.parseFloat] and [Number] round it. *)
Definition ofDecimal (negative : bool) (numerator : Z) (denominator : positive)
  : float :=
  match numerator with
  | Zpos n =>
      SF2Prim (SFdiv prec emax (S754_finite negative n 0)
                     (S754_finite false denominator 0))
  | _ => if negative then (-0)%float else 0%float
  end.

End Js.

(** ** Regular expressions

    A backtracking matcher with the priorities of the JavaScript engine:
    alternatives are tried left to right, a greedy repetition tries one more
    iteration before stopping and a lazy one stops before iterating, and the
    capture group is the text of its last participation.  The patterns of
    the sources need one capture group at most. *)

Module Regex.
Import Js.

Inductive re :=
| Eps
| Cls (p : ascii -> bool)
| Seq (a b : re)
| Alt (a b : re)
| Rep (greedy : bool) (lo : nat) (hi : option nat) (a : re)
| Grp (a : re)
| WordB
| Eol.

(** The matcher's position: index, the character before it, the text
    after it, and the capture so far. *)
Record st := {
  pos : nat;
  prev : option ascii;
  rest : list ascii;
  cap : option (list ascii)
}.

Definition is_word (c : ascii) : bool :=
  is_upper c || is_lower c || is_digit c || (nat_of_ascii c =? 95)%nat.

Definition word_at (o : option ascii) : bool :=
  match o with
  | Some c => is_word c
  | None => false
  end.

Definition below (hi : option nat) (n : nat) : bool :=
  match hi with
  | None => true
  | Some h => (n <? h)%nat
  end.

Fixpoint m (r : re) (s : st) (k : st -> option st) {struct r} : option st :=
  match r with
  | Eps => k s
  | Cls p =>
      match rest s with
      | c :: t =>
          if p c
          then k {| pos := S (pos s); prev := Some c; rest := t; cap := cap s |}
          else None
      | [] => None
      end
  | Seq a b => m a s (fun s' => m b s' k)
  | Alt a b =>
      match m a s k with
      | Some x => Some x
      | None => m b s k
      end
  | Grp a =>
      m a s (fun s' =>
               k {| pos := pos s'; prev := prev s'; rest := rest s';
                    cap := Some (firstn (pos s' - pos s) (rest s)) |})
  | WordB =>
      if xorb (word_at (prev s)) (word_at (hd_error (rest s))) then k s else None
  | Eol =>
      match rest s with
      | [] => k s
      | _ :: _ => None
      end
  | Rep greedy lo hi a =>
      (fix loop (fuel n : nat) (s0 : st) {struct fuel} : option st :=
         match fuel with
         | O => None
         | S fuel' =>
             if (n <? lo)%nat
             then m a s0 (fun s' => loop fuel' (S n) s')
             else if greedy
             then
               match (if below hi n
                      then m a s0 (fun s' =>
                                     if (pos s' =? pos s0)%nat then None
                                     else loop fuel' (S n) s')
                      else None) with
               | Some x => Some x
               | None => k s0
               end
             else
               match k s0 with
               | Some x => Some x
               | None =>
                   if below hi n
                   then m a s0 (fun s' =>
                                  if (pos s' =? pos s0)%nat then None
                                  else loop fuel' (S n) s')
                   else None
               end
         end) (lo + List.length (rest s) + 1)%nat 0%nat s
  end.

(** The end state of the leftmost match at or after the given position,
    with the index where it starts. *)
Fixpoint search (r : re) (p : nat) (pv : option ascii) (txt : list ascii)
  : option (nat * st) :=
  match m r {| pos := p; prev := pv; rest := txt; cap := None |} Some with
  | Some s' => Some (p, s')
  | None =>
      match txt with
      | [] => None
      | c :: t => search r (S p) (Some c) t
      end
  end.

Record MatchResult := {
  index : nat;
  matched : string;
  group1 : option string
}.

Definition text_of (l : list ascii) : string := string_of_list_ascii l.

(** [r.exec(s)] for a pattern without the global flag. *)
Definition exec (r : re) (s : string) : option MatchResult :=
  let txt := list_ascii_of_string s in
  match search r 0 None txt with
  | Some (i, s') =>
      Some {| index := i;
              matched := text_of (firstn (pos s' - i) (skipn i txt));
              group1 := option_map text_of (cap s') |}
  | None => None
  end.

(** [r.test(s)] *)
Definition test (r : re) (s : string) : bool :=
  match exec r s with
  | Some _ => true
  | None => false
  end.

(** [Array.from(s.matchAll(r)).map(match => match[1])] for a global
    pattern whose group always participates. *)
Fixpoint captures_from (fuel : nat) (r : re) (p : nat) (pv : option ascii)
  (txt : list ascii) : list string :=
  match fuel with
  | O => []
  | S fuel' =>
      match search r p pv txt with
      | None => []
      | Some (i, s') =>
          let found := match cap s' with
                       | Some c => [text_of c]
                       | None => []
                       end in
          if (pos s' =? i)%nat
          then match rest s' with
               | [] => found
               | c :: t => found ++ captures_from fuel' r (S (pos s')) (Some c) t
               end
          else found ++ captures_from fuel' r (pos s') (prev s') (rest s')
      end
  end.

Definition matchAll1 (r : re) (s : string) : list string :=
  let txt := list_ascii_of_string s in
  captures_from (S (List.length txt)) r 0 None txt.

(** *** Pattern combinators *)

Definition chr (c : ascii) : re := Cls (Ascii.eqb c).
(** A literal character under the [i] flag. *)
Definition chri (c : ascii) : re :=
  Cls (fun x => Ascii.eqb (lower_ascii x) (lower_ascii c)).

Fixpoint lit (s : string) : re :=
  match s with
  | EmptyString => Eps
  | String c EmptyString => chr c
  | String c r => Seq (chr c) (lit r)
  end.

Fixpoint liti (s : string) : re :=
  match s with
  | EmptyString => Eps
  | String c EmptyString => chri c
  | String c r => Seq (chri c) (liti r)
  end.

Fixpoint seqs (l : list re) : re :=
  match l with
  | [] => Eps
  | [a] => a
  | a :: t => Seq a (seqs t)
  end.

Fixpoint alts (l : list re) : re :=
  match l with
  | [] => Cls (fun _ => false)
  | [a] => a
  | a :: t => Alt a (alts t)
  end.

Definition star (a : re) : re := Rep true 0 None a.
Definition plus (a : re) : re := Rep true 1 None a.
Definition opt (a : re) : re := Rep true 0 (Some 1%nat) a.
Definition lazy_plus (a : re) : re := Rep false 1 None a.
Definition upto (n : nat) (a : re) : re := Rep true 0 (Some n) a.

(** [\s], [\d], [\w], [.] *)
Definition ws : re := Cls is_space.
Definition digit : re := Cls is_digit.
Definition wordc : re := Cls is_word.
Definition anyc : re :=
  Cls (fun c => negb ((nat_of_ascii c =? 10)%nat || (nat_of_ascii c =? 13)%nat)).

(** [\d+(?:\.\d+)?] *)
Definition decimal : re := Seq (plus digit) (opt (Seq (chr ".") (plus digit))).

End Regex.

(** ** utils.ts: query metadata and the circuit breaker *)

Module Utils.
Import Js.

Record QueryMetadata := {
  original : string;
  normalized : string;
  sport : option string;
  date : option string;
  teams : list string
}.

Definition BASKETBALL_KEYWORDS : list string :=
  ["nba"; "basketball"; "lakers"; "warriors"; "celtics"; "heat"; "bucks";
   "suns"; "clippers"; "bulls"; "knicks"; "76ers"].

(** [extractQueryMetadata].  [detectIsoDate] goes through the host's
    [Date] and its time zone, so it is taken as a parameter. *)
Definition extractQueryMetadata (detectIsoDate : string -> option string)
  (query : string) : QueryMetadata :=
  let normalized := trim query in
  let lower := toLowerCase normalized in
  let sport :=
    if existsb (fun keyword => includes lower keyword) BASKETBALL_KEYWORDS
    then Some "basketball" else None in
  let teams :=
    filter (fun keyword =>
              negb (keyword =? "nba") && negb (keyword =? "basketball")
              && includes lower keyword) BASKETBALL_KEYWORDS in
  {| original := query; normalized := normalized; sport := sport;
     date := detectIsoDate lower; teams := teams |}.

(** *** CircuitBreaker *)

Record CircuitBreakerOptions := {
  failureThreshold : Z;
  cooldownMs : Z
}.

(** The defaults of the constructor. *)
Definition defaultOptions : CircuitBreakerOptions :=
  {| failureThreshold := 3; cooldownMs := 15000 |}.

Record CircuitBreakerState := {
  failures : Z;
  openedAt : option Z
}.

(** [{ failures: 0, openedAt: null }] *)
Definition initialState : CircuitBreakerState :=
  {| failures := 0; openedAt := None |}.

(** What the breaker sees of the host: the clock behind [Date.now()] and
    the requests issued so far. *)
Record Env := {
  clock : Z;
  requests : list string
}.

Inductive Failure :=
| CircuitOpenError
| ActionError (message : string).

(** The action passed to [exec]: it runs in the host only (the breaker's
    state is private), takes time, and resolves or rejects. *)
Definition Action (A : Type) := Env -> (string + A) * Env.

(** Methods of the breaker: they read and write its state, read the
    clock, and may throw. *)
Definition Breaker (A : Type) :=
  CircuitBreakerState -> Env -> (Failure + A) * CircuitBreakerState * Env.

Definition ret {A} (a : A) : Breaker A := fun s e => (inr a, s, e).

Definition bind {A B} (c : Breaker A) (k : A -> Breaker B) : Breaker B :=
  fun s e =>
    match c s e with
    | (inr a, s', e') => k a s' e'
    | (inl f, s', e') => (inl f, s', e')
    end.

Definition throw {A} (f : Failure) : Breaker A := fun s e => (inl f, s, e).
Definition getState : Breaker CircuitBreakerState := fun s e => (inr s, s, e).
Definition putState (s : CircuitBreakerState) : Breaker unit :=
  fun _ e => (inr tt, s, e).
Definition dateNow : Breaker Z := fun s e => (inr (clock e), s, e).

Declare Scope breaker_scope.
Delimit Scope breaker_scope with breaker.
Notation "x <- c ;; k" := (bind c (fun x => k))
  (at level 61, c at next level, right associativity) : breaker_scope.
Notation "c ;; k" := (bind c (fun _ => k))
  (at level 61, right associativity) : breaker_scope.
Local Open Scope breaker_scope.

Definition recordFailure (opts : CircuitBreakerOptions) : Breaker unit :=
  s <- getState ;;
  putState {| failures := failures s + 1; openedAt := openedAt s |} ;;
  if (failureThreshold opts <=? failures s + 1)%Z
  then now <- dateNow ;;
       putState {| failures := failures s + 1; openedAt := Some now |}
  else ret tt.

Definition reset : Breaker unit :=
  putState {| failures := 0; openedAt := None |}.

Definition isOpen (opts : CircuitBreakerOptions) : Breaker bool :=
  s <- getState ;;
  match openedAt s with
  | None => ret false
  | Some opened =>
      now <- dateNow ;;
      let elapsed := (now - opened)%Z in
      if (cooldownMs opts <? elapsed)%Z
      then reset ;; ret false
      else ret true
  end.

(** The part of [exec] that runs when it is called: the check, after
    which the action is called. *)
Definition start (opts : CircuitBreakerOptions) : Breaker unit :=
  open <- isOpen opts ;;
  if open then throw CircuitOpenError else ret tt.

(** The callbacks [exec] puts on the promise of the action,
    [then(reset)] and [catch(recordFailure; rethrow)]: they run when the
    promise settles, on the state the breaker has by then. *)
Definition finish {A} (opts : CircuitBreakerOptions) (outcome : string + A)
  : Breaker A :=
  match outcome with
  | inr result => reset ;; ret result
  | inl message => recordFailure opts ;; throw (ActionError message)
  end.

(** The action run to its end, then the callbacks: a call during which no
    other call reaches the breaker. *)
Definition settle {A} (opts : CircuitBreakerOptions) (action : Action A)
  : Breaker A :=
  fun s e =>
    match action e with
    | (outcome, e') => finish opts outcome s e'
    end.

(** [exec] for a call that no other call on the breaker overlaps. *)
Definition exec {A} (opts : CircuitBreakerOptions) (action : Action A)
  : Breaker A :=
  start opts ;; settle opts action.

End Utils.

(** ** parsers/query-schema.ts: the outcome-query classifier *)

Module QuerySchema.
Import Js Regex.

Inductive Sport := basketball | soccer | general.

Inductive QuestionType :=
| did_result_happen
| who_won
| player_award
| scoreline
| other.

Record StructuredQuery := {
  sport : Sport;
  date : option string;
  teams : list string;
  player : option string;
  competition : option string;
  matchday : option Z;
  questionType : QuestionType
}.

Definition PLAYER_HINTS : list string :=
  ["mvp"; "player"; "scorer"; "assist"; "award"].
Definition SCORE_HINTS : list string :=
  ["score"; "scoreline"; "final score"; "points"].

(** [/player\s*:?\s*([^,\d]+?)(?:\?|$)/i] *)
Definition playerRegex : re :=
  seqs [liti "player"; star ws; opt (chr ":"); star ws;
        Grp (lazy_plus (Cls (fun c => negb (Ascii.eqb c "," || is_digit c))));
        Alt (chr "?") Eol].

(** [/(?:league|competition|tournament|cup)\s*:?\s*([^,]+?)(?:\?|$)/i] *)
Definition competitionRegex : re :=
  seqs [alts [liti "league"; liti "competition"; liti "tournament"; liti "cup"];
        star ws; opt (chr ":"); star ws;
        Grp (lazy_plus (Cls (fun c => negb (Ascii.eqb c ","))));
        Alt (chr "?") Eol].

(** [/matchday\s*(\d+)/i] *)
Definition matchdayRegex : re :=
  seqs [liti "matchday"; star ws; Grp (plus digit)].

(** [/did\s+.*(win|lose|draw|tie|happen)/i] *)
Definition didResultRegex : re :=
  seqs [liti "did"; plus ws; star anyc;
        Grp (alts [liti "win"; liti "lose"; liti "draw"; liti "tie"; liti "happen"])].

(** [/who\s+won|winner|victor/] *)
Definition whoWonRegex : re :=
  alts [seqs [lit "who"; plus ws; lit "won"]; lit "winner"; lit "victor"].

(** [/award|mvp|player\s+of\s+the\s+match|golden\s+boot|top\s+scorer/i] *)
Definition awardRegex : re :=
  alts [liti "award"; liti "mvp";
        seqs [liti "player"; plus ws; liti "of"; plus ws; liti "the"; plus ws;
              liti "match"];
        seqs [liti "golden"; plus ws; liti "boot"];
        seqs [liti "top"; plus ws; liti "scorer"]].

(** [/\d{4}-\d{2}-\d{2}/], the schema's check of a non-null date. *)
Definition schemaDateRegex : re :=
  seqs [Rep true 4 (Some 4%nat) digit; chr "-"; Rep true 2 (Some 2%nat) digit;
        chr "-"; Rep true 2 (Some 2%nat) digit].

(** [Number(digits)] for a string of decimal digits. *)
Definition numberOfDigits (s : string) : Z :=
  fold_left (fun acc c => (10 * acc + (Z.of_nat (nat_of_ascii c) - 48))%Z)
            (list_ascii_of_string s) 0%Z.

Definition capture1 (r : re) (s : string) : option string :=
  match exec r s with
  | Some mt => group1 mt
  | None => None
  end.

Definition classifyQuestion (lower : string) : QuestionType :=
  if test didResultRegex lower then did_result_happen
  else if test whoWonRegex lower then who_won
  else if existsb (fun hint => includes lower hint) SCORE_HINTS then scoreline
  else if test awardRegex lower then player_award
  else other.

(** [StructuredQuerySchema.safeParse(...).success] *)
Definition schemaAccepts (q : StructuredQuery) : bool :=
  match date q with
  | Some d => test schemaDateRegex d
  | None => true
  end
  && (List.length (teams q) <=? 4)%nat.

(** [parseQueryToStructuredRequest]; [None] is the thrown error of a failed
    schema check. *)
Definition parseQueryToStructuredRequest
  (detectIsoDate : string -> option string)
  (query : string) (meta : option Utils.QueryMetadata)
  : option StructuredQuery :=
  let metadata :=
    match meta with
    | Some given => given
    | None => Utils.extractQueryMetadata detectIsoDate query
    end in
  let sport :=
    match Utils.sport metadata with
    | Some "soccer" => soccer
    | Some "basketball" => basketball
    | _ => general
    end in
  let lower := toLowerCase query in
  let teams := slice0 2 (Utils.teams metadata) in
  let date := Utils.date metadata in
  let player :=
    if existsb (fun hint => includes lower hint) PLAYER_HINTS
    then option_map trim (capture1 playerRegex query)
    else None in
  let competition := option_map trim (capture1 competitionRegex query) in
  let matchday := option_map numberOfDigits (capture1 matchdayRegex query) in
  let result :=
    {| sport := sport; date := date; teams := teams; player := player;
       competition := competition; matchday := matchday;
       questionType := classifyQuestion lower |} in
  if schemaAccepts result then Some result else None.

End QuerySchema.

(** ** resolver.ts: the outcome pipeline *)

Module Resolver.
Import Js.

Inductive Category :=
| cat_result
| cat_scoreline
| cat_award
| cat_news
| cat_other.

Definition Category_eqb (a b : Category) : bool :=
  match a, b with
  | cat_result, cat_result | cat_scoreline, cat_scoreline
  | cat_award, cat_award | cat_news, cat_news | cat_other, cat_other => true
  | _, _ => false
  end.

(** The [raw] payload of a fact is never read and is left out. *)
Record NormalizedFact := {
  provider : string;
  canonicalKey : string;
  display : string;
  category : Category;
  homeTeam : option string;
  awayTeam : option string;
  winner : option string;
  homeScore : option float;
  awayScore : option float;
  award : option string;
  player : option string;
  status : option string;
  endTimestamp : option string;
  sourceUrl : option string;
  reliability : float
}.

Record EvidenceGroup := {
  key : string;
  facts : list NormalizedFact;
  providers : list string;
  reliabilityAverage : float
}.

(** [Map<string, EvidenceGroup>], in insertion order. *)
Definition GroupMap := list (string * EvidenceGroup).

Record AnalysisResult := {
  normalizedFacts : list NormalizedFact;
  groups : GroupMap;
  acceptedGroup : option EvidenceGroup;
  errors : list string
}.

(** What [summarizeWithModel] hands back from the model's reply. *)
Record ModelSummary := {
  ms_reasoning : option string;
  ms_sources : list string;
  ms_confidence : option float;
  ms_resolution : option string
}.

(** The candidate handed to [summarizeWithModel]. *)
Record SummaryContext := {
  ctx_resolution : string;
  ctx_confidence : float;
  ctx_providers : list string;
  ctx_winner : option string;
  ctx_agentSummary : string
}.

Record ResolutionDecision := {
  resolution : string;
  confidence : float;
  reasoning : string;
  sources : list string;
  modelSummary : option ModelSummary;
  acceptedGroupKey : option string;
  finalFacts : list NormalizedFact;
  decisionErrors : list string
}.

Definition FINAL_STATUS_KEYWORDS : list string :=
  ["ft"; "fulltime"; "full time"; "finished"; "final"; "completed";
   "after overtime"; "aet"; "ended"; "finale"].

Definition MAX_SOURCE_COUNT : nat := 8.
Definition MIN_CORROBORATING_PROVIDERS : nat := 3.

(** Lower-cased, split at [/[^a-z0-9]+/], empty segments dropped, joined
    without separator: the lower-case letters and digits that remain. *)
Definition normalizeTeamName (team : option string) : string :=
  match team with
  | Some (String c r) =>
      string_of_list_ascii
        (filter (fun x => is_lower x || is_digit x)
                (list_ascii_of_string (toLowerCase (String c r))))
  | _ => ""
  end.

Definition normalizeValue (value : option string) : string :=
  if truthy value then normalizeTeamName value else "".

Definition determineWinner (homeTeam awayTeam : option string)
  (homeScore awayScore : option float) (winnerOverride : option string)
  : option string :=
  if truthy winnerOverride then winnerOverride
  else
    match homeScore, awayScore with
    | Some hs, Some aws =>
        if (aws <? hs)%float then homeTeam
        else if (hs <? aws)%float then awayTeam
        else Some "draw"
    | _, _ => None
    end.

Definition averageReliability (fs : list NormalizedFact) : float :=
  match fs with
  | [] => 0.5
  | _ :: _ =>
      let total :=
        fold_left (fun sum fact => (sum + reliability fact)%float) fs 0%float in
      total / Js.ofNat (List.length fs)
  end.

(** [groups.get(k)] *)
Fixpoint mapGet (k : string) (gm : GroupMap) : option EvidenceGroup :=
  match gm with
  | [] => None
  | (k', g) :: rest => if k' =? k then Some g else mapGet k rest
  end.

(** [groups.set(k, g)]: an existing key keeps its place. *)
Fixpoint mapSet (k : string) (g : EvidenceGroup) (gm : GroupMap) : GroupMap :=
  match gm with
  | [] => [(k, g)]
  | (k', g') :: rest =>
      if k' =? k then (k', g) :: rest else (k', g') :: mapSet k g rest
  end.

(** [Array.from(groups.values())] *)
Definition mapValues (gm : GroupMap) : list EvidenceGroup := map snd gm.

(** One turn of the first loop of [groupFacts]. *)
Definition addFact (gm : GroupMap) (fact : NormalizedFact) : GroupMap :=
  if negb (truthy (Some (canonicalKey fact))) then gm
  else
    match mapGet (canonicalKey fact) gm with
    | Some existing =>
        mapSet (canonicalKey fact)
          {| key := key existing;
             facts := facts existing ++ [fact];
             providers := set_add string_dec (provider fact) (providers existing);
             reliabilityAverage := reliabilityAverage existing |} gm
    | None =>
        mapSet (canonicalKey fact)
          {| key := canonicalKey fact;
             facts := [fact];
             providers := [provider fact];
             reliabilityAverage := reliability fact |} gm
    end.

Definition groupFacts (fs : list NormalizedFact) : GroupMap :=
  let groups := fold_left addFact fs [] in
  map (fun '(k, g) =>
         (k, {| key := key g; facts := facts g; providers := providers g;
                reliabilityAverage := averageReliability (facts g) |}))
      groups.

(** The test under which [selectAcceptedGroup] replaces [best] by [group]. *)
Definition replaces (group best : EvidenceGroup) : bool :=
  let providerDelta :=
    (Z.of_nat (List.length (providers group))
     - Z.of_nat (List.length (providers best)))%Z in
  (0 <? providerDelta)%Z
  || ((providerDelta =? 0)%Z
      && ((reliabilityAverage best) <? (reliabilityAverage group))%float).

Definition selectAcceptedGroup (gm : GroupMap) : option EvidenceGroup :=
  fold_left (fun best group =>
               match best with
               | None => Some group
               | Some b => if replaces group b then Some group else Some b
               end)
            (mapValues gm) None.

Definition isFinalStatus (status : option string) : bool :=
  match status with
  | Some (String c r) =>
      let normalized := toLowerCase (String c r) in
      existsb (String.eqb normalized) FINAL_STATUS_KEYWORDS
      || includes normalized "final"
      || includes normalized "full"
      || includes normalized "completed"
  | _ => false
  end.

Definition filterFinalFacts (fs : list NormalizedFact) : list NormalizedFact :=
  let finals :=
    filter (fun fact => Category_eqb (category fact) cat_news
                        || isFinalStatus (status fact)) fs in
  match finals with
  | [] => fs
  | _ :: _ => finals
  end.

Fixpoint extractWinner (fs : list NormalizedFact) : option string :=
  match fs with
  | [] => None
  | fact :: rest =>
      if truthy (winner fact)
         && negb (match winner fact with
                  | Some w => w =? "draw"
                  | None => false
                  end)
      then winner fact
      else extractWinner rest
  end.

Definition computeConfidence (agreeingSources conflicts : nat)
  (avgReliability : float) : float :=
  let base :=
    (if (agreeingSources =? 3)%nat then 0.6
     else if (agreeingSources =? 4)%nat then 0.75
     else if (5 <=? agreeingSources)%nat then 0.9
     else 0.3)%float in
  let base := (base - Js.min 0.25 (Js.ofNat conflicts * 0.1))%float in
  let reliabilityAdjustment := ((avgReliability - 0.7) * 0.15)%float in
  (base + reliabilityAdjustment)%float.

Definition clampConfidence (value : float) : float :=
  if negb (Js.isFinite value) then 0
  else if (value <? 0)%float then 0
  else if (1 <? value)%float then 1
  else value.

(** [Array.from(new Set(sources))] of the defined source strings. *)
Definition gatherSources (fs : list NormalizedFact) : list string :=
  dedupe
    (definedStrings
       (map (fun fact => match sourceUrl fact with
                         | Some url => Some url
                         | None => Some (provider fact)
                         end) fs)).

Definition countDistinctProviders (fs : list NormalizedFact) : nat :=
  List.length (dedupe (map provider fs)).

Definition countConflicts (gm : GroupMap) (acceptedKey : string) : nat :=
  List.length
    (filter (fun '(k, group) =>
               negb (k =? acceptedKey)
               && (0 <? List.length (providers group))%nat) gm).

Section Host.

(** [Date.now()], [Date.parse], the printing of a number inside a
    template string, and the advisory model call. *)
Variable now : Z.
Variable dateParse : string -> option Z.
Variable numberToString : float -> string.
Variable summarizeWithModel :
  string -> QuerySchema.StructuredQuery -> string -> SummaryContext ->
  option ModelSummary.

Definition isRecent (fact : NormalizedFact) : bool :=
  let horizon := (72 * 60 * 60 * 1000)%Z in
  match endTimestamp fact with
  | Some (String c r) =>
      match dateParse (String c r) with
      | Some ts => (now - ts <? horizon)%Z
      | None => false
      end
  | _ => false
  end.

Definition computeFreshnessBonus (fs : list NormalizedFact) : float :=
  let recent := filter isRecent fs in
  if (List.length recent =? List.length fs)%nat && (0 <? List.length fs)%nat
  then 0.05
  else if (Nat.div2 (List.length fs + 1) <=? List.length recent)%nat
  then 0.02
  else 0.

Definition hasScoreline (item : NormalizedFact) : bool :=
  match homeScore item, awayScore item with
  | Some _, Some _ => truthy (homeTeam item) && truthy (awayTeam item)
  | _, _ => false
  end.

Definition text (o : option string) : string :=
  match o with
  | Some s => s
  | None => "undefined"
  end.

Definition number (o : option float) : string :=
  match o with
  | Some q => numberToString q
  | None => "undefined"
  end.

Definition deriveResolution (structured : QuerySchema.StructuredQuery)
  (fs : list NormalizedFact) (winner : option string) : string :=
  let awardPlayer :=
    match QuerySchema.questionType structured with
    | QuerySchema.player_award =>
        if truthy winner then None
        else
          match find (fun fact => Category_eqb (category fact) cat_award
                                  && truthy (player fact)) fs with
          | Some awardFact => player awardFact
          | None => None
          end
    | _ => None
    end in
  match awardPlayer with
  | Some (String c r) => String c r
  | _ =>
      match winner with
      | Some (String c r) =>
          let w := String c r in
          match QuerySchema.questionType structured with
          | QuerySchema.did_result_happen =>
              match QuerySchema.teams structured with
              | String tc tr :: _ =>
                  if normalizeValue (Some w)
                     =? normalizeValue (Some (String tc tr))
                  then "yes" else "no"
              | _ => "insufficient_data"
              end
          | QuerySchema.who_won => w
          | QuerySchema.scoreline =>
              match find hasScoreline fs with
              | Some fact =>
                  text (homeTeam fact) ++ " " ++ number (homeScore fact)
                  ++ "-" ++ number (awayScore fact) ++ " "
                  ++ text (awayTeam fact)
              | None => w
              end
          | _ => w
          end
      | _ => "insufficient_data"
      end
  end.

Definition buildDefaultReasoning (fs : list NormalizedFact)
  (providerCount : nat) (winner : option string)
  (structured : QuerySchema.StructuredQuery) : string :=
  let providerList := join ", " (slice0 3 (dedupe (map provider fs))) in
  match winner, QuerySchema.questionType structured with
  | Some (String c r), QuerySchema.did_result_happen =>
      let targetTeam := hd_error (QuerySchema.teams structured) in
      let outcome :=
        if normalizeValue winner =? normalizeValue targetTeam
        then "won" else "did not win" in
      match targetTeam with
      | Some t => t
      | None => "The team"
      end ++ " " ++ outcome ++ ", corroborated by " ++ providerList ++ "."
  | Some (String c r), _ =>
      String c r ++ " confirmed as winner by " ++ providerList ++ "."
  | _, _ =>
      match fs with
      | fact :: _ =>
          if hasScoreline fact
          then display fact ++ " confirmed by " ++ providerList ++ "."
          else "Outcome corroborated by "
               ++ numberToString (Js.ofNat providerCount)
               ++ " independent sources: " ++ providerList ++ "."
      | [] =>
          "Outcome corroborated by "
          ++ numberToString (Js.ofNat providerCount)
          ++ " independent sources: " ++ providerList ++ "."
      end
  end.

(** [analyzeArtifacts] from the normalized facts on: the provider
    payloads are normalized before this point. *)
Definition analyzeArtifacts (normalized : list NormalizedFact)
  (errs : list string) : AnalysisResult :=
  let groups := groupFacts normalized in
  {| normalizedFacts := normalized; groups := groups;
     acceptedGroup := selectAcceptedGroup groups; errors := errs |}.

Definition decideResolution (query : string)
  (structured : QuerySchema.StructuredQuery) (agentSummary : string)
  (analysis : AnalysisResult) : ResolutionDecision :=
  let baselineConfidence := 0.25 in
  let decision :=
    {| resolution := "insufficient_data";
       confidence := baselineConfidence;
       reasoning := "Insufficient corroboration from independent sources.";
       sources := [];
       modelSummary := None;
       acceptedGroupKey := None;
       finalFacts := [];
       decisionErrors := errors analysis |} in
  match acceptedGroup analysis with
  | None => decision
  | Some group =>
      let finalFacts := filterFinalFacts (facts group) in
      let providerCount := countDistinctProviders finalFacts in
      if (providerCount <? MIN_CORROBORATING_PROVIDERS)%nat
      then
        {| resolution := "insufficient_data";
           confidence := 0.3;
           reasoning :=
             "Fewer than three independent sources confirmed the outcome.";
           sources := [];
           modelSummary := None;
           acceptedGroupKey := Some (key group);
           finalFacts := finalFacts;
           decisionErrors := errors analysis |}
      else
        let winner := extractWinner finalFacts in
        let resolution := deriveResolution structured finalFacts winner in
        if resolution =? "insufficient_data"
        then
          {| resolution := "insufficient_data";
             confidence := 0.3;
             reasoning :=
               "Unable to confirm a definitive outcome despite multiple sources.";
             sources := [];
             modelSummary := None;
             acceptedGroupKey := Some (key group);
             finalFacts := finalFacts;
             decisionErrors := errors analysis |}
        else
          let conflicts := countConflicts (groups analysis) (key group) in
          let avgReliability := averageReliability finalFacts in
          let freshnessBonus := computeFreshnessBonus finalFacts in
          let confidence :=
            clampConfidence
              (computeConfidence providerCount conflicts avgReliability
               + freshnessBonus) in
          let sources := slice0 MAX_SOURCE_COUNT (gatherSources finalFacts) in
          let reasoning :=
            buildDefaultReasoning finalFacts providerCount winner structured in
          let summary :=
            summarizeWithModel query structured (key group)
              {| ctx_resolution := resolution;
                 ctx_confidence := confidence;
                 ctx_providers := sources;
                 ctx_winner := winner;
                 ctx_agentSummary := agentSummary |} in
          match summary with
          | None =>
              {| resolution := resolution;
                 confidence := confidence;
                 reasoning := reasoning;
                 sources := sources;
                 modelSummary := None;
                 acceptedGroupKey := Some (key group);
                 finalFacts := finalFacts;
                 decisionErrors := errors analysis |}
          | Some sm =>
              {| resolution := resolution;
                 confidence :=
                   match ms_confidence sm with
                   | Some c => clampConfidence ((confidence + c) / 2)
                   | None => confidence
                   end;
                 reasoning :=
                   match ms_reasoning sm with
                   | Some (String c r) => String c r
                   | _ => reasoning
                   end;
                 sources :=
                   match ms_sources sm with
                   | [] => sources
                   | _ :: _ =>
                       slice0 MAX_SOURCE_COUNT
                         (dedupe (sources ++ ms_sources sm))
                   end;
                 modelSummary := Some sm;
                 acceptedGroupKey := Some (key group);
                 finalFacts := finalFacts;
                 decisionErrors :=
                   if truthy (ms_resolution sm)
                      && negb (normalizeValue (ms_resolution sm)
                               =? normalizeValue (Some resolution))
                   then errors analysis
                        ++ ["LLM resolution differed from deterministic resolution; deterministic result retained."]
                   else errors analysis |}
          end
  end.

End Host.

End Resolver.

(** ** stats/types.ts

    One module per interface, so that the fields keep their names.  Fields
    that no modelled function reads ([rawValue], [metadata], [evidence],
    [match] of a normalized statistic, [payload], [meta]) are left out. *)

Module StatisticUnit.
Inductive t := count | percentage | minutes | yards | other.
Definition eqb (a b : t) : bool :=
  match a, b with
  | count, count | percentage, percentage | minutes, minutes
  | yards, yards | other, other => true
  | _, _ => false
  end.
End StatisticUnit.

Module StatisticPeriod.
Inductive t :=
| full_time | first_half | second_half | extra_time | overtime | quarter
| other.
End StatisticPeriod.

Module StatisticAggregation.
Inductive t := total | per_team | per_player | difference | average | other.
End StatisticAggregation.

Module StatisticQueryType.
Inductive t := match_statistic | player_statistic | team_aggregate | threshold.
End StatisticQueryType.

Module Comparator.
(** [">" | ">=" | "<" | "<=" | "="] *)
Inductive t := gt | ge | lt | le | eq.
End Comparator.

(** [StatisticType] is a closed set of strings; the code concatenates and
    searches them, so they stay strings. *)
Definition StatisticType := string.

Module StatisticSource.
(** [timestamp] is [Some] epoch milliseconds for a [Date], and [None] for
    a value that is not a [Date]. *)
Record t := {
  source : string;
  tier : Z;
  weight : float;
  parsedValue : option float;
  timestamp : option Z
}.
End StatisticSource.

Module NormalizedStatistic.
Record t := {
  type : StatisticType;
  team : option string;
  player : option string;
  value : float;
  unit : StatisticUnit.t;
  period : StatisticPeriod.t;
  aggregation : StatisticAggregation.t;
  sources : list StatisticSource.t
}.
End NormalizedStatistic.

Module MatchEntities.
Record t := {
  homeTeam : option string;
  awayTeam : option string;
  date : option Z;
  competition : option string;
  matchId : option string
}.
End MatchEntities.

Module Entities.
Record t := {
  match_ : option MatchEntities.t;
  team : option string;
  player : option string;
  competition : option string
}.
End Entities.

Module StatisticsQuery.
Record t := {
  queryType : StatisticQueryType.t;
  statisticType : StatisticType;
  entities : Entities.t;
  aggregation : option StatisticAggregation.t;
  period : option StatisticPeriod.t;
  threshold : option float;
  comparator : option Comparator.t;
  eventEndTime : option Z;
  canResolveNow : bool;
  rawText : string
}.
End StatisticsQuery.

Module StatisticConsensus.
Record t := {
  statisticType : StatisticType;
  agreed : bool;
  agreedValue : option float;
  unit : StatisticUnit.t;
  agreementCount : nat;
  variance : float;
  outliers : list (string * float);
  tier1Count : nat;
  statsProviderCount : nat;
  officialSourcePresent : bool;
  bettingMarketAlignment : bool;
  supportingSources : list StatisticSource.t
}.
End StatisticConsensus.

Module StatisticsValidationSummary.
Record t := {
  withinRange : bool;
  logicallyConsistent : bool;
  warnings : list string;
  invalidSources : list string
}.
End StatisticsValidationSummary.

Module StatisticProviderResponse.
Record t := {
  provider : string;
  tier : Z;
  weight : float;
  collectedAt : Z
}.
End StatisticProviderResponse.

Module StatisticsResolutionArtifacts.
Record t := {
  providers : list StatisticProviderResponse.t;
  normalizedStatistics : list NormalizedStatistic.t;
  validation : option StatisticsValidationSummary.t;
  consensus : option StatisticConsensus.t;
  confidence : option float;
  errors : list string;
  warnings : list string
}.
End StatisticsResolutionArtifacts.

(** ** stats/consensus.ts *)

Module Consensus.
Import Js.

Definition STATS_PROVIDER_NAMES : list string :=
  ["OPTA_STATS"; "STATSBOMB"; "SPORTSRADAR"].

(** [a && b && a !== b] on two optional strings. *)
Definition differs (a b : option string) : bool :=
  match a, b with
  | Some (String c r), Some (String c' r') =>
      negb (String c r =? String c' r')
  | _, _ => false
  end.

Definition matchesQuery (stat : NormalizedStatistic.t)
  (query : StatisticsQuery.t) : bool :=
  if negb (NormalizedStatistic.type stat =? StatisticsQuery.statisticType query)
  then false
  else if differs (Entities.team (StatisticsQuery.entities query))
                  (NormalizedStatistic.team stat)
  then false
  else if differs (Entities.player (StatisticsQuery.entities query))
                  (NormalizedStatistic.player stat)
  then false
  else true.

Definition flattenSources (stats : list NormalizedStatistic.t)
  : list StatisticSource.t :=
  flat_map NormalizedStatistic.sources stats.

(** [values.filter(candidate => Math.abs(candidate - value) <= tolerance).length] *)
Definition peersWithin (tolerance : float) (values : list float)
  (value : float) : nat :=
  List.length
    (filter (fun candidate => (abs (candidate - value) <=? tolerance)%float)
            values).

(** [findConsensusValue]: [NaN] and no agreement for no value. *)
Definition findConsensusValue (values : list float) (tolerance : float)
  : float * nat :=
  match values with
  | [] => (nan, 0%nat)
  | first :: _ =>
      fold_left
        (fun '(bestValue, bestCount) value =>
           let count := peersWithin tolerance values value in
           if (bestCount <? count)%nat
              || ((count =? bestCount)%nat && (value <? bestValue)%float)
           then (value, count)
           else (bestValue, bestCount))
        values (first, 1%nat)
  end.

(** [values.reduce((sum, value) => sum + value, 0)] *)
Definition sum (values : list float) : float :=
  fold_left (fun acc value => (acc + value)%float) values 0%float.

Section Host.

(** [base ** exponent]: the power is approximated by the host. *)
Variable pow : float -> float -> float.

Definition calculateVariance (values : list float) : float :=
  match values with
  | [] => 0
  | _ :: _ =>
      let n := Js.ofNat (List.length values) in
      let mean := (sum values / n)%float in
      let squaredDiff := map (fun value => pow (value - mean) 2) values in
      (sum squaredDiff / n)%float
  end.

(** [/BETTING|ODDS|SETTLEMENT/i] *)
Definition bettingRegex : Regex.re :=
  Regex.alts [Regex.liti "BETTING"; Regex.liti "ODDS"; Regex.liti "SETTLEMENT"].

Definition firstUnit (relevant : list NormalizedStatistic.t)
  : option StatisticUnit.t :=
  option_map NormalizedStatistic.unit (hd_error relevant).

Definition isPercentage (u : option StatisticUnit.t) : bool :=
  match u with
  | Some StatisticUnit.percentage => true
  | _ => false
  end.

Definition computeStatisticConsensus (normalized : list NormalizedStatistic.t)
  (query : StatisticsQuery.t) : option StatisticConsensus.t :=
  let relevant := filter (fun stat => matchesQuery stat query) normalized in
  match relevant with
  | [] => None
  | _ :: _ =>
      let sources := flattenSources relevant in
      let tolerance : float :=
        if isPercentage (firstUnit relevant) then 1 else 0 in
      let values := map NormalizedStatistic.value relevant in
      let '(agreedValue, agreementCount) := findConsensusValue values tolerance in
      let variance := calculateVariance values in
      let outliers :=
        map (fun stat =>
               (match hd_error (NormalizedStatistic.sources stat) with
                | Some s => StatisticSource.source s
                | None => "unknown"
                end,
                NormalizedStatistic.value stat))
            (filter (fun stat =>
                       (tolerance
                        <? abs (NormalizedStatistic.value stat - agreedValue))%float)
                    relevant) in
      let tier1Count :=
        List.length (filter (fun s => (StatisticSource.tier s =? 1)%Z) sources) in
      let statsProviderCount :=
        List.length
          (filter (fun s => existsb (String.eqb (StatisticSource.source s))
                                    STATS_PROVIDER_NAMES) sources) in
      let officialSourcePresent := (0 <? tier1Count)%nat in
      let bettingMarketAlignment :=
        existsb (fun s => Regex.test bettingRegex (StatisticSource.source s))
                sources in
      let agreed :=
        (3 <=? agreementCount)%nat && (1 <=? statsProviderCount)%nat
        && (variance <=? (if isPercentage (firstUnit relevant) then 4 else 1))%float in
      Some {| StatisticConsensus.statisticType := StatisticsQuery.statisticType query;
              StatisticConsensus.agreed := agreed;
              StatisticConsensus.agreedValue :=
                if Js.isFinite agreedValue then Some agreedValue else None;
              StatisticConsensus.unit :=
                match firstUnit relevant with
                | Some u => u
                | None => StatisticUnit.count
                end;
              StatisticConsensus.agreementCount := agreementCount;
              StatisticConsensus.variance := variance;
              StatisticConsensus.outliers := outliers;
              StatisticConsensus.tier1Count := tier1Count;
              StatisticConsensus.statsProviderCount := statsProviderCount;
              StatisticConsensus.officialSourcePresent := officialSourcePresent;
              StatisticConsensus.bettingMarketAlignment := bettingMarketAlignment;
              StatisticConsensus.supportingSources := sources |}
  end.

End Host.

End Consensus.

(** ** stats/confidence.ts *)

Module Confidence.
Import Js.

Record StatisticsConfidenceFactors := {
  officialStatsProviderAgreement : float;
  officialLeagueAPIAgreement : float;
  totalSourceAgreement : float;
  bettingMarketAlignment : float;
  lowVariance : float;
  dataFreshnessScore : float;
  adjustments : list (string * float)
}.

Record ConfidenceComputationResult := {
  score : float;
  factors : StatisticsConfidenceFactors
}.

Definition clamp01 (value : float) : float := Js.max 0 (Js.min 1 value).

Definition gatherSources (normalized : list NormalizedStatistic.t)
  : list StatisticSource.t :=
  flat_map NormalizedStatistic.sources normalized.

Definition computeFreshnessScore (now : Z) (sources : list StatisticSource.t)
  : float :=
  match sources with
  | [] => 0
  | _ :: _ =>
      let ages :=
        flat_map (fun s => match StatisticSource.timestamp s with
                           | Some ts => [Js.ofZ (now - ts) / Js.ofZ (1000 * 60)]
                           | None => []
                           end) sources in
      match ages with
      | [] => 0.5
      | _ :: _ =>
          let averageAgeMinutes :=
            fold_left (fun acc age => acc + age) ages 0
            / Js.ofNat (List.length ages) in
          if (averageAgeMinutes <=? 15)%float then 1
          else if (averageAgeMinutes <=? 60)%float then 0.8
          else if (averageAgeMinutes <=? 180)%float then 0.6
          else if (averageAgeMinutes <=? 720)%float then 0.4
          else 0.2
      end
  end.

Definition unusualValue (validation : option StatisticsValidationSummary.t)
  : bool :=
  match validation with
  | Some v =>
      existsb (fun warning => startsWith warning "Unusual value")
              (StatisticsValidationSummary.warnings v)
  | None => false
  end.

Definition computeConfidenceScore (now : Z)
  (consensus : option StatisticConsensus.t)
  (normalized : list NormalizedStatistic.t)
  (validation : option StatisticsValidationSummary.t)
  : ConfidenceComputationResult :=
  let sources := gatherSources normalized in
  let officialStatsProviderAgreement : float :=
    match consensus with
    | Some c => if (0 <? StatisticConsensus.statsProviderCount c)%nat then 1 else 0
    | None => 0
    end in
  let officialLeagueAPIAgreement : float :=
    match consensus with
    | Some c => if (0 <? StatisticConsensus.tier1Count c)%nat then 1 else 0
    | None => 0
    end in
  let agreementDenominator := Nat.max 3 (List.length sources) in
  let totalSourceAgreement : float :=
    match consensus with
    | Some c =>
        Js.min 1 (Js.ofNat (StatisticConsensus.agreementCount c)
                / Js.ofNat agreementDenominator)
    | None => 0
    end in
  let bettingMarketAlignment : float :=
    match consensus with
    | Some c => if StatisticConsensus.bettingMarketAlignment c then 1 else 0
    | None => 0
    end in
  let varianceThreshold : float :=
    match consensus with
    | Some c =>
        if StatisticUnit.eqb (StatisticConsensus.unit c) StatisticUnit.percentage
        then 4 else 1
    | None => 1
    end in
  let normalizedVariance : float :=
    match consensus with
    | Some c => StatisticConsensus.variance c / varianceThreshold
    | None => 0
    end in
  let lowVariance : float :=
    match consensus with
    | Some _ => clamp01 (1 - Js.min 1 normalizedVariance)
    | None => 0
    end in
  let dataFreshnessScore := computeFreshnessScore now sources in
  let score0 :=
    officialStatsProviderAgreement * 0.4
    + officialLeagueAPIAgreement * 0.25
    + totalSourceAgreement * 0.15
    + bettingMarketAlignment * 0.1
    + lowVariance * 0.05
    + dataFreshnessScore * 0.05 in
  let highVariance :=
    match consensus with
    | Some c => (2 <? (StatisticConsensus.variance c))%float
    | None => false
    end in
  let multipleOutliers :=
    match consensus with
    | Some c => (1 <? List.length (StatisticConsensus.outliers c))%nat
    | None => false
    end in
  let unusual := unusualValue validation in
  let score1 := if highVariance then score0 * 0.8 else score0 in
  let score2 := if multipleOutliers then score1 * 0.9 else score1 in
  let score3 := if unusual then score2 * 0.95 else score2 in
  {| score := clamp01 score3;
     factors :=
       {| officialStatsProviderAgreement := officialStatsProviderAgreement;
          officialLeagueAPIAgreement := officialLeagueAPIAgreement;
          totalSourceAgreement := totalSourceAgreement;
          bettingMarketAlignment := bettingMarketAlignment;
          lowVariance := lowVariance;
          dataFreshnessScore := dataFreshnessScore;
          adjustments :=
            (if highVariance then [("High variance", 0.8)] else [])
            ++ (if multipleOutliers then [("Multiple outliers", 0.9)] else [])
            ++ (if unusual then [("Unusual statistic value", 0.95)] else []) |} |}.

End Confidence.

(** ** stats/graph.ts and stats/resolver.ts: the statistic pipeline *)

Module StatsResolver.
Import Js.
Local Open Scope string_scope.

Record StatisticsResolutionResult := {
  resolution : string;
  confidence : float;
  reasoning : string;
  sources : list string
}.

(** [runStatisticsGraph] from the [consensus] node on.  The nodes before
    it (fetch, normalize, validate) are given by what they left in the
    state; [pow] is the power of the host. *)
Definition runStatisticsGraph (pow : float -> float -> float) (now : Z)
  (providerResponses : list StatisticProviderResponse.t)
  (normalized : list NormalizedStatistic.t)
  (validation : option StatisticsValidationSummary.t)
  (errors warnings : list string)
  (query : StatisticsQuery.t) : StatisticsResolutionArtifacts.t :=
  let consensus := Consensus.computeStatisticConsensus pow normalized query in
  let result := Confidence.computeConfidenceScore now consensus normalized validation in
  {| StatisticsResolutionArtifacts.providers := providerResponses;
     StatisticsResolutionArtifacts.normalizedStatistics := normalized;
     StatisticsResolutionArtifacts.validation := validation;
     StatisticsResolutionArtifacts.consensus := consensus;
     StatisticsResolutionArtifacts.confidence := Some (Confidence.score result);
     StatisticsResolutionArtifacts.errors := errors;
     StatisticsResolutionArtifacts.warnings := warnings |}.

Definition evaluateThreshold (value : float) (comparator : Comparator.t)
  (threshold : float) : bool :=
  match comparator with
  | Comparator.gt => (threshold <? value)%float
  | Comparator.ge => (threshold <=? value)%float
  | Comparator.lt => (value <? threshold)%float
  | Comparator.le => (value <=? threshold)%float
  | Comparator.eq => (value =? threshold)%float
  end.

Definition selectSources (consensus : option StatisticConsensus.t)
  (providers : list StatisticProviderResponse.t) : list string :=
  match consensus with
  | Some c =>
      slice0 8 (map StatisticSource.source (StatisticConsensus.supportingSources c))
  | None => slice0 8 (map StatisticProviderResponse.provider providers)
  end.

Section Host.

(** The printing of a number inside a template string. *)
Variable numberToString : float -> string.

Definition isThreshold (t : StatisticQueryType.t) : bool :=
  match t with
  | StatisticQueryType.threshold => true
  | _ => false
  end.

Definition buildResolution (consensus : option StatisticConsensus.t)
  (query : StatisticsQuery.t) : string :=
  match consensus with
  | None => "insufficient_data"
  | Some c =>
      match StatisticConsensus.agreedValue c with
      | None => "insufficient_data"
      | Some agreedValue =>
          if is_nan agreedValue then "insufficient_data"
          else
            match isThreshold (StatisticsQuery.queryType query),
                  StatisticsQuery.threshold query,
                  StatisticsQuery.comparator query with
            | true, Some threshold, Some comparator =>
                if evaluateThreshold agreedValue comparator threshold
                then "yes" else "no"
            | _, _, _ =>
                let unitSuffix :=
                  if StatisticUnit.eqb (StatisticConsensus.unit c)
                                       StatisticUnit.percentage
                  then "%" else "" in
                StatisticsQuery.statisticType query ++ ":"
                ++ numberToString agreedValue ++ unitSuffix
            end
      end
  end.

Definition count (n : nat) : string :=
  numberToString (Js.ofNat n).

Definition buildReasoning (consensus : option StatisticConsensus.t)
  (query : StatisticsQuery.t) (validationWarnings errors : list string)
  : string :=
  match consensus with
  | None => "No consensus reached across statistics providers."
  | Some c =>
      let base :=
        "Consensus value for " ++ StatisticsQuery.statisticType query
        ++ " is "
        ++ match StatisticConsensus.agreedValue c with
           | Some v => numberToString v
           | None => "null"
           end
        ++ " based on " ++ count (StatisticConsensus.agreementCount c)
        ++ " sources." in
      let tierInfo :=
        " Tier-1 sources: " ++ count (StatisticConsensus.tier1Count c)
        ++ ", stats providers: "
        ++ count (StatisticConsensus.statsProviderCount c) ++ "." in
      let warningText :=
        match validationWarnings with
        | [] => ""
        | _ :: _ => " Warnings: " ++ join "; " validationWarnings ++ "."
        end in
      let errorText :=
        match errors with
        | [] => ""
        | _ :: _ => " Data quality notes: " ++ join "; " errors ++ "."
        end in
      trim (base ++ tierInfo ++ warningText ++ errorText)
  end.

(** [resolveStatisticsQuery] after the graph has run; the evidence
    record wraps the artifacts and is left out. *)
Definition resolveStatisticsQuery
  (artifacts : StatisticsResolutionArtifacts.t)
  (statsQuery : StatisticsQuery.t) : StatisticsResolutionResult :=
  let consensus := StatisticsResolutionArtifacts.consensus artifacts in
  let confidence :=
    match StatisticsResolutionArtifacts.confidence artifacts with
    | Some c => c
    | None => 0.15
    end in
  {| resolution := buildResolution consensus statsQuery;
     confidence := confidence;
     reasoning :=
       buildReasoning consensus statsQuery
         match StatisticsResolutionArtifacts.validation artifacts with
         | Some v => StatisticsValidationSummary.warnings v
         | None => []
         end
         (StatisticsResolutionArtifacts.errors artifacts);
     sources :=
       selectSources consensus
         (StatisticsResolutionArtifacts.providers artifacts) |}.

End Host.

End StatsResolver.

(** ** stats/queryClassifier.ts: the statistic-query classifier *)

Module QueryClassifier.
Import Js Regex.

Definition STATISTIC_SYNONYMS : list (StatisticType * list string) :=
  [("yellow_cards", ["yellow card"; "booking"; "caution"]);
   ("red_cards", ["red card"; "sent off"]);
   ("total_cards", ["total cards"; "cards overall"; "over cards"]);
   ("corners", ["corner"; "corner kick"]);
   ("shots_on_target", ["shots on target"; "shot on goal"; "shot on frame"]);
   ("shots_total", ["shot"; "shots total"; "shots overall"]);
   ("fouls", ["foul"; "fouls committed"; "personal fouls"]);
   ("possession", ["possession"; "ball possession"]);
   ("passes", ["passes"; "pass completed"]);
   ("pass_accuracy", ["pass accuracy"; "passing accuracy"]);
   ("key_passes", ["key pass"]);
   ("saves", ["save"; "goalkeeper save"]);
   ("tackles", ["tackle"]);
   ("free_kicks", ["free kick"]);
   ("penalties_awarded", ["penalties awarded"; "penalty won"]);
   ("penalties_scored", ["penalties scored"; "penalty scored"]);
   ("technical_fouls", ["technical foul"]);
   ("flagrant_fouls", ["flagrant foul"]);
   ("turnovers", ["turnover"]);
   ("rebounds_offensive", ["offensive rebound"]);
   ("rebounds_defensive", ["defensive rebound"]);
   ("rebounds_total", ["total rebounds"; "rebound"]);
   ("blocks", ["block"; "blocked shot"]);
   ("steals", ["steal"]);
   ("three_pointers_made", ["three pointer made"; "3pt made"]);
   ("three_pointers_attempted", ["three pointer attempted"; "3pt attempted"]);
   ("free_throws_made", ["free throw made"]);
   ("free_throws_attempted", ["free throw attempted"]);
   ("minutes_played", ["minutes played"; "playing time"]);
   ("penalties", ["penalties"; "penalty"]);
   ("penalty_yards", ["penalty yards"]);
   ("interceptions", ["interception"; "interceptions"]);
   ("fumbles", ["fumble"]);
   ("sacks", ["sack"]);
   ("time_of_possession", ["time of possession"]);
   ("third_down_conversions", ["third down conversion"]);
   ("red_zone_efficiency", ["red zone"; "red-zone efficiency"]);
   ("goals", ["goal"; "goals scored"]);
   ("assists", ["assist"; "assists"])].

(** The UTF-8 bytes of the signs "greater than or equal" (U+2265) and
    "less than or equal" (U+2264). *)
Definition geSign : string :=
  String (ascii_of_nat 226) (String (ascii_of_nat 137) (String (ascii_of_nat 165) "")).
Definition leSign : string :=
  String (ascii_of_nat 226) (String (ascii_of_nat 137) (String (ascii_of_nat 164) "")).

(** [/<keyword>\s+(\d+(?:\.\d+)?)/i] *)
Definition keywordThenNumber (keyword : string) : re :=
  seqs [liti keyword; plus ws; Grp decimal].

Definition THRESHOLD_KEYWORDS : list (re * option Comparator.t) :=
  [(keywordThenNumber "over", Some Comparator.gt);
   (keywordThenNumber "under", Some Comparator.lt);
   (keywordThenNumber "more than", Some Comparator.gt);
   (keywordThenNumber "less than", Some Comparator.lt);
   (keywordThenNumber "at least", Some Comparator.ge);
   (keywordThenNumber "at most", Some Comparator.le);
   (* /(\d+(?:\.\d+)?)\+\s+(?:line|cards|corners)/i *)
   (seqs [Grp decimal; chr "+"; plus ws;
          alts [liti "line"; liti "cards"; liti "corners"]],
    Some Comparator.ge);
   (* /(?:>=|U+2265)\s*(\d+(?:\.\d+)?)/ *)
   (seqs [alts [lit ">="; lit geSign]; star ws; Grp decimal], Some Comparator.ge);
   (* /(?:<=|U+2264)\s*(\d+(?:\.\d+)?)/ *)
   (seqs [alts [lit "<="; lit leSign]; star ws; Grp decimal], Some Comparator.le)].

(** [\b[A-Z][\w'&-]+(?:\s+[A-Z][\w'&-]+){0,2}], inside a group *)
Definition TEAM_IN_QUERY_REGEX : re :=
  let word :=
    Seq (Cls is_upper)
        (plus (Cls (fun c => is_word c || Ascii.eqb c "'" || Ascii.eqb c "&"
                             || Ascii.eqb c "-"))) in
  Grp (seqs [WordB; word; upto 2 (Seq (plus ws) word)]).

(** [[A-Z][\w'-]+(?:\s+[A-Z][\w'-]+){0,2}] under the [i] flag, inside a
    group: the class [A-Z] then takes a letter of either case. *)
Definition properNameI : re :=
  let word :=
    Seq (Cls (fun c => is_upper c || is_lower c))
        (plus (Cls (fun c => is_word c || Ascii.eqb c "'" || Ascii.eqb c "-"))) in
  Grp (Seq word (upto 2 (Seq (plus ws) word))).

(** [Number.parseFloat] of text of the shape [\d+(?:\.\d+)?]; [None] is
    [NaN]. *)
Definition parseFloat (s : string) : option float :=
  match s with
  | String c _ =>
      if is_digit c
      then
        let '(num, den, _) :=
          fold_left
            (fun '(num, den, afterDot) ch =>
               if Ascii.eqb ch "."
               then (num, den, true)
               else
                 let d := (Z.of_nat (nat_of_ascii ch) - 48)%Z in
                 ((10 * num + d)%Z,
                  if afterDot then (10 * den)%positive else den,
                  afterDot))
            (list_ascii_of_string s) (0%Z, 1%positive, false) in
        Some (Js.ofDecimal false num den)
      else None
  | EmptyString => None
  end.

Definition inferStatisticType (lower : string) : option StatisticType :=
  match find (fun entry => existsb (fun syn => includes lower syn) (snd entry))
             STATISTIC_SYNONYMS with
  | Some entry => Some (fst entry)
  | None =>
      if test (seqs [liti "shots"; plus ws; liti "on"; plus ws; liti "goal"]) lower
      then Some "shots_on_target"
      else if test (seqs [liti "total"; plus ws; liti "cards"]) lower
      then Some "total_cards"
      else None
  end.

Definition determineAggregation (lower : string) : StatisticAggregation.t :=
  if test (seqs [liti "per"; plus ws; liti "team"]) lower
  then StatisticAggregation.per_team
  else if test (alts [seqs [liti "per"; plus ws; liti "player"];
                      seqs [liti "each"; plus ws; liti "player"]]) lower
  then StatisticAggregation.per_player
  else if test (alts [liti "average"; liti "avg"; liti "mean"]) lower
  then StatisticAggregation.average
  else if test (alts [liti "difference"; liti "margin"]) lower
  then StatisticAggregation.difference
  else StatisticAggregation.total.

Definition inferPeriod (lower : string) : StatisticPeriod.t :=
  if test (alts [seqs [liti "first"; plus ws; liti "half"];
                 seqs [liti "1st"; plus ws; liti "half"]]) lower
  then StatisticPeriod.first_half
  else if test (alts [seqs [liti "second"; plus ws; liti "half"];
                      seqs [liti "2nd"; plus ws; liti "half"]]) lower
  then StatisticPeriod.second_half
  else if test (alts [seqs [liti "extra"; plus ws; liti "time"];
                      seqs [liti "after"; plus ws; liti "extra"]]) lower
  then StatisticPeriod.extra_time
  else if test (alts [liti "overtime"; Seq (liti "OT") WordB]) lower
  then StatisticPeriod.overtime
  else if test (liti "quarter") lower
  then StatisticPeriod.quarter
  else StatisticPeriod.full_time.

(** [s.split(r)[0]]: the text before the first place where [r] matches
    with a non-empty piece or match behind it; [None] when the array is
    empty. *)
Fixpoint firstPiece (r : re) (q : nat) (pv : option ascii)
  (before txt : list ascii) : list ascii :=
  match txt with
  | [] => rev before
  | c :: t =>
      match m r {| pos := q; prev := pv; rest := txt; cap := None |} Some with
      | Some s' =>
          if (pos s' =? 0)%nat
          then firstPiece r (S q) (Some c) (c :: before) t
          else rev before
      | None => firstPiece r (S q) (Some c) (c :: before) t
      end
  end.

Definition splitFirst (r : re) (s : string) : option string :=
  match list_ascii_of_string s with
  | [] =>
      match m r {| pos := 0; prev := None; rest := []; cap := None |} Some with
      | Some _ => None
      | None => Some ""
      end
  | txt => Some (text_of (firstPiece r 0 None [] txt))
  end.

(** [/\b(?:vs\.?|versus|against)\b/i] *)
Definition delimiterRegex : re :=
  seqs [WordB;
        alts [Seq (liti "vs") (opt (chr ".")); liti "versus"; liti "against"];
        WordB].

Definition extractMatchEntities (query : string)
  (metadata : Utils.QueryMetadata) : option string * option string :=
  let lowered := toLowerCase query in
  let fromDelimiter :=
    match exec delimiterRegex lowered with
    | Some delimiterMatch =>
        let delimiterIndex := index delimiterMatch in
        let before := trim (sliceTo delimiterIndex query) in
        let after :=
          trim (sliceFrom (delimiterIndex + String.length (matched delimiterMatch))
                          query) in
        let homeTeam :=
          option_map trim
            (splitFirst (seqs [WordB; Grp (alts [liti "on"; liti "at"]); WordB])
                        before) in
        let awayTeam :=
          option_map trim
            (splitFirst (seqs [WordB;
                               Grp (alts [liti "on"; liti "at"; chr "?"; Eol])])
                        after) in
        if truthy homeTeam && truthy awayTeam
        then Some (homeTeam, awayTeam) else None
    | None => None
    end in
  match fromDelimiter with
  | Some found => found
  | None =>
      match Utils.teams metadata with
      | first :: second :: _ => (Some first, Some second)
      | _ =>
          let capitalized :=
            filter (fun team => (2 <? String.length team)%nat)
                   (matchAll1 TEAM_IN_QUERY_REGEX query) in
          match capitalized with
          | first :: second :: _ => (Some first, Some second)
          | _ => (None, None)
          end
      end
  end.

Definition extractPlayerCandidate (query : string) : option string :=
  match exec (seqs [liti "did"; plus ws; properNameI]) query with
  | Some didMatch => option_map trim (group1 didMatch)
  | None =>
      match exec (seqs [alts [liti "by"; liti "from"; liti "for"]; plus ws;
                        properNameI]) query with
      | Some byMatch => option_map trim (group1 byMatch)
      | None => None
      end
  end.

(** [/over\s|under\s|more than|less than|at least|at most|\d+\.5|\d+\+/] *)
Definition thresholdHint : re :=
  alts [Seq (lit "over") ws; Seq (lit "under") ws; lit "more than";
        lit "less than"; lit "at least"; lit "at most";
        seqs [plus digit; chr "."; chr "5"]; Seq (plus digit) (chr "+")].

Definition determineQueryType (statType : StatisticType)
  (matchEntities : option string * option string)
  (player team : option string) (lower : string) : StatisticQueryType.t :=
  if test thresholdHint lower then StatisticQueryType.threshold
  else if truthy player then StatisticQueryType.player_statistic
  else if truthy team && negb (truthy (fst matchEntities))
          && negb (truthy (snd matchEntities))
  then StatisticQueryType.team_aggregate
  else if statType =? "total_cards" then StatisticQueryType.team_aggregate
  else StatisticQueryType.match_statistic.

Definition extractTeamFromQuery (query : string) (existing : option string)
  : option string :=
  if truthy existing then existing
  else
    match exec (seqs [alts [liti "team"; liti "for"]; plus ws; properNameI])
               query with
    | Some found => option_map trim (group1 found)
    | None => None
    end.

Definition resolveThreshold (lower : string) : option (Comparator.t * float) :=
  let hit entry :=
    match exec (fst entry) lower with
    | Some found =>
        match group1 found with
        | Some digits =>
            match parseFloat digits with
            | Some value =>
                Some (match snd entry with
                      | Some comparator => comparator
                      | None => Comparator.eq
                      end, value)
            | None => None
            end
        | None => None
        end
    | None => None
    end in
  fold_right (fun entry later => match hit entry with
                                 | Some found => Some found
                                 | None => later
                                 end) None THRESHOLD_KEYWORDS.

Section Host.

(** [Date.now()], the parsing done by [new Date(text)] ([None] for an
    invalid date, which the model renders as an absent one), and the
    date detection of utils.ts. *)
Variable now : Z.
Variable dateParse : string -> option Z.
Variable detectIsoDate : string -> option string.

Definition classifyStatisticsQuery (rawQuery : string)
  (metadata : option Utils.QueryMetadata) : option StatisticsQuery.t :=
  let normalizedMeta :=
    match metadata with
    | Some given => given
    | None => Utils.extractQueryMetadata detectIsoDate rawQuery
    end in
  let lower := toLowerCase rawQuery in
  match inferStatisticType lower with
  | None => None
  | Some statisticType =>
      let matchEntities := extractMatchEntities rawQuery normalizedMeta in
      let player := extractPlayerCandidate rawQuery in
      let team :=
        extractTeamFromQuery rawQuery (hd_error (Utils.teams normalizedMeta)) in
      let aggregation := determineAggregation lower in
      let period := inferPeriod lower in
      let thresholdInfo := resolveThreshold lower in
      let eventDate :=
        match Utils.date normalizedMeta with
        | Some (String c r) => dateParse (String c r ++ "T23:59:59Z")%string
        | _ => None
        end in
      let fifteenMinutes := (15 * 60 * 1000)%Z in
      let canResolveNow :=
        match eventDate with
        | Some ended => (fifteenMinutes <=? now - ended)%Z
        | None => false
        end in
      let queryType :=
        determineQueryType statisticType matchEntities player team lower in
      Some
        {| StatisticsQuery.queryType := queryType;
           StatisticsQuery.statisticType := statisticType;
           StatisticsQuery.entities :=
             {| Entities.match_ :=
                  Some {| MatchEntities.homeTeam := fst matchEntities;
                          MatchEntities.awayTeam := snd matchEntities;
                          MatchEntities.date := eventDate;
                          MatchEntities.competition := Utils.sport normalizedMeta;
                          MatchEntities.matchId := None |};
                Entities.team := team;
                Entities.player := player;
                Entities.competition := Utils.sport normalizedMeta |};
           StatisticsQuery.aggregation := Some aggregation;
           StatisticsQuery.period := Some period;
           StatisticsQuery.threshold := option_map snd thresholdInfo;
           StatisticsQuery.comparator := option_map fst thresholdInfo;
           StatisticsQuery.eventEndTime := eventDate;
           StatisticsQuery.canResolveNow := canResolveNow;
           StatisticsQuery.rawText := rawQuery |}
  end.

End Host.

End QueryClassifier.

(** ** JSON values

    What a provider or a tool hands back after [JSON.parse]: [undefined]
    is rendered by [None] of [option Json.t]. *)

Module Json.

#[warnings="-register-all"]
Inductive t :=
| Null
| Bool (b : bool)
| Num (n : float)
| Str (s : string)
| Arr (items : list t)
| Obj (entries : list (string * t)).

(** An object is the list of its entries in property order, with distinct
    keys. *)
Fixpoint lookup (key : string) (entries : list (string * t)) : option t :=
  match entries with
  | [] => None
  | (k, v) :: rest => if k =? key then Some v else lookup key rest
  end.

(** [value.key] on a value that is not [null]: a property of an object;
    strings, numbers, booleans and arrays have none of the properties the
    sources read. *)
Definition prop (key : string) (value : t) : option t :=
  match value with
  | Obj entries => lookup key entries
  | _ => None
  end.

(** [value?.key] *)
Definition propOpt (key : string) (value : option t) : option t :=
  match value with
  | Some v => prop key v
  | None => None
  end.

(** [a ?? b] *)
Definition orElse (a b : option t) : option t :=
  match a with
  | None | Some Null => b
  | Some _ => a
  end.

(** [Boolean(value)] *)
Definition truthy (value : option t) : bool :=
  match value with
  | None | Some Null => false
  | Some (Bool b) => b
  | Some (Num n) => negb ((n =? 0)%float || is_nan n)
  | Some (Str s) => negb (s =? "")
  | Some (Arr _) | Some (Obj _) => true
  end.

(** The value found under [key] handed to [f], or [d] when the key is
    absent. *)
Definition atKey {B} (key : string) (f : t -> B) (d : B)
  : list (string * t) -> B :=
  fix go (entries : list (string * t)) : B :=
    match entries with
    | [] => d
    | (k, v) :: rest => if k =? key then f v else go rest
    end.

End Json.

(** ** More of the JavaScript string and number library *)

Module Text.
Import Js.
Local Open Scope string_scope.

Definition upper_ascii (c : ascii) : ascii :=
  if is_lower c then ascii_of_nat (nat_of_ascii c - 32) else c.

(** [s.toUpperCase()] *)
Fixpoint toUpperCase (s : string) : string :=
  match s with
  | EmptyString => EmptyString
  | String c r => String (upper_ascii c) (toUpperCase r)
  end.

(** [s.endsWith(suffix)] *)
Definition endsWith (s suffix : string) : bool :=
  startsWith (reverse s) (reverse suffix).

(** [s.slice(0, -1)] *)
Definition dropLast (s : string) : string :=
  string_of_list_ascii (removelast (list_ascii_of_string s)).

(** [s.replaceAll(/[...]/g, by)] for a class of single characters. *)
Fixpoint replaceChars (class : ascii -> bool) (by_ : string) (s : string)
  : string :=
  match s with
  | EmptyString => EmptyString
  | String c r =>
      if class c then by_ ++ replaceChars class by_ r
      else String c (replaceChars class by_ r)
  end.

(** The longest prefix of characters of a class, and what follows it. *)
Fixpoint span (class : ascii -> bool) (txt : list ascii)
  : list ascii * list ascii :=
  match txt with
  | c :: rest =>
      if class c
      then let '(taken, others) := span class rest in (c :: taken, others)
      else ([], txt)
  | [] => ([], [])
  end.

Definition numberOfDigits (digits : list ascii) : Z :=
  fold_left (fun acc c => (10 * acc + (Z.of_nat (nat_of_ascii c) - 48))%Z)
            digits 0%Z.

(** [Number.parseFloat] on text made of digits, [.] and [-]: the longest
    prefix of the form [-?digits(.digits?)?] or [-?.digits]; [None] is
    [NaN]. *)
Definition parseFloat (s : string) : option float :=
  let txt := list_ascii_of_string s in
  let '(negative, body) :=
    match txt with
    | c :: rest => if Ascii.eqb c "-" then (true, rest) else (false, txt)
    | [] => (false, txt)
    end in
  let '(whole, rest) := span is_digit body in
  let fraction :=
    match rest with
    | c :: after => if Ascii.eqb c "." then fst (span is_digit after) else []
    | [] => []
    end in
  match (whole ++ fraction)%list with
  | [] => None
  | digits =>
      Some (Js.ofDecimal negative (numberOfDigits digits)
                         (Z.to_pos (10 ^ Z.of_nat (List.length fraction))))
  end.

Definition hexDigit (n : nat) : ascii :=
  if (n <? 10)%nat then ascii_of_nat (48 + n) else ascii_of_nat (55 + n).

(** One byte under the [application/x-www-form-urlencoded] serializer. *)
Definition formByte (c : ascii) : string :=
  let n := nat_of_ascii c in
  if (n =? 32)%nat then "+"
  else if is_upper c || is_lower c || is_digit c
          || (n =? 42)%nat || (n =? 45)%nat || (n =? 46)%nat || (n =? 95)%nat
  then String c ""
  else String "%" (String (hexDigit (n / 16)) (String (hexDigit (n mod 16)) "")).

Fixpoint formEncode (s : string) : string :=
  match s with
  | EmptyString => EmptyString
  | String c r => formByte c ++ formEncode r
  end.

(** [new URLSearchParams(pairs).toString()] *)
Definition searchParamsToString (pairs : list (string * string)) : string :=
  join "&" (map (fun '(name, value) => formEncode name ++ "=" ++ formEncode value)
                pairs).

End Text.

(** ** utils.ts: retries, the breaker registry and [fetchJson] *)

Module Fetch.
Import Js.

(** [RetryOptions]: every field may be left out.  [retries] is a count. *)
Record RetryOptions := {
  retries : option nat;
  initialDelayMs : option float;
  factor : option float
}.

(** The options of the constructor of [CircuitBreaker], each of which may
    be left out; [Utils.CircuitBreakerOptions] holds the two private fields
    the constructor fills in. *)
Record CircuitBreakerOptions := {
  failureThreshold : option Z;
  cooldownMs : option Z
}.

(** [new CircuitBreaker(options)] *)
Definition construct (options : option CircuitBreakerOptions)
  : Utils.CircuitBreakerOptions :=
  {| Utils.failureThreshold :=
       match options with
       | Some {| failureThreshold := Some n |} => n
       | _ => 3
       end;
     Utils.cooldownMs :=
       match options with
       | Some {| cooldownMs := Some n |} => n
       | _ => 15000
       end |}.

(** A breaker object: its private fields and its state. *)
Record CircuitBreaker := {
  options : Utils.CircuitBreakerOptions;
  state : Utils.CircuitBreakerState
}.

(** [breakerMap], in insertion order. *)
Definition BreakerMap := list (string * CircuitBreaker).

Fixpoint mapGet (key : string) (m : BreakerMap) : option CircuitBreaker :=
  match m with
  | [] => None
  | (k, b) :: rest => if k =? key then Some b else mapGet key rest
  end.

Fixpoint mapSet (key : string) (b : CircuitBreaker) (m : BreakerMap)
  : BreakerMap :=
  match m with
  | [] => [(key, b)]
  | (k, b') :: rest =>
      if k =? key then (k, b) :: rest else (k, b') :: mapSet key b rest
  end.

(** [getCircuitBreaker]: the registry after the call, the key of the
    breaker and the breaker. *)
Definition getCircuitBreaker (host : string)
  (options : option CircuitBreakerOptions) (m : BreakerMap)
  : BreakerMap * string * CircuitBreaker :=
  let key := toLowerCase host in
  match mapGet key m with
  | Some breaker => (m, key, breaker)
  | None =>
      let breaker :=
        {| options := construct options; state := Utils.initialState |} in
      (mapSet key breaker m, key, breaker)
  end.

(** What [fetchJson] rejects with: the [TypeError] of [new URL(url)], or
    what the breaker throws. *)
Inductive FetchFailure :=
| InvalidUrl
| BreakerFailure (failure : Utils.Failure).

Section Host.

(** The host state once a timer of the given delay has fired. *)
Variable setTimeout : float -> Utils.Env -> Utils.Env.

(** The loop of [withRetry]; [remaining] is [retries - attempt]. *)
Fixpoint retryLoop {A} (fn : Utils.Action A) (factor : float) (remaining : nat)
  (delay : float) (e : Utils.Env) : (string + A) * Utils.Env :=
  match fn e with
  | (inr result, e') => (inr result, e')
  | (inl error, e') =>
      match remaining with
      | O => (inl error, e')
      | S remaining' =>
          retryLoop fn factor remaining' (delay * factor) (setTimeout delay e')
      end
  end.

Definition withRetry {A} (fn : Utils.Action A) (options : option RetryOptions)
  : Utils.Action A :=
  let retries :=
    match options with
    | Some {| retries := Some n |} => n
    | _ => 2%nat
    end in
  let initialDelayMs : float :=
    match options with
    | Some {| initialDelayMs := Some d |} => d
    | _ => 250
    end in
  let factor : float :=
    match options with
    | Some {| factor := Some f |} => f
    | _ => 2
    end in
  retryLoop fn factor retries initialDelayMs.

(** [new URL(url).host], [None] when the constructor throws; and the
    request [axios({ url, ...config })] resolving to [response.data]. *)
Variable urlHost : string -> option string.
Variable Config : Type.
Variable A : Type.
Variable axios : string -> Config -> Utils.Action A.

Definition fetchJson (url : string) (config : Config)
  (retryOptions : option RetryOptions)
  (cbOptions : option CircuitBreakerOptions)
  (m : BreakerMap) (e : Utils.Env)
  : (FetchFailure + A) * BreakerMap * Utils.Env :=
  match urlHost url with
  | None => (inl InvalidUrl, m, e)
  | Some host =>
      let '(m', key, breaker) := getCircuitBreaker host cbOptions m in
      let '(outcome, state', e') :=
        Utils.exec (options breaker)
                   (withRetry (axios url config) retryOptions)
                   (state breaker) e in
      (match outcome with
       | inl failure => inl (BreakerFailure failure)
       | inr data => inr data
       end,
       mapSet key {| options := options breaker; state := state' |} m',
       e')
  end.

End Host.

Arguments fetchJson setTimeout urlHost {Config A} axios url config
  retryOptions cbOptions m e.

End Fetch.

(** ** stats/validation.ts *)

Module Validation.
Import Js.
Local Open Scope string_scope.

(** [typical] is the pair [typicalLow], [typicalHigh]. *)
Record RangeRule := {
  min : float;
  max : float;
  typicalLow : float;
  typicalHigh : float
}.

Definition rule (min max typicalLow typicalHigh : float) : RangeRule :=
  {| min := min; max := max;
     typicalLow := typicalLow; typicalHigh := typicalHigh |}.

Definition RANGE_RULES : list (StatisticType * RangeRule) :=
  [("yellow_cards", rule 0 15 0 8);
   ("red_cards", rule 0 4 0 1);
   ("total_cards", rule 0 20 2 12);
   ("corners", rule 0 30 3 12);
   ("shots_on_target", rule 0 40 2 15);
   ("shots_total", rule 0 60 5 30);
   ("fouls", rule 0 40 8 20);
   ("possession", rule 0 100 30 70);
   ("goals", rule 0 15 0 5);
   ("assists", rule 0 15 0 5);
   ("saves", rule 0 30 0 15);
   ("tackles", rule 0 30 0 20);
   ("interceptions", rule 0 25 0 15);
   ("passes", rule 0 1200 200 900);
   ("pass_accuracy", rule 0 100 60 95);
   ("rebounds_total", rule 0 120 60 100);
   ("rebounds_offensive", rule 0 60 10 35);
   ("rebounds_defensive", rule 0 60 30 70);
   ("turnovers", rule 0 40 5 20);
   ("three_pointers_made", rule 0 35 5 20);
   ("three_pointers_attempted", rule 0 70 10 45);
   ("free_throws_made", rule 0 60 10 35);
   ("free_throws_attempted", rule 0 80 15 45);
   ("minutes_played", rule 0 300 80 180);
   ("penalties", rule 0 25 0 10);
   ("penalty_yards", rule 0 300 20 120);
   ("sacks", rule 0 20 0 10);
   ("time_of_possession", rule 0 100 35 65);
   ("third_down_conversions", rule 0 25 3 15);
   ("red_zone_efficiency", rule 0 100 30 80)].

(** [RANGE_RULES[type]] for a statistic type: the own properties of the
    table.  The statistic types are the names of [STATISTIC_TYPES], none of
    which names a member of [Object.prototype]. *)
Fixpoint rulesFor (type : StatisticType)
  (rules : list (StatisticType * RangeRule)) : option RangeRule :=
  match rules with
  | [] => None
  | (t, r) :: rest => if t =? type then Some r else rulesFor type rest
  end.

Record StatisticValidationResult := {
  valid : bool;
  warnings : list string;
  reason : option string
}.

Definition findValue (stats : list NormalizedStatistic.t)
  (type : StatisticType) : option float :=
  option_map NormalizedStatistic.value
    (find (fun stat => NormalizedStatistic.type stat =? type) stats).

Definition LOGICAL_RULES
  : list (list NormalizedStatistic.t -> option string) :=
  [(fun stats =>
      match findValue stats "shots_on_target", findValue stats "shots_total" with
      | Some shotsOnTarget, Some shotsTotal =>
          if (shotsTotal <? shotsOnTarget)%float
          then Some "shots_on_target cannot exceed shots_total"
          else None
      | _, _ => None
      end);
   (fun stats =>
      match findValue stats "goals", findValue stats "shots_on_target" with
      | Some goals, Some shotsOnTarget =>
          if (shotsOnTarget <? goals)%float
          then Some "goals cannot exceed shots_on_target"
          else None
      | _, _ => None
      end);
   (fun stats =>
      match findValue stats "yellow_cards", findValue stats "red_cards",
            findValue stats "total_cards" with
      | Some yellow, Some red, Some total =>
          if negb (((yellow + red) =? total)%float)
          then Some "yellow_cards + red_cards should equal total_cards"
          else None
      | _, _, _ => None
      end);
   (fun stats =>
      let possession :=
        filter (fun stat => NormalizedStatistic.type stat =? "possession")
               stats in
      if (List.length possession =? 2)%nat
      then
        let sum :=
          fold_left (fun acc stat => acc + NormalizedStatistic.value stat)
                    possession 0 in
        if (2 <? (abs (sum - 100)))%float
        then Some "Team possession values should sum to approximately 100"
        else None
      else None)].

Section Host.

(** The printing of a number inside a template string. *)
Variable numberToString : float -> string.

Definition validateStatistic (stat : NormalizedStatistic.t)
  : StatisticValidationResult :=
  match rulesFor (NormalizedStatistic.type stat) RANGE_RULES with
  | None =>
      {| valid := true;
         warnings := ["No validation rules defined for this statistic"];
         reason := None |}
  | Some rules =>
      let value := NormalizedStatistic.value stat in
      if (value <? (min rules))%float || ((max rules) <? value)%float
      then
        {| valid := false;
           warnings := [];
           reason :=
             Some ("Value " ++ numberToString value
                   ++ " outside valid range [" ++ numberToString (min rules)
                   ++ ", " ++ numberToString (max rules) ++ "]") |}
      else
        {| valid := true;
           warnings :=
             if (value <? (typicalLow rules))%float || ((typicalHigh rules) <? value)%float
             then ["Unusual value " ++ numberToString value ++ " for "
                   ++ NormalizedStatistic.type stat ++ " (typical range "
                   ++ numberToString (typicalLow rules) ++ "-"
                   ++ numberToString (typicalHigh rules) ++ ")"]
             else [];
           reason := None |}
  end.

Definition summarizeValidation (stats : list NormalizedStatistic.t)
  : StatisticsValidationSummary.t :=
  let results := map (fun stat => (stat, validateStatistic stat)) stats in
  let invalidSources :=
    map (fun '(stat, _) =>
           match hd_error (NormalizedStatistic.sources stat) with
           | Some s => StatisticSource.source s
           | None => "unknown"
           end)
        (filter (fun '(_, result) => negb (valid result)) results) in
  let warnings := flat_map (fun '(_, result) => warnings result) results in
  let logicalWarnings :=
    flat_map (fun rule => match rule stats with
                          | Some message => [message]
                          | None => []
                          end) LOGICAL_RULES in
  {| StatisticsValidationSummary.withinRange :=
       (List.length invalidSources =? 0)%nat;
     StatisticsValidationSummary.logicallyConsistent :=
       (List.length logicalWarnings =? 0)%nat;
     StatisticsValidationSummary.warnings := warnings ++ logicalWarnings;
     StatisticsValidationSummary.invalidSources := invalidSources |}.

End Host.

End Validation.

(** ** stats/providers.ts *)

Module Providers.
Import Js.
Local Open Scope string_scope.

(** [match?.date] is kept as the text [toISOString()] prints for it. *)
Record StatisticsFetchParams := {
  statisticType : StatisticType;
  matchId : option string;
  homeTeam : option string;
  awayTeam : option string;
  date : option string;
  competition : option string;
  team : option string;
  player : option string;
  period : option string
}.

Definition TIER_WEIGHTS (tier : Z) : float :=
  if (tier =? 1)%Z then 0.45
  else if (tier =? 2)%Z then 0.3
  else if (tier =? 3)%Z then 0.25
  else 0.15.

Definition buildQueryString (params : StatisticsFetchParams) : string :=
  let field name value :=
    match value with
    | Some (String c r) => [(name, String c r)]
    | _ => []
    end in
  Text.searchParamsToString
    ([("statistic", statisticType params)]
     ++ field "matchId" (matchId params)
     ++ field "homeTeam" (homeTeam params)
     ++ field "awayTeam" (awayTeam params)
     ++ match date params with
        | Some d => [("date", d)]
        | None => []
        end
     ++ field "competition" (competition params)
     ++ field "team" (team params)
     ++ field "player" (player params)
     ++ field "period" (period params)).

Definition buildDefaultPath (defaultPath : string)
  : string -> StatisticsFetchParams -> string :=
  fun baseUrl params =>
    let trimmedBase :=
      if Text.endsWith baseUrl "/" then Text.dropLast baseUrl else baseUrl in
    let path :=
      if startsWith defaultPath "/" then defaultPath else "/" ++ defaultPath in
    let query := buildQueryString params in
    if (0 <? String.length query)%nat
    then trimmedBase ++ path ++ "?" ++ query
    else trimmedBase ++ path.

Record ProviderConfig := {
  provider : string;
  tier : Z;
  baseUrlEnv : string;
  apiKeyEnv : option string;
  weight : float;
  retry : option Fetch.RetryOptions;
  composeUrl : string -> StatisticsFetchParams -> string;
  buildHeaders : option (option string -> list (string * string))
}.

Definition config (provider : string) (tier : Z) (baseUrlEnv : string)
  (apiKeyEnv : option string) (defaultPath : string) : ProviderConfig :=
  {| provider := provider; tier := tier; baseUrlEnv := baseUrlEnv;
     apiKeyEnv := apiKeyEnv; weight := TIER_WEIGHTS tier; retry := None;
     composeUrl := buildDefaultPath defaultPath; buildHeaders := None |}.

Definition withRetry (retries : nat) (initialDelayMs : float)
  (c : ProviderConfig) : ProviderConfig :=
  {| provider := provider c; tier := tier c; baseUrlEnv := baseUrlEnv c;
     apiKeyEnv := apiKeyEnv c; weight := weight c;
     retry := Some {| Fetch.retries := Some retries;
                      Fetch.initialDelayMs := Some initialDelayMs;
                      Fetch.factor := None |};
     composeUrl := composeUrl c; buildHeaders := buildHeaders c |}.

Definition withHeaders (headers : option string -> list (string * string))
  (c : ProviderConfig) : ProviderConfig :=
  {| provider := provider c; tier := tier c; baseUrlEnv := baseUrlEnv c;
     apiKeyEnv := apiKeyEnv c; weight := weight c; retry := retry c;
     composeUrl := composeUrl c; buildHeaders := Some headers |}.

Definition providerConfigs : list (string * ProviderConfig) :=
  [("official_match_stats",
    config "OFFICIAL_LEAGUE_API" 1 "OFFICIAL_STATS_BASE_URL"
           (Some "OFFICIAL_STATS_API_KEY") "/match-stats");
   ("opta_stats",
    config "OPTA_STATS" 1 "OPTA_STATS_BASE_URL" (Some "OPTA_STATS_API_KEY")
           "/fixtures/statistics");
   ("statsbomb_stats",
    config "STATSBOMB" 1 "STATSBOMB_BASE_URL" (Some "STATSBOMB_API_KEY")
           "/matches/statistics");
   ("sportsradar_stats",
    config "SPORTSRADAR" 1 "SPORTSRADAR_BASE_URL" (Some "SPORTSRADAR_API_KEY")
           "/statistics");
   ("oddsapi_stats",
    withRetry 3 250
      (config "THE_ODDS_API" 1 "THEODDS_STATS_BASE_URL" (Some "THEODDS_API_KEY")
              "/settlements"));
   ("api_football_stats",
    withHeaders (fun apiKey => [("x-apisports-key",
                                 match apiKey with
                                 | Some k => k
                                 | None => ""
                                 end)])
      (config "API_FOOTBALL" 2 "APIFOOTBALL_STATS_BASE_URL" (Some "APISPORTS_KEY")
              "/fixtures/statistics"));
   ("flashscore_stats",
    config "FLASHSCORE" 2 "FLASHSCORE_BASE_URL" None "/match/statistics");
   ("sofascore_stats",
    config "SOFASCORE" 2 "SOFASCORE_BASE_URL" None "/match/statistics");
   ("fotmob_stats",
    config "FOTMOB" 2 "FOTMOB_BASE_URL" None "/match/statistics");
   ("official_team_stats",
    config "OFFICIAL_TEAM" 2 "TEAM_REPORTS_BASE_URL" None "/reports");
   ("espn_stats",
    config "ESPN" 3 "ESPN_API_BASE_URL" None "/matchcenter/statistics");
   ("bbc_stats",
    config "BBC" 3 "BBC_SPORT_API_BASE_URL" None "/sport/statistics");
   ("google_news_stats",
    withRetry 2 500
      (config "GOOGLE_NEWS" 3 "GOOGLE_NEWS_API_BASE_URL"
              (Some "GOOGLE_NEWS_API_KEY") "/search"));
   ("newsapi_stats",
    config "NEWS_API" 3 "NEWS_API_BASE_URL" (Some "NEWS_API_KEY") "/everything");
   ("twitter_stats",
    config "TWITTER" 3 "X_TWITTER_API_BASE_URL" (Some "X_TWITTER_BEARER")
           "/tweets");
   ("betting_aggregator_stats",
    config "BETTING_AGGREGATOR" 4 "BETTING_AGGREGATOR_BASE_URL" None
           "/settlements");
   ("understat_stats",
    withRetry 3 400
      (config "UNDERSTAT" 4 "UNDERSTAT_BASE_URL" None "/match"));
   ("whoscored_stats",
    config "WHOSCORED" 4 "WHOSCORED_BASE_URL" None "/match-statistics");
   ("transfermarkt_stats",
    config "TRANSFERMARKT" 4 "TRANSFERMARKT_BASE_URL" None
           "/matches/statistics")].

Definition inferUnit (type : StatisticType) : StatisticUnit.t :=
  if (type =? "possession") || (type =? "pass_accuracy")
     || (type =? "red_zone_efficiency") || (type =? "time_of_possession")
  then StatisticUnit.percentage
  else if type =? "minutes_played" then StatisticUnit.minutes
  else if type =? "penalty_yards" then StatisticUnit.yards
  else StatisticUnit.count.

Section Host.

(** [process.env], the timers, [new URL(url).host] and the request, which
    resolves to the parsed body. *)
Variable getenv : string -> option string.
Variable setTimeout : float -> Utils.Env -> Utils.Env.
Variable urlHost : string -> option string.
Variable axios :
  string -> option (list (string * string)) -> Utils.Action Json.t.

(** [fetchProvider] for the configuration of a key; [inr None] is the
    [null] of a provider that is not configured. *)
Definition fetchProvider (config : ProviderConfig)
  (params : StatisticsFetchParams) (m : Fetch.BreakerMap) (e : Utils.Env)
  : (Fetch.FetchFailure + option (StatisticProviderResponse.t * Json.t))
    * Fetch.BreakerMap * Utils.Env :=
  match getenv (baseUrlEnv config) with
  | Some (String c r) =>
      let baseUrl := String c r in
      let apiKey :=
        match apiKeyEnv config with
        | Some name => getenv name
        | None => None
        end in
      let url := composeUrl config baseUrl params in
      let headers :=
        match buildHeaders config with
        | Some build => Some (build apiKey)
        | None =>
            match apiKey with
            | Some (String kc kr) =>
                Some [("Authorization", "Bearer " ++ String kc kr)]
            | _ => None
            end
        end in
      match Fetch.fetchJson setTimeout urlHost axios url headers
                            (retry config) None m e with
      | (inl failure, m', e') => (inl failure, m', e')
      | (inr payload, m', e') =>
          (inr (Some ({| StatisticProviderResponse.provider := provider config;
                         StatisticProviderResponse.tier := tier config;
                         StatisticProviderResponse.weight := weight config;
                         StatisticProviderResponse.collectedAt := Utils.clock e' |},
                      payload)),
           m', e')
      end
  | _ => (inr None, m, e)
  end.

End Host.

End Providers.

(** ** stats/normalization.ts *)

Module Normalization.
Import Js Regex.
Local Open Scope string_scope.

(** [raw] only feeds the [rawValue] of the source and is left out. *)
Record RawStatisticCandidate := {
  type : StatisticType;
  value : option float;
  team : option string;
  player : option string;
  unit : option StatisticUnit.t;
  period : option StatisticPeriod.t;
  aggregation : option StatisticAggregation.t
}.

(** A response and its [payload]. *)
Record CandidateContext := {
  provider : StatisticProviderResponse.t;
  query : StatisticsQuery.t
}.

(** [\s+] and a word with an optional last letter, as in [cards?]. *)
Definition sp : re := plus ws.
Definition maybe (word : string) (last : ascii) : re :=
  Seq (lit word) (opt (chr last)).
(** [penalt(?:y|ies)] *)
Definition penalty : re := Seq (lit "penalt") (Alt (lit "y") (lit "ies")).
(** [(?:3|three)\s*pt] *)
Definition threePt : re :=
  seqs [Alt (lit "3") (lit "three"); star ws; lit "pt"].

Definition ALIAS_LOOKUP : list (StatisticType * list re) :=
  [("yellow_cards",
    [seqs [lit "yellow"; sp; maybe "card" "s"]; maybe "booking" "s";
     maybe "caution" "s"]);
   ("red_cards",
    [seqs [lit "red"; sp; maybe "card" "s"]; seqs [lit "sent"; sp; lit "off"];
     maybe "dismissal" "s"]);
   ("total_cards",
    [seqs [lit "total"; sp; lit "cards"];
     seqs [maybe "card" "s"; sp; lit "overall"];
     seqs [maybe "card" "s"; sp; lit "total"]]);
   ("corners",
    [maybe "corner" "s"; seqs [lit "corner"; sp; maybe "kick" "s"]]);
   ("shots_on_target",
    [seqs [maybe "shot" "s"; sp; lit "on"; sp; lit "target"];
     seqs [maybe "shot" "s"; sp; lit "on"; sp; lit "goal"];
     seqs [maybe "shot" "s"; sp; lit "on"; sp; lit "frame"]]);
   ("shots_total",
    [maybe "shot" "s";
     Seq (lit "att") (Alt (maybe "empt" "s") (lit "empted"))]);
   ("fouls",
    [maybe "foul" "s"; seqs [lit "personal"; sp; maybe "foul" "s"];
     lit "committed"]);
   ("possession",
    [lit "possession"; seqs [lit "ball"; sp; lit "possession"]]);
   ("passes",
    [maybe "passe" "s"; seqs [lit "total"; sp; maybe "passe" "s"]]);
   ("pass_accuracy",
    [seqs [lit "pass"; sp; lit "accuracy"];
     seqs [lit "passing"; sp; lit "accuracy"]]);
   ("key_passes", [seqs [lit "key"; sp; maybe "passe" "s"]]);
   ("saves", [maybe "save" "s"; seqs [lit "goalie"; sp; maybe "save" "s"]]);
   ("tackles", [maybe "tackle" "s"; maybe "tackle" "d"]);
   ("interceptions", [maybe "interception" "s"]);
   ("free_kicks", [seqs [lit "free"; sp; maybe "kick" "s"]]);
   ("penalties_awarded",
    [seqs [penalty; sp; lit "awarded"]; seqs [lit "penalty"; sp; lit "won"]]);
   ("penalties_scored",
    [seqs [penalty; sp; lit "scored"];
     seqs [lit "penalty"; sp; lit "converted"]]);
   ("technical_fouls", [seqs [lit "technical"; sp; maybe "foul" "s"]]);
   ("flagrant_fouls", [seqs [lit "flagrant"; sp; maybe "foul" "s"]]);
   ("turnovers", [maybe "turnover" "s"]);
   ("rebounds_offensive", [seqs [lit "offensive"; sp; maybe "rebound" "s"]]);
   ("rebounds_defensive", [seqs [lit "defensive"; sp; maybe "rebound" "s"]]);
   ("rebounds_total",
    [seqs [lit "total"; sp; maybe "rebound" "s"]; maybe "rebound" "s"]);
   ("blocks", [maybe "block" "s"; seqs [lit "blocked"; sp; maybe "shot" "s"]]);
   ("steals", [maybe "steal" "s"]);
   ("three_pointers_made",
    [seqs [threePt; sp; lit "made"];
     seqs [lit "three"; sp; maybe "pointer" "s"; sp; lit "made"]]);
   ("three_pointers_attempted",
    [seqs [threePt; sp; lit "attempted"];
     seqs [lit "three"; sp; maybe "pointer" "s"; sp; lit "attempted"]]);
   ("free_throws_made",
    [seqs [lit "free"; sp; maybe "throw" "s"; sp; lit "made"]]);
   ("free_throws_attempted",
    [seqs [lit "free"; sp; maybe "throw" "s"; sp; lit "attempted"]]);
   ("minutes_played",
    [seqs [maybe "minute" "s"; sp; lit "played"];
     seqs [maybe "min" "."; sp; lit "played"]]);
   ("penalties", [penalty]);
   ("penalty_yards", [seqs [lit "penalty"; sp; maybe "yard" "s"]]);
   ("fumbles", [maybe "fumble" "s"]);
   ("sacks", [maybe "sack" "s"]);
   ("time_of_possession",
    [seqs [lit "time"; sp; lit "of"; sp; lit "possession"]]);
   ("third_down_conversions",
    [seqs [lit "third"; sp; lit "down"; sp; maybe "conversion" "s"]]);
   ("red_zone_efficiency",
    [seqs [lit "red"; sp; lit "zone"; sp; lit "efficiency"];
     seqs [lit "red"; sp; lit "zone"; sp; lit "%"]]);
   ("goals", [maybe "goal" "s"]);
   ("assists", [maybe "assist" "s"])].

Definition normalizePeriod (input : string) : StatisticPeriod.t :=
  let lower := toLowerCase input in
  if includes lower "first" then StatisticPeriod.first_half
  else if includes lower "second" then StatisticPeriod.second_half
  else if includes lower "extra" then StatisticPeriod.extra_time
  else if includes lower "overtime" || includes lower "ot"
  then StatisticPeriod.overtime
  else if includes lower "quarter" then StatisticPeriod.quarter
  else StatisticPeriod.full_time.

(** The first of the given fields that holds a string with something
    besides white space, trimmed. *)
Definition firstText (keys : list string) (context : list (string * Json.t))
  : option string :=
  hd_error
    (flat_map (fun key =>
                 match Json.lookup key context with
                 | Some (Json.Str candidate) =>
                     if (0 <? String.length (trim candidate))%nat
                     then [trim candidate] else []
                 | _ => []
                 end) keys).

Definition inferTeamFromContext (context : list (string * Json.t))
  : option string :=
  firstText ["team"; "teamName"; "club"; "side"] context.

Definition inferPlayerFromContext (context : list (string * Json.t))
  : option string :=
  firstText ["player"; "playerName"; "name"; "athlete"] context.

Definition buildCandidateFromPrimitive (numericValue : option float)
  (type : StatisticType) (context : option (list (string * Json.t)))
  : RawStatisticCandidate :=
  {| type := type;
     value := numericValue;
     team := match context with
             | Some c => inferTeamFromContext c
             | None => None
             end;
     player := match context with
               | Some c => inferPlayerFromContext c
               | None => None
               end;
     unit := None;
     period := match context with
               | Some c =>
                   match Json.lookup "period" c with
                   | Some (Json.Str p) => Some (normalizePeriod p)
                   | _ => None
                   end
               | None => None
               end;
     aggregation := None |}.

Definition inferTypeFromKey (key : string) (fallback : StatisticType)
  : option StatisticType :=
  let normalizedKey :=
    toLowerCase
      (Text.replaceChars (fun c => Ascii.eqb c "_" || Ascii.eqb c "-") " " key) in
  if includes normalizedKey
              (Text.replaceChars (fun c => Ascii.eqb c "_") " " fallback)
  then Some fallback
  else
    option_map fst
      (find (fun alias =>
               existsb (fun pattern => test pattern normalizedKey) (snd alias))
            ALIAS_LOOKUP).

Definition resolveTypeFromObject (value : list (string * Json.t))
  (fallback : StatisticType) : StatisticType :=
  let inferred :=
    flat_map (fun key =>
                match Json.lookup key value with
                | Some (Json.Str field) =>
                    match inferTypeFromKey field fallback with
                    | Some (String c r) => [String c r]
                    | _ => []
                    end
                | _ => []
                end) ["type"; "statType"; "label"; "name"] in
  match inferred with
  | first :: _ => first
  | [] => fallback
  end.

Definition parseNumber (value : Json.t) : option float :=
  match value with
  | Json.Num n => Some n
  | Json.Str s =>
      let sanitized :=
        Text.replaceChars (fun c => Ascii.eqb c ",") ""
          (Text.replaceChars
             (fun c => negb (is_digit c || Ascii.eqb c "." || Ascii.eqb c ","
                             || Ascii.eqb c "-")) "" s) in
      if (String.length sanitized =? 0)%nat then None
      else Text.parseFloat sanitized
  | _ => None
  end.

(** [/(-?\d+(?:\.\d+)?)/] *)
Definition numberInText : re := Grp (Seq (opt (chr "-")) decimal).

Definition extractNumberFromText (text : string) : option float :=
  match exec numberInText text with
  | Some found =>
      match group1 found with
      | Some digits => Text.parseFloat digits
      | None => None
      end
  | None => None
  end.

Definition fallbackType (context : CandidateContext) : StatisticType :=
  StatisticsQuery.statisticType (query context).

Definition extractFromEmbeddedText (value : list (string * Json.t))
  (context : CandidateContext) : list RawStatisticCandidate :=
  match Json.lookup "text" value with
  | Some (Json.Str text) =>
      match extractNumberFromText text with
      | Some textValue =>
          [buildCandidateFromPrimitive (Some textValue) (fallbackType context)
                                       None]
      | None => []
      end
  | _ => []
  end.

Definition extractFromValueField (value : list (string * Json.t))
  (context : CandidateContext) : list RawStatisticCandidate :=
  match Json.lookup "value" value with
  | Some (Json.Num n) =>
      [buildCandidateFromPrimitive (parseNumber (Json.Num n))
         (resolveTypeFromObject value (fallbackType context)) (Some value)]
  | Some (Json.Str s) =>
      [buildCandidateFromPrimitive (parseNumber (Json.Str s))
         (resolveTypeFromObject value (fallbackType context)) (Some value)]
  | _ => []
  end.

Definition extractFromPrimitivePairs (value : list (string * Json.t))
  (context : CandidateContext) : list RawStatisticCandidate :=
  flat_map
    (fun '(key, inner) =>
       match inner with
       | Json.Null | Json.Arr _ | Json.Obj _ => []
       | _ =>
           match inferTypeFromKey key (fallbackType context) with
           | Some (String c r) =>
               [buildCandidateFromPrimitive (parseNumber inner) (String c r)
                                            None]
           | _ => []
           end
       end) value.

(** [extractFromKnownArrays] and [extractFromNestedObjects], with
    [extractCandidates] handed in. *)
Definition extractFromKnownArrays
  (extractCandidates : Json.t -> list RawStatisticCandidate)
  (value : list (string * Json.t)) : list RawStatisticCandidate :=
  flat_map
    (fun key =>
       Json.atKey key
         (fun array =>
            match array with
            | Json.Arr items => flat_map extractCandidates items
            | _ => []
            end) [] value)
    ["statistics"; "data"; "items"].

Definition extractFromNestedObjects
  (extractCandidates : Json.t -> list RawStatisticCandidate)
  (value : list (string * Json.t)) : list RawStatisticCandidate :=
  flat_map
    (fun entry =>
       match snd entry with
       | Json.Arr _ | Json.Obj _ => extractCandidates (snd entry)
       | _ => []
       end) value.

(** [extractCandidates], with [extractFromObject] in its last case. *)
Fixpoint extractCandidates (context : CandidateContext) (payload : Json.t)
  : list RawStatisticCandidate :=
  match payload with
  | Json.Null => []
  | Json.Arr items => flat_map (extractCandidates context) items
  | Json.Num n =>
      [buildCandidateFromPrimitive (Some n) (fallbackType context) None]
  | Json.Str s =>
      match extractNumberFromText s with
      | Some value =>
          [buildCandidateFromPrimitive (Some value) (fallbackType context) None]
      | None => []
      end
  | Json.Obj value =>
      extractFromKnownArrays (extractCandidates context) value
      ++ extractFromEmbeddedText value context
      ++ extractFromValueField value context
      ++ extractFromPrimitivePairs value context
      ++ extractFromNestedObjects (extractCandidates context) value
  | Json.Bool _ => []
  end.

Definition extractFromObject (value : list (string * Json.t))
  (context : CandidateContext) : list RawStatisticCandidate :=
  extractCandidates context (Json.Obj value).

Definition toNormalizedStatistic (candidate : RawStatisticCandidate)
  (context : CandidateContext) : NormalizedStatistic.t :=
  let provider := provider context in
  let query := query context in
  {| NormalizedStatistic.type := type candidate;
     NormalizedStatistic.team :=
       match team candidate with
       | Some t => Some t
       | None => Entities.team (StatisticsQuery.entities query)
       end;
     NormalizedStatistic.player :=
       match player candidate with
       | Some p => Some p
       | None => Entities.player (StatisticsQuery.entities query)
       end;
     NormalizedStatistic.value :=
       match value candidate with
       | Some v => v
       | None => 0
       end;
     NormalizedStatistic.unit :=
       match unit candidate with
       | Some u => u
       | None => Providers.inferUnit (type candidate)
       end;
     NormalizedStatistic.period :=
       match period candidate, StatisticsQuery.period query with
       | Some p, _ => p
       | None, Some p => p
       | None, None => StatisticPeriod.full_time
       end;
     NormalizedStatistic.aggregation :=
       match aggregation candidate, StatisticsQuery.aggregation query with
       | Some a, _ => a
       | None, Some a => a
       | None, None => StatisticAggregation.total
       end;
     NormalizedStatistic.sources :=
       [{| StatisticSource.source := StatisticProviderResponse.provider provider;
           StatisticSource.tier := StatisticProviderResponse.tier provider;
           StatisticSource.weight := StatisticProviderResponse.weight provider;
           StatisticSource.parsedValue := value candidate;
           StatisticSource.timestamp :=
             Some (StatisticProviderResponse.collectedAt provider) |}] |}.

(** [deriveNormalizedStatistics]; every response comes with its
    [payload]. *)
Definition deriveNormalizedStatistics
  (responses : list (StatisticProviderResponse.t * Json.t))
  (query : StatisticsQuery.t) : list NormalizedStatistic.t :=
  flat_map
    (fun '(response, payload) =>
       let context := {| provider := response; query := query |} in
       flat_map (fun candidate =>
                   match value candidate with
                   | None => []
                   | Some v =>
                       if is_nan v then []
                       else [toNormalizedStatistic candidate context]
                   end)
                (extractCandidates context payload))
    responses.

End Normalization.

(** ** stats/tools.ts and stats/graph.ts: the nodes before the consensus *)

Module StatsGraph.
Import Js.
Local Open Scope string_scope.

(** The names of [StatisticsTools], by index. *)
Definition StatisticsTools : list string :=
  ["fetch_official_match_stats"; "fetch_opta_stats"; "fetch_statsbomb_stats";
   "fetch_sportsradar_stats"; "check_stats_market_settlement";
   "fetch_api_football_stats"; "fetch_flashscore_stats";
   "fetch_sofascore_stats"; "fetch_fotmob_stats"; "fetch_official_team_stats";
   "fetch_espn_stats"; "fetch_bbc_stats"; "search_match_reports";
   "fetch_newsapi_stats"; "fetch_twitter_stats";
   "fetch_betting_aggregator_stats"; "fetch_understat_stats";
   "fetch_whoscored_stats"; "fetch_transfermarkt_stats"].

(** [compactTools(indices.map(i => StatisticsTools[i]))] *)
Definition compactTools (indices : list nat) : list string :=
  flat_map (fun i => match nth_error StatisticsTools i with
                     | Some tool => [tool]
                     | None => []
                     end) indices.

Definition selectTools (query : StatisticsQuery.t) : list string :=
  let baseTools := compactTools [0; 1; 2; 3; 4]%nat in
  let competition :=
    match Entities.match_ (StatisticsQuery.entities query) with
    | Some m => option_map toLowerCase (MatchEntities.competition m)
    | None => None
    end in
  let mentions word :=
    match competition with
    | Some c => includes c word
    | None => false
    end in
  let sportSpecific :=
    if mentions "soccer" || mentions "football"
       || includes (StatisticsQuery.statisticType query) "goal"
       || includes (StatisticsQuery.statisticType query) "corner"
    then compactTools [5; 6; 7; 8; 15; 16; 17]%nat
    else [] in
  let generalTools := compactTools [9; 10; 11; 12; 13; 14; 18]%nat in
  baseTools ++ sportSpecific ++ generalTools.

(** What invoking a tool gives: a provider response with its payload, the
    object of a provider that is not configured (with its [reason]), or an
    exception with its message. *)
Inductive ToolResult :=
| Responded (response : StatisticProviderResponse.t) (payload : Json.t)
| Skipped (reason : option string)
| Threw (message : string).

Record FetchedState := {
  providerResponses : list (StatisticProviderResponse.t * Json.t);
  warnings : list string;
  errors : list string
}.

(** The node [fetch_providers] on the initial state. *)
Definition fetchProviders (invoke : string -> ToolResult)
  (query : StatisticsQuery.t) : FetchedState :=
  let results := map (fun tool => (tool, invoke tool)) (selectTools query) in
  {| providerResponses :=
       flat_map (fun '(_, result) =>
                   match result with
                   | Responded response payload => [(response, payload)]
                   | _ => []
                   end) results;
     warnings :=
       flat_map (fun '(tool, result) =>
                   match result with
                   | Skipped reason =>
                       [tool ++ " skipped: "
                        ++ match reason with
                           | Some r => r
                           | None => "not configured"
                           end]
                   | _ => []
                   end) results;
     errors :=
       flat_map (fun '(tool, result) =>
                   match result with
                   | Threw message => [tool ++ " failed: " ++ message]
                   | _ => []
                   end) results |}.

Section Host.

Variable pow : float -> float -> float.
Variable now : Z.
Variable numberToString : float -> string.

(** [runStatisticsGraph] on the initial state of a query: the five nodes
    in their order. *)
Definition runStatisticsGraph (invoke : string -> ToolResult)
  (query : StatisticsQuery.t) : StatisticsResolutionArtifacts.t :=
  let fetched := fetchProviders invoke query in
  let normalized :=
    Normalization.deriveNormalizedStatistics (providerResponses fetched) query in
  let validation := Validation.summarizeValidation numberToString normalized in
  StatsResolver.runStatisticsGraph pow now
    (map fst (providerResponses fetched)) normalized (Some validation)
    (errors fetched) (warnings fetched) query.

(** [resolveStatisticsQuery] from the query on. *)
Definition resolveStatisticsQuery (invoke : string -> ToolResult)
  (statsQuery : StatisticsQuery.t) : StatsResolver.StatisticsResolutionResult :=
  StatsResolver.resolveStatisticsQuery numberToString
    (runStatisticsGraph invoke statsQuery) statsQuery.

End Host.

End StatsGraph.

(** ** resolver.ts: from the artifacts of the agent to the facts *)

Module Artifacts.
Import Js.
Local Open Scope string_scope.

(** [input], [startedAt] and [finishedAt] are not read. *)
Record DeepAgentArtifact := {
  tool : string;
  output : option Json.t;
  error : option string
}.

Definition PROVIDER_RELIABILITY : list (string * float) :=
  [("THESPORTSDB", 0.85); ("API_SPORTS_SOCCER", 0.95);
   ("API_SPORTS_BASKETBALL", 0.95); ("THE_ODDS_API", 0.9)].

Definition RESULT_WORDS : list string :=
  ["defeat"; "defeats"; "defeated"; "beats"; "beat"; "tops"; "top"; "edges";
   "edged"; "wins"; "win"; "past"; "overcome"; "overcomes"].

(** [xs.sort()] on strings: by code units. *)
Fixpoint insert (x : string) (sorted : list string) : list string :=
  match sorted with
  | [] => [x]
  | y :: rest => if (x <=? y)%string then x :: sorted else y :: insert x rest
  end.

Definition sort (xs : list string) : list string := fold_right insert [] xs.

(** [s.split(/class+/).filter(segment => segment.length > 0)]: the maximal
    runs of characters outside the class. *)
Fixpoint segmentsFrom (class : ascii -> bool) (current : list ascii)
  (txt : list ascii) : list string :=
  let close :=
    match current with
    | [] => []
    | _ :: _ => [string_of_list_ascii (rev current)]
    end in
  match txt with
  | [] => close
  | c :: rest =>
      if class c then (close ++ segmentsFrom class [] rest)%list
      else segmentsFrom class (c :: current) rest
  end.

Definition segments (class : ascii -> bool) (s : string) : list string :=
  segmentsFrom class [] (list_ascii_of_string s).

Definition normalizeText (value : string) : string :=
  join "_" (segments is_space (toLowerCase value)).

Definition collectErrors (artifacts : list DeepAgentArtifact) : list string :=
  flat_map (fun artifact =>
              match error artifact with
              | Some (String c r) => [tool artifact ++ ": " ++ String c r]
              | _ => []
              end) artifacts.

Definition toOptionalString (value : option Json.t) : option string :=
  match value with
  | Some (Json.Str (String c r)) => Some (String c r)
  | _ => None
  end.

(** [a ?? b] on optional strings. *)
Definition orString (a b : option string) : option string :=
  match a with
  | Some s => Some s
  | None => b
  end.

(** [PROVIDER_RELIABILITY[provider]] is read on the own properties of the
    table: the normalizers call it with the four names of the table and
    with the names of feeds. *)
Definition getReliabilityScore (provider : string) : float :=
  if startsWith provider "rss:" then 0.55
  else
    match find (fun entry => fst entry =? provider) PROVIDER_RELIABILITY with
    | Some entry => snd entry
    | None => 0.5
    end.

Definition normalizedTeams (structured : QuerySchema.StructuredQuery)
  : list string :=
  filter (fun team => (0 <? String.length team)%nat)
         (map (fun team => Resolver.normalizeTeamName (Some team))
              (QuerySchema.teams structured)).

Definition matchesStructuredTeams (structured : QuerySchema.StructuredQuery)
  (homeTeam awayTeam : option string) : bool :=
  match normalizedTeams structured with
  | [] => true
  | [only] =>
      existsb (String.eqb only)
              (map Resolver.normalizeTeamName [homeTeam; awayTeam])
  | teams =>
      forallb (fun team =>
                 existsb (String.eqb team)
                         (dedupe (map Resolver.normalizeTeamName
                                      [homeTeam; awayTeam])))
              teams
  end.

Definition buildTeamsKey (structured : QuerySchema.StructuredQuery)
  (homeTeam awayTeam : option string) : string :=
  let fallbackTeams := definedStrings [homeTeam; awayTeam] in
  let teams :=
    if (0 <? List.length (QuerySchema.teams structured))%nat
    then QuerySchema.teams structured else fallbackTeams in
  if (List.length teams =? 0)%nat then "unspecified"
  else
    join "|"
      (sort (filter (fun team => (0 <? String.length team)%nat)
                    (map (fun team => Resolver.normalizeTeamName (Some team))
                         teams))).

(** The parameter object of [buildFact]; [raw] is left out. *)
Record FactParams := {
  provider : string;
  structured : QuerySchema.StructuredQuery;
  homeTeam : option string;
  awayTeam : option string;
  homeScore : option float;
  awayScore : option float;
  winner : option string;
  award : option string;
  player : option string;
  status : option string;
  endTimestamp : option string;
  sourceUrl : option string;
  display : option string;
  category : option Resolver.Category;
  reliabilityOverride : option float
}.

Section Host.

(** The printing of a number inside a template string, [Number(text)],
    and the [hostname] of a URL ([None] when the text does not parse as
    one). *)
Variable numberToString : float -> string.
Variable toNumber : string -> float.
Variable urlHostname : string -> option string.

Definition parseScore (value : option Json.t) : option float :=
  match value with
  | Some (Json.Num n) => if isFinite n then Some n else None
  | Some (Json.Str s) =>
      let trimmed := trim s in
      if (String.length trimmed =? 0)%nat then None
      else
        let parsed := toNumber trimmed in
        if isFinite parsed then Some parsed else None
  | _ => None
  end.

(** The parsed host name where the text is a URL, the text itself
    elsewhere. *)
Definition safeHostname (url : string) : string :=
  match urlHostname url with
  | Some hostname => hostname
  | None => url
  end.

Definition buildDisplay (homeTeam awayTeam : option string)
  (homeScore awayScore : option float) (winner : option string) : string :=
  match homeTeam, awayTeam, homeScore, awayScore with
  | Some (String hc hr), Some (String ac ar), Some hs, Some aws =>
      String hc hr ++ " " ++ numberToString hs ++ "-" ++ numberToString aws
      ++ " " ++ String ac ar
  | _, _, _, _ =>
      match winner with
      | Some (String c r) => String c r ++ " win"
      | _ => "Result reported"
      end
  end.

Definition buildCanonicalKey (params : FactParams) : string :=
  let datePart :=
    match QuerySchema.date (structured params) with
    | Some d => d
    | None =>
        match endTimestamp params with
        | Some (String c r) => sliceTo 10 (String c r)
        | _ => ""
        end
    end in
  let teamsKey :=
    buildTeamsKey (structured params) (homeTeam params) (awayTeam params) in
  match category params, award params, player params with
  | Some Resolver.cat_award, Some (String ac ar), Some (String pc pr) =>
      "award:" ++ normalizeText (String ac ar) ++ ":"
      ++ normalizeText (String pc pr) ++ ":" ++ teamsKey ++ ":" ++ datePart
  | _, _, _ =>
      match winner params with
      | Some (String c r) =>
          "winner:" ++ Resolver.normalizeTeamName (Some (String c r)) ++ ":"
          ++ teamsKey ++ ":" ++ datePart
      | _ =>
          match homeTeam params, awayTeam params,
                homeScore params, awayScore params with
          | Some (String _ _), Some (String _ _), Some hs, Some aws =>
              "score:" ++ teamsKey ++ ":" ++ numberToString hs ++ "-"
              ++ numberToString aws ++ ":" ++ datePart
          | _, _, _, _ => "unknown"
          end
      end
  end.

Definition buildFact (params : FactParams) : option Resolver.NormalizedFact :=
  let reliability :=
    match reliabilityOverride params with
    | Some r => r
    | None => getReliabilityScore (provider params)
    end in
  let display :=
    match display params with
    | Some d => d
    | None =>
        buildDisplay (homeTeam params) (awayTeam params) (homeScore params)
                     (awayScore params) (winner params)
    end in
  let canonicalKey := buildCanonicalKey params in
  if canonicalKey =? "unknown" then None
  else
    Some {| Resolver.provider := provider params;
            Resolver.canonicalKey := canonicalKey;
            Resolver.display := display;
            Resolver.category :=
              match category params with
              | Some c => c
              | None =>
                  if truthy (homeTeam params) && truthy (awayTeam params)
                  then Resolver.cat_result else Resolver.cat_other
              end;
            Resolver.homeTeam := homeTeam params;
            Resolver.awayTeam := awayTeam params;
            Resolver.winner := winner params;
            Resolver.homeScore := homeScore params;
            Resolver.awayScore := awayScore params;
            Resolver.award := award params;
            Resolver.player := player params;
            Resolver.status := status params;
            Resolver.endTimestamp := endTimestamp params;
            Resolver.sourceUrl := sourceUrl params;
            Resolver.reliability := reliability |}.

(** [structured.date && date && !date.startsWith(structured.date)] *)
Definition offDate (structured : QuerySchema.StructuredQuery)
  (date : option string) : bool :=
  match QuerySchema.date structured, date with
  | Some (String sc sr), Some (String c r) =>
      negb (startsWith (String c r) (String sc sr))
  | _, _ => false
  end.

(** The normalizers read the properties of every entry of a provider's
    list; reading a property of [null] throws a [TypeError], which is the
    [None] of their results. *)
Definition eachEntry (f : Json.t -> option Resolver.NormalizedFact)
  (entries : list Json.t) : option (list Resolver.NormalizedFact) :=
  fold_right (fun entry later =>
                match entry, later with
                | Json.Null, _ => None
                | _, None => None
                | _, Some facts =>
                    Some (match f entry with
                          | Some fact => fact :: facts
                          | None => facts
                          end)
                end) (Some []) entries.

Definition arrayAt (key : string) (value : Json.t) : list Json.t :=
  match Json.prop key value with
  | Some (Json.Arr items) => items
  | _ => []
  end.

Definition normalizeSportsDb (output : Json.t)
  (structured : QuerySchema.StructuredQuery) (artifact : DeepAgentArtifact)
  : option (list Resolver.NormalizedFact) :=
  let events := (arrayAt "events" output ++ arrayAt "results" output)%list in
  eachEntry
    (fun record =>
       let homeTeam :=
         toOptionalString (Json.orElse (Json.prop "strHomeTeam" record)
                                       (Json.prop "homeTeam" record)) in
       let awayTeam :=
         toOptionalString (Json.orElse (Json.prop "strAwayTeam" record)
                                       (Json.prop "awayTeam" record)) in
       if negb (matchesStructuredTeams structured homeTeam awayTeam) then None
       else
         let date :=
           toOptionalString (Json.orElse (Json.prop "dateEvent" record)
                                         (Json.prop "dateEventLocal" record)) in
         if offDate structured date then None
         else
           let homeScore :=
             parseScore (Json.orElse (Json.prop "intHomeScore" record)
                                     (Json.prop "intHomeScoreFT" record)) in
           let awayScore :=
             parseScore (Json.orElse (Json.prop "intAwayScore" record)
                                     (Json.prop "intAwayScoreFT" record)) in
           let status :=
             toOptionalString (Json.orElse (Json.prop "strStatus" record)
                                           (Json.prop "strResult" record)) in
           let winner :=
             Resolver.determineWinner homeTeam awayTeam homeScore awayScore
               (toOptionalString (Json.prop "strResult" record)) in
           let endTimestamp :=
             orString (toOptionalString (Json.prop "strTimestamp" record))
                      (option_map (fun d => d ++ "T00:00:00Z") date) in
           buildFact
             {| provider := "THESPORTSDB";
                structured := structured;
                homeTeam := homeTeam;
                awayTeam := awayTeam;
                homeScore := homeScore;
                awayScore := awayScore;
                winner := winner;
                award := None;
                player := None;
                status := status;
                endTimestamp := endTimestamp;
                sourceUrl :=
                  orString (toOptionalString (Json.prop "url" output))
                           (Some (tool artifact));
                display := None;
                category := None;
                reliabilityOverride := None |})
    events.

Definition normalizeApiSports (output : Json.t)
  (structured : QuerySchema.StructuredQuery) (artifact : DeepAgentArtifact)
  (provider_ : string) : option (list Resolver.NormalizedFact) :=
  let response := arrayAt "response" output in
  eachEntry
    (fun record =>
       let teams := Json.orElse (Json.prop "teams" record) (Some (Json.Obj [])) in
       let fixture :=
         Json.orElse (Json.prop "fixture" record) (Some (Json.Obj [])) in
       let scores :=
         Json.orElse (Json.prop "scores" record)
                     (Json.orElse (Json.prop "score" record)
                                  (Some (Json.Obj []))) in
       let home := Json.propOpt "home" teams in
       let away := Json.propOpt "away" teams in
       let homeTeam := toOptionalString (Json.propOpt "name" home) in
       let awayTeam := toOptionalString (Json.propOpt "name" away) in
       if negb (matchesStructuredTeams structured homeTeam awayTeam) then None
       else
         let date := toOptionalString (Json.propOpt "date" fixture) in
         if offDate structured date then None
         else
           let fixtureStatus := Json.propOpt "status" fixture in
           let status :=
             orString (toOptionalString (Json.propOpt "short" fixtureStatus))
                      (toOptionalString (Json.propOpt "long" fixtureStatus)) in
           let fullTime := Json.propOpt "fulltime" scores in
           let finalScore := Json.propOpt "final" scores in
           let goals := Json.prop "goals" record in
           let homeScore :=
             parseScore
               (Json.orElse (Json.propOpt "home" fullTime)
                  (Json.orElse (Json.propOpt "home" finalScore)
                               (Json.propOpt "home" goals))) in
           let awayScore :=
             parseScore
               (Json.orElse (Json.propOpt "away" fullTime)
                  (Json.orElse (Json.propOpt "away" finalScore)
                               (Json.propOpt "away" goals))) in
           let homeWon := Json.truthy (Json.propOpt "winner" home) in
           let awayWon := Json.truthy (Json.propOpt "winner" away) in
           let winnerOverride :=
             if homeWon then homeTeam
             else if awayWon then awayTeam
             else None in
           let winner :=
             Resolver.determineWinner homeTeam awayTeam homeScore awayScore
                                      winnerOverride in
           buildFact
             {| provider := provider_;
                structured := structured;
                homeTeam := homeTeam;
                awayTeam := awayTeam;
                homeScore := homeScore;
                awayScore := awayScore;
                winner := winner;
                award := None;
                player := None;
                status := status;
                endTimestamp := date;
                sourceUrl :=
                  orString (toOptionalString (Json.prop "url" output))
                           (Some (tool artifact));
                display := None;
                category := None;
                reliabilityOverride := None |})
    response.

(** [scoreMap.set(k, v)] and [scoreMap.get(k)] *)
Fixpoint scoreSet (key : string) (score : float) (scoreMap : list (string * float))
  : list (string * float) :=
  match scoreMap with
  | [] => [(key, score)]
  | (k, v) :: rest =>
      if k =? key then (k, score) :: rest else (k, v) :: scoreSet key score rest
  end.

Fixpoint scoreGet (key : string) (scoreMap : list (string * float)) : option float :=
  match scoreMap with
  | [] => None
  | (k, v) :: rest => if k =? key then Some v else scoreGet key rest
  end.

(** The loop over [record.scores]; [None] when an item is [null]. *)
Definition readScores (items : list Json.t) : option (list (string * float)) :=
  fold_left (fun scoreMap scoreItem =>
               match scoreMap, scoreItem with
               | None, _ => None
               | _, Json.Null => None
               | Some sofar, _ =>
                   match toOptionalString (Json.prop "name" scoreItem),
                         parseScore (Json.prop "score" scoreItem) with
                   | Some name, Some scoreValue =>
                       Some (scoreSet (Resolver.normalizeTeamName (Some name))
                                      scoreValue sofar)
                   | _, _ => Some sofar
                   end
               end) items (Some []).

(** One entry of [normalizeOdds]: [None] when it throws, [Some None] when
    the entry gives no fact. *)
Definition oddsEntry (output : Json.t)
  (structured : QuerySchema.StructuredQuery) (artifact : DeepAgentArtifact)
  (record : Json.t) : option (option Resolver.NormalizedFact) :=
  let homeTeam :=
    toOptionalString (Json.orElse (Json.prop "home_team" record)
                                  (Json.prop "homeTeam" record)) in
  let awayTeam :=
    toOptionalString (Json.orElse (Json.prop "away_team" record)
                                  (Json.prop "awayTeam" record)) in
  if negb (matchesStructuredTeams structured homeTeam awayTeam) then Some None
  else
    let commence :=
      toOptionalString (Json.orElse (Json.prop "commence_time" record)
                                    (Json.prop "commenceTime" record)) in
    if offDate structured commence then Some None
    else
      match readScores (arrayAt "scores" record) with
      | None => None
      | Some scoreMap =>
          let homeScore :=
            match homeTeam with
            | Some team => scoreGet (Resolver.normalizeTeamName (Some team))
                                    scoreMap
            | None => None
            end in
          let awayScore :=
            match awayTeam with
            | Some team => scoreGet (Resolver.normalizeTeamName (Some team))
                                    scoreMap
            | None => None
            end in
          let winner :=
            Resolver.determineWinner homeTeam awayTeam homeScore awayScore
                                     None in
          let status :=
            match Json.prop "completed" record with
            | Some (Json.Bool true) => Some "finished"
            | _ => toOptionalString (Json.prop "status" record)
            end in
          Some (buildFact
                  {| provider := "THE_ODDS_API";
                     structured := structured;
                     homeTeam := homeTeam;
                     awayTeam := awayTeam;
                     homeScore := homeScore;
                     awayScore := awayScore;
                     winner := winner;
                     award := None;
                     player := None;
                     status := status;
                     endTimestamp := commence;
                     sourceUrl :=
                       orString (toOptionalString (Json.prop "url" output))
                                (Some (tool artifact));
                     display := None;
                     category := None;
                     reliabilityOverride := None |})
      end.

Definition normalizeOdds (output : Json.t)
  (structured : QuerySchema.StructuredQuery) (artifact : DeepAgentArtifact)
  : option (list Resolver.NormalizedFact) :=
  let entries :=
    match output with
    | Json.Arr items => items
    | Json.Obj _ => arrayAt "data" output
    | _ => []
    end in
  fold_right (fun entry later =>
                match entry, later with
                | Json.Null, _ => None
                | _, None => None
                | _, Some facts =>
                    match oddsEntry output structured artifact entry with
                    | None => None
                    | Some (Some fact) => Some (fact :: facts)
                    | Some None => Some facts
                    end
                end) (Some []) entries.

(** [([\w\s]+)\s+keyword\s+([\w\s]+)] under the [i] flag, once with the
    first group recorded and once with the second: both follow the same
    path through the text. *)
Definition wordOrSpace : Regex.re :=
  Regex.Cls (fun c => Regex.is_word c || is_space c).

Definition leadingOf (keyword : string) : Regex.re :=
  Regex.seqs [Regex.Grp (Regex.plus wordOrSpace); Regex.plus Regex.ws;
              Regex.liti keyword; Regex.plus Regex.ws;
              Regex.plus wordOrSpace].

Definition trailingOf (keyword : string) : Regex.re :=
  Regex.seqs [Regex.plus wordOrSpace; Regex.plus Regex.ws;
              Regex.liti keyword; Regex.plus Regex.ws;
              Regex.Grp (Regex.plus wordOrSpace)].

Record OutcomeExtraction := {
  oe_winner : option string;
  oe_homeTeam : option string;
  oe_awayTeam : option string
}.

(** A team of the query: as written, and normalized. *)
Definition namedTeams (teams : list string) : list (string * string) :=
  filter (fun team => (0 <? String.length (snd team))%nat)
         (map (fun team => (team, Resolver.normalizeTeamName (Some team)))
              teams).

Definition extractOutcomeFromTitle (title : string) (teams : list string)
  : option OutcomeExtraction :=
  let normalizedTeams := namedTeams teams in
  match normalizedTeams with
  | [] => None
  | _ :: _ =>
      let lower := toLowerCase title in
      let presentTeams :=
        filter (fun team => includes lower (snd team)) normalizedTeams in
      if (List.length presentTeams
          <? Nat.min 2 (List.length normalizedTeams))%nat
      then None
      else
        fold_right
          (fun keyword later =>
             match Regex.exec (leadingOf keyword) title,
                   Regex.exec (trailingOf keyword) title with
             | Some first, Some second =>
                 match Regex.group1 first, Regex.group1 second with
                 | Some group1, Some group2 =>
                     let leading := toLowerCase (trim group1) in
                     let trailing := toLowerCase (trim group2) in
                     match find (fun team => includes leading (snd team))
                                normalizedTeams with
                     | Some winnerCandidate =>
                         Some {| oe_winner := Some (fst winnerCandidate);
                                 oe_homeTeam := Some (fst winnerCandidate);
                                 oe_awayTeam :=
                                   option_map fst
                                     (find (fun team =>
                                              includes trailing (snd team))
                                           normalizedTeams) |}
                     | None => later
                     end
                 | _, _ => later
                 end
             | _, _ => later
             end)
          None RESULT_WORDS
  end.

Definition normalizeRssFacts (items : list Json.t)
  (structured : QuerySchema.StructuredQuery) : list Resolver.NormalizedFact :=
  flat_map
    (fun item =>
       match item with
       | Json.Obj _ | Json.Arr _ =>
           match toOptionalString (Json.prop "title" item) with
           | None => []
           | Some title =>
               let link := toOptionalString (Json.prop "link" item) in
               let isoDate := toOptionalString (Json.prop "isoDate" item) in
               let source := toOptionalString (Json.prop "source" item) in
               let outcome :=
                 extractOutcomeFromTitle title (QuerySchema.teams structured) in
               let providerHost :=
                 match source with
                 | Some s => safeHostname s
                 | None => "rss"
                 end in
               match buildFact
                       {| provider := "rss:" ++ providerHost;
                          structured := structured;
                          homeTeam :=
                            match outcome with
                            | Some o => oe_homeTeam o
                            | None => None
                            end;
                          awayTeam :=
                            match outcome with
                            | Some o => oe_awayTeam o
                            | None => None
                            end;
                          homeScore := None;
                          awayScore := None;
                          winner :=
                            match outcome with
                            | Some o => oe_winner o
                            | None => None
                            end;
                          award := None;
                          player := None;
                          status := Some "reported";
                          endTimestamp := isoDate;
                          sourceUrl :=
                            orString link (orString source (Some providerHost));
                          display := Some title;
                          category := Some Resolver.cat_news;
                          reliabilityOverride := Some 0.6 |} with
               | Some fact =>
                   if truthy (Some (Resolver.canonicalKey fact))
                      && negb (Resolver.canonicalKey fact =? "unknown")
                   then [fact] else []
               | None => []
               end
           end
       | _ => []
       end) items.

(** [normalizeArtifact]; [None] is a thrown [TypeError]. *)
Definition normalizeArtifact (artifact : DeepAgentArtifact)
  (structured : QuerySchema.StructuredQuery)
  : option (list Resolver.NormalizedFact) :=
  match error artifact, output artifact with
  | Some (String _ _), _ => Some []
  | _, None => Some []
  | _, Some Json.Null => Some []
  | _, Some output =>
      match tool artifact =? "rss_tool", output with
      | true, Json.Arr items => Some (normalizeRssFacts items structured)
      | _, _ =>
          let provider :=
            match Json.prop "provider" output with
            | Some (Json.Str name) => name
            | _ => Text.toUpperCase (tool artifact)
            end in
          if provider =? "THESPORTSDB"
          then normalizeSportsDb output structured artifact
          else if (provider =? "API_SPORTS_SOCCER")
                  || (provider =? "API_SPORTS_BASKETBALL")
          then normalizeApiSports output structured artifact provider
          else if provider =? "THE_ODDS_API"
          then normalizeOdds output structured artifact
          else Some []
      end
  end.

(** [artifacts.flatMap(artifact => normalizeArtifact(artifact, structured))] *)
Definition normalizeAll (artifacts : list DeepAgentArtifact)
  (structured : QuerySchema.StructuredQuery)
  : option (list Resolver.NormalizedFact) :=
  fold_right (fun artifact later =>
                match normalizeArtifact artifact structured, later with
                | Some facts, Some more => Some (facts ++ more)%list
                | _, _ => None
                end) (Some []) artifacts.

(** [analyzeArtifacts] from the artifacts on. *)
Definition analyzeArtifacts (artifacts : list DeepAgentArtifact)
  (structured : QuerySchema.StructuredQuery) : option Resolver.AnalysisResult :=
  option_map (fun normalizedFacts =>
                Resolver.analyzeArtifacts normalizedFacts
                                          (collectErrors artifacts))
             (normalizeAll artifacts structured).

End Host.

End Artifacts.

(** ** agent/deepAgent.ts: which tools are asked *)

Module DeepAgent.
Import Js.
Local Open Scope string_scope.

Definition SerpApiTool : string := "serp_api_tool".
Definition ApiSportsSoccerTool : string := "apisports_soccer_tool".
Definition TheOddsScoresTool : string := "theodds_scores_tool".

(** The input objects handed to the three tools. *)
Inductive ToolInput :=
| SerpInput (query engine : string) (numResults : Z)
| ApiSportsInput (team date : option string)
| OddsInput (date : string).

(** [a ? `${text} ${a}` : text] *)
Definition dated (text : string) (date : option string) : string :=
  match date with
  | Some (String c r) => text ++ " " ++ String c r
  | _ => text
  end.

(** [hints?.originalQuery] is [originalQuery]. *)
Definition serpQuery (structuredQuery : QuerySchema.StructuredQuery)
  (originalQuery : option string) : option string :=
  let hinted :=
    match originalQuery with
    | Some original => (0 <? String.length (trim original))%nat
    | None => false
    end in
  if hinted then originalQuery
  else
    let nonEmptyTeams :=
      filter (fun team => (0 <? String.length team)%nat)
             (map trim (QuerySchema.teams structuredQuery)) in
    match nonEmptyTeams with
    | first :: second :: _ =>
        Some (dated (first ++ " vs " ++ second)
                    (QuerySchema.date structuredQuery))
    | [only] => Some (dated only (QuerySchema.date structuredQuery))
    | [] =>
        match QuerySchema.player structuredQuery with
        | Some (String c r) =>
            Some (dated (String c r) (QuerySchema.date structuredQuery))
        | _ =>
            match QuerySchema.competition structuredQuery with
            | Some (String c r) => Some (String c r)
            | _ => None
            end
        end
    end.

Definition candidateInputs (structuredQuery : QuerySchema.StructuredQuery)
  (originalQuery : option string) : list (string * ToolInput) :=
  let team := hd_error (QuerySchema.teams structuredQuery) in
  let date := QuerySchema.date structuredQuery in
  (match serpQuery structuredQuery originalQuery with
   | Some (String c r) => [(SerpApiTool, SerpInput (String c r) "google_news" 6)]
   | _ => []
   end
   ++ (if truthy team || truthy date
       then [(ApiSportsSoccerTool, ApiSportsInput team date)] else [])
   ++ match date with
      | Some (String c r) => [(TheOddsScoresTool, OddsInput (String c r))]
      | _ => []
      end)%list.

(** [rawContent.match(/[A-Za-z_]+/g)]: the maximal runs of letters and
    underscores, none of them for [null]. *)
Definition namesIn (rawContent : string) : list string :=
  Artifacts.segments
    (fun c => negb (is_upper c || is_lower c || Ascii.eqb c "_")) rawContent.

(** The inputs that are run: [planning] is the text of the planner's
    reply, [None] when the planning call threw. *)
Definition selectInputs (candidates : list (string * ToolInput))
  (planning : option string) : list (string * ToolInput) :=
  match planning with
  | None => candidates
  | Some rawContent =>
      match namesIn rawContent with
      | [] => candidates
      | extracted =>
          match filter (fun entry => existsb (String.eqb (fst entry))
                                             (dedupe extracted))
                       candidates with
          | [] => candidates
          | filtered => filtered
          end
      end
  end.

(** What a tool gives: its output, or the message of what it threw. *)
Inductive ToolOutcome :=
| Returned (output : option Json.t)
| Failed (message : string).

Section Host.

(** The planner's reply for a query and the names of the candidate tools
    ([None] when the call threw), the tools themselves, and the printing of
    a number.  The chat model is constructed before this point. *)
Variable planner : QuerySchema.StructuredQuery -> list string -> option string.
Variable invoke : string -> ToolInput -> ToolOutcome.
Variable numberToString : float -> string.

Definition runDeepAgent (structuredQuery : QuerySchema.StructuredQuery)
  (originalQuery : option string)
  : list Artifacts.DeepAgentArtifact * string :=
  let candidates := candidateInputs structuredQuery originalQuery in
  let selectedInputs :=
    selectInputs candidates (planner structuredQuery (map fst candidates)) in
  let artifacts :=
    map (fun '(tool, input) =>
           match invoke tool input with
           | Returned output =>
               {| Artifacts.tool := tool; Artifacts.output := output;
                  Artifacts.error := None |}
           | Failed message =>
               {| Artifacts.tool := tool; Artifacts.output := None;
                  Artifacts.error := Some message |}
           end) selectedInputs in
  (artifacts,
   "Queried "
   ++ numberToString (Js.ofNat (List.length artifacts))
   ++ " tools for corroborating evidence.").

End Host.

End DeepAgent.

(** ** resolver.ts: [resolveQuery] *)

Module Resolve.
Import Js.
Local Open Scope string_scope.

(** What [resolveQuery] rejects with: the error of a failed schema check,
    what the constructor of the chat model threw, a [TypeError] thrown
    while the artifacts are normalized, or the rejection of the insert of
    [logResolution]. *)
Inductive Failure :=
| SchemaError
| AgentError
| TypeError
| LogError.

(** The result; of its evidence, which repeats the inputs, only the
    [errors] are kept. *)
Record ResolutionResult := {
  resolution : string;
  confidence : float;
  reasoning : string;
  sources : list string;
  evidenceErrors : list string
}.

Section Host.

Variable now : Z.
Variable dateParse : string -> option Z.
Variable numberToString : float -> string.
Variable toNumber : string -> float.
Variable urlHostname : string -> option string.
Variable detectIsoDate : string -> option string.
Variable summarizeWithModel :
  string -> QuerySchema.StructuredQuery -> string -> Resolver.SummaryContext ->
  option Resolver.ModelSummary.
Variable planner : QuerySchema.StructuredQuery -> list string -> option string.
Variable invoke : string -> DeepAgent.ToolInput -> DeepAgent.ToolOutcome.

(** Whether [new ChatOpenAI] returns, at the head of [runDeepAgent] and
    outside its [try], and whether the insert of [logResolution] resolves. *)
Variable chatModelBuilt : bool.
Variable logResolution : string -> ResolutionResult -> bool.

(** The result built from the decision, with the errors of
    [buildEvidencePayload]. *)
Definition buildResult (analysis : Resolver.AnalysisResult)
  (decision : Resolver.ResolutionDecision) : ResolutionResult :=
  {| resolution := Resolver.resolution decision;
     confidence := Resolver.confidence decision;
     reasoning := Resolver.reasoning decision;
     sources := Resolver.sources decision;
     evidenceErrors :=
       dedupe (Resolver.errors analysis ++ Resolver.decisionErrors decision)%list |}.

Definition resolveQuery (query : string) : Failure + ResolutionResult :=
  let metadata := Utils.extractQueryMetadata detectIsoDate query in
  match QuerySchema.parseQueryToStructuredRequest detectIsoDate query
                                                  (Some metadata) with
  | None => inl SchemaError
  | Some structured =>
      if negb chatModelBuilt then inl AgentError
      else
        let '(artifacts, summary) :=
          DeepAgent.runDeepAgent planner invoke numberToString structured None in
        match Artifacts.analyzeArtifacts numberToString toNumber urlHostname
                                         artifacts structured with
        | None => inl TypeError
        | Some analysis =>
            let result :=
              buildResult analysis
                (Resolver.decideResolution now dateParse numberToString
                   summarizeWithModel query structured summary analysis) in
            if logResolution query result then inr result else inl LogError
        end
  end.

End Host.

End Resolve.

(** ** Notions used in the statements *)

Section NumberNotions.

(** The place of a number in the order of the numbers: [NaN] has none; the
    others are ordered by sign class, then by exponent and mantissa. *)
Definition sfNan (f : spec_float) : bool :=
  match f with
  | S754_nan => true
  | _ => false
  end.

Definition sfCode (f : spec_float) : Z * Z * Z :=
  match f with
  | S754_nan | S754_zero _ => (0, 0, 0)%Z
  | S754_infinity s => ((if s then -2 else 2)%Z, 0%Z, 0%Z)
  | S754_finite s m e =>
      if s then ((-1)%Z, (- e)%Z, Zneg m) else (1%Z, e, Zpos m)
  end.

Definition lexLt (a b : Z * Z * Z) : Prop :=
  let '(a1, a2, a3) := a in
  let '(b1, b2, b3) := b in
  (a1 < b1 \/ (a1 = b1 /\ (a2 < b2 \/ (a2 = b2 /\ a3 < b3))))%Z.

End NumberNotions.

Section ConsensusNotions.
Import Consensus.

(** One turn of the loop of [findConsensusValue]. *)
Definition pick (tolerance : float) (values : list float)
  : float * nat -> float -> float * nat :=
  fun '(bestValue, bestCount) value =>
    let count := peersWithin tolerance values value in
    if (bestCount <? count)%nat
       || ((count =? bestCount)%nat && (value <? bestValue)%float)
    then (value, count)
    else (bestValue, bestCount).

(** What the loop knows after the values in [seen]. *)
Definition bestSoFar (tolerance : float) (values seen : list float)
  (best : float * nat) : Prop :=
  In (fst best) values
  /\ (1 <= snd best)%nat
  /\ (snd best <= peersWithin tolerance values (fst best))%nat
  /\ forall v, In v seen ->
       (peersWithin tolerance values v <= snd best)%nat
       /\ (peersWithin tolerance values v = snd best ->
           (v <? fst best)%float = false).

Definition firstSource (stat : NormalizedStatistic.t) : string :=
  match hd_error (NormalizedStatistic.sources stat) with
  | Some s => StatisticSource.source s
  | None => "unknown"
  end.

(** The tolerance the code counts peers and outliers with. *)
Definition countingTolerance (u : StatisticUnit.t) : float :=
  if StatisticUnit.eqb u StatisticUnit.percentage then 1 else 0.

(** The tolerance as the specification words it, which in the code is the
    bound on the variance. *)
Definition varianceTolerance (u : StatisticUnit.t) : float :=
  if StatisticUnit.eqb u StatisticUnit.percentage then 4 else 1.

(** The matching statistics and their values. *)
Definition relevantTo (query : StatisticsQuery.t)
  (normalized : list NormalizedStatistic.t) : list NormalizedStatistic.t :=
  filter (fun stat => matchesQuery stat query) normalized.

Definition valuesFor (query : StatisticsQuery.t)
  (normalized : list NormalizedStatistic.t) : list float :=
  map NormalizedStatistic.value (relevantTo query normalized).

(** Every matching statistic carries a finite value. *)
Definition finiteValues (query : StatisticsQuery.t)
  (normalized : list NormalizedStatistic.t) : Prop :=
  forall v, In v (valuesFor query normalized) -> Js.isFinite v = true.

(** The consensus [c] is the one described for the tolerance [tol]: the
    agreed value is an observed value with the most peers within the
    tolerance, the smallest among those, the agreement count is the number
    of its peers, and the outliers are the matching statistics further than
    the tolerance from it. *)
Definition consensusWithin (tol : StatisticUnit.t -> float)
  (normalized : list NormalizedStatistic.t) (query : StatisticsQuery.t)
  (c : StatisticConsensus.t) : Prop :=
  let relevant := relevantTo query normalized in
  let values := valuesFor query normalized in
  let t := tol (StatisticConsensus.unit c) in
  exists a,
    StatisticConsensus.agreedValue c = Some a
    /\ In a values
    /\ StatisticConsensus.agreementCount c = peersWithin t values a
    /\ (forall v, In v values ->
          (peersWithin t values v <= StatisticConsensus.agreementCount c)%nat)
    /\ (forall v, In v values ->
          peersWithin t values v = StatisticConsensus.agreementCount c ->
          (a <=? v)%float = true)
    /\ StatisticConsensus.outliers c
       = map (fun stat => (firstSource stat, NormalizedStatistic.value stat))
             (filter (fun stat =>
                        (t <? abs (NormalizedStatistic.value stat - a))%float)
                     relevant).

(** The mean of a list of numbers, summed from the left. *)
Definition mean (values : list float) : float :=
  (sum values / Js.ofNat (List.length values))%float.

(** The population variance: the mean of the squared differences from the
    mean, for the power [pow] of the host. *)
Definition populationVariance (pow : float -> float -> float)
  (values : list float) : float :=
  mean (map (fun value => pow (value - mean values)%float 2%float) values).

End ConsensusNotions.

Section BreakerNotions.
Import Utils.

Variable A : Type.
Variable opts : CircuitBreakerOptions.





(** What reaches a breaker, in the order of the event loop: a call of
    [exec], or the settling of the action of an earlier call. *)
Inductive Event :=
| Called
| Settled (outcome : string + A).

(** What comes of an event: the call is refused with [CircuitOpenError] or
    its action is begun; a settled action resolved or rejected. *)
Inductive Answer :=
| Refused
| Begun
| Resolved (result : A)
| Rejected (message : string).

(** The host at the time [t] of an event. *)
Definition hostAtTime (t : Z) : Env := {| clock := t; requests := [] |}.

(** An event at time [t] on the breaker. *)
Definition runEvent (t : Z) (event : Event) (s : CircuitBreakerState)
  : Answer * CircuitBreakerState :=
  match event with
  | Called =>
      match start opts s (hostAtTime t) with
      | (inl _, s', _) => (Refused, s')
      | (inr _, s', _) => (Begun, s')
      end
  | Settled outcome =>
      (match outcome with
       | inr result => Resolved result
       | inl message => Rejected message
       end,
       snd (fst (finish opts outcome s (hostAtTime t))))
  end.


End BreakerNotions.

Section GroupingNotions.
Import Resolver.

(** The facts that carry the canonical key [k], in input order. *)
Definition factsOf (k : string) (fs : list NormalizedFact) : list NormalizedFact :=
  filter (fun f => canonicalKey f =? k) fs.

(** The group [groupFacts] builds for the key [k]. *)
Definition groupOf (k : string) (fs : list NormalizedFact) : EvidenceGroup :=
  {| key := k;
     facts := factsOf k fs;
     providers := Js.dedupe (map provider (factsOf k fs));
     reliabilityAverage := averageReliability (factsOf k fs) |}.

(** The map after the first loop of [groupFacts], before the averages are
    recomputed: the group of a key holds the facts of that key. *)
Definition grouped (fs : list NormalizedFact) (gm : GroupMap) : Prop :=
  NoDup (map fst gm)
  /\ (forall k g, mapGet k gm = Some g ->
        k <> "" /\ factsOf k fs <> []
        /\ key g = k /\ facts g = factsOf k fs
        /\ providers g = Js.dedupe (map provider (factsOf k fs)))
  /\ (forall k, mapGet k gm = None -> k <> "" -> factsOf k fs = []).

(** [g] has more providers than [b], or as many and a higher average. *)
Definition outranks (g b : EvidenceGroup) : Prop :=
  (List.length (providers b) < List.length (providers g))%nat
  \/ (List.length (providers g) = List.length (providers b)
      /\ (reliabilityAverage b <? reliabilityAverage g)%float = true).

(** The first fact of key [k] comes before every fact of key [h]. *)
Definition firstInInput (k h : string) (fs : list NormalizedFact) : Prop :=
  exists before fact after,
    fs = before ++ fact :: after
    /\ canonicalKey fact = k
    /\ Forall (fun f => canonicalKey f <> h) before.

(** The keys of the groups in the order of their insertion: the keys of
    the facts, empty ones apart, each where it first occurs. *)
Definition keysInOrder (fs : list NormalizedFact) : list string :=
  Js.dedupe (filter (fun k => negb (k =? "")) (map canonicalKey fs)).

(** One turn of the loop of [selectAcceptedGroup]. *)
Definition choose (best : option EvidenceGroup) (group : EvidenceGroup)
  : option EvidenceGroup :=
  match best with
  | None => Some group
  | Some b => if replaces group b then Some group else Some b
  end.

End GroupingNotions.

Section ConfidenceNotions.
Import Resolver.

Variable now : Z.
Variable dateParse : string -> option Z.

(** The base for three or more agreeing providers. *)
Definition baseConfidence (agreeing : nat) : float :=
  if (agreeing =? 3)%nat then 0.6
  else if (agreeing =? 4)%nat then 0.75
  else 0.9.

(** The freshness bonus when "a majority" reads as more than half. *)
Definition bonusStrictMajority (recent total : nat) : float :=
  if (recent =? total)%nat then 0.05
  else if (total <? 2 * recent)%nat then 0.02
  else 0.

(** The freshness bonus when at least half of the facts are recent. *)
Definition bonusAtLeastHalf (recent total : nat) : float :=
  if (recent =? total)%nat then 0.05
  else if (total <=? 2 * recent)%nat then 0.02
  else 0.

(** The clamp to [0, 1]; what is not a finite number counts as 0. *)
Definition clampUnit (x : float) : float :=
  if Js.isFinite x
  then if (x <? 0)%float then 0 else if (1 <? x)%float then 1 else x
  else 0.

(** The formula of the confidence, for a reading [bonus] of the freshness
    bonus. *)
Definition formulaConfidence (bonus : nat -> nat -> float)
  (agreeing conflicts : nat) (avgReliability : float) (recent total : nat) : float :=
  clampUnit (baseConfidence agreeing
             - Js.min 0.25 (Js.ofNat conflicts * 0.1)
             + (avgReliability - 0.7) * 0.15
             + bonus recent total).

(** The formula applied to the accepted group of an analysis. *)
Definition formulaFor (bonus : nat -> nat -> float) (analysis : AnalysisResult)
  (group : EvidenceGroup) : float :=
  let finalFacts := filterFinalFacts (facts group) in
  formulaConfidence bonus
    (countDistinctProviders finalFacts)
    (countConflicts (groups analysis) (key group))
    (averageReliability finalFacts)
    (List.length (filter (isRecent now dateParse) finalFacts))
    (List.length finalFacts).

End ConfidenceNotions.

(** ** Notions used in the statements, continued *)

Section RetryNotions.

Variable setTimeout : float -> Utils.Env -> Utils.Env.
Variable A : Type.
Variable fn : Utils.Action A.
Variable factor : float.

(** The host state in which attempt number [k] (from 0) starts, when the
    attempts before it were rejected: after each of them a timer is
    awaited, [delay] first and [factor] times longer every time. *)
Fixpoint envOfAttempt (k : nat) (delay : float) (e : Utils.Env) : Utils.Env :=
  match k with
  | O => e
  | S k' => envOfAttempt k' (delay * factor) (setTimeout delay (snd (fn e)))
  end.

(** The attempt is rejected. *)
Definition rejectedIn (e : Utils.Env) : Prop :=
  exists message, fst (fn e) = inl message.

End RetryNotions.

(** The values [withRetry] reads from its options. *)
Definition retriesOf (options : option Fetch.RetryOptions) : nat :=
  match options with
  | Some {| Fetch.retries := Some n |} => n
  | _ => 2%nat
  end.

Definition initialDelayOf (options : option Fetch.RetryOptions) : float :=
  match options with
  | Some {| Fetch.initialDelayMs := Some d |} => d
  | _ => 250
  end.

Definition factorOf (options : option Fetch.RetryOptions) : float :=
  match options with
  | Some {| Fetch.factor := Some f |} => f
  | _ => 2
  end.


Section StatisticNotions.

(** The value lies outside the valid range of its statistic type. *)
Definition outOfRange (stat : NormalizedStatistic.t) : Prop :=
  exists rules,
    Validation.rulesFor (NormalizedStatistic.type stat) Validation.RANGE_RULES
    = Some rules
    /\ ((NormalizedStatistic.value stat <? Validation.min rules)%float = true
        \/ (Validation.max rules <? NormalizedStatistic.value stat)%float = true).

(** The value lies within the valid range of its statistic type and
    outside the typical one. *)
Definition unusual (stat : NormalizedStatistic.t) : Prop :=
  exists rules,
    Validation.rulesFor (NormalizedStatistic.type stat) Validation.RANGE_RULES
    = Some rules
    /\ (Validation.min rules <=? NormalizedStatistic.value stat)%float = true
    /\ (NormalizedStatistic.value stat <=? Validation.max rules)%float = true
    /\ ((NormalizedStatistic.value stat <? Validation.typicalLow rules)%float
        = true
        \/ (Validation.typicalHigh rules <? NormalizedStatistic.value stat)%float
           = true).

(** The source a statistic gets from the response it was read from. *)
Definition sourceOf (response : StatisticProviderResponse.t) (value : float)
  : StatisticSource.t :=
  {| StatisticSource.source := StatisticProviderResponse.provider response;
     StatisticSource.tier := StatisticProviderResponse.tier response;
     StatisticSource.weight := StatisticProviderResponse.weight response;
     StatisticSource.parsedValue := Some value;
     StatisticSource.timestamp :=
       Some (StatisticProviderResponse.collectedAt response) |}.

(** The candidate carries no unit and no aggregation of its own. *)
Definition plain (candidate : Normalization.RawStatisticCandidate) : Prop :=
  Normalization.unit candidate = None
  /\ Normalization.aggregation candidate = None.

(** The response carries the name and the tier of one of the configured
    providers. *)
Definition configured (response : StatisticProviderResponse.t) : Prop :=
  In (StatisticProviderResponse.provider response,
      StatisticProviderResponse.tier response)
     (map (fun entry => (Providers.provider (snd entry),
                         Providers.tier (snd entry)))
          Providers.providerConfigs).

End StatisticNotions.

Section FactNotions.
Import Resolver.

(** What every fact read from the output of a tool looks like: its winner
    is not empty, its key is a [winner:] key, it carries no award and no
    player, and its reliability is one of the four values of the providers
    and the feeds. *)
Definition reported (fact : NormalizedFact) : Prop :=
  Js.truthy (winner fact) = true
  /\ Js.startsWith (canonicalKey fact) "winner:" = true
  /\ award fact = None
  /\ player fact = None
  /\ In (reliability fact) [0.85; 0.95; 0.9; 0.6]%float.

(** The parameters of [buildFact] with the two sides exchanged. *)
Definition swapSides (params : Artifacts.FactParams) : Artifacts.FactParams :=
  {| Artifacts.provider := Artifacts.provider params;
     Artifacts.structured := Artifacts.structured params;
     Artifacts.homeTeam := Artifacts.awayTeam params;
     Artifacts.awayTeam := Artifacts.homeTeam params;
     Artifacts.homeScore := Artifacts.awayScore params;
     Artifacts.awayScore := Artifacts.homeScore params;
     Artifacts.winner := Artifacts.winner params;
     Artifacts.award := Artifacts.award params;
     Artifacts.player := Artifacts.player params;
     Artifacts.status := Artifacts.status params;
     Artifacts.endTimestamp := Artifacts.endTimestamp params;
     Artifacts.sourceUrl := Artifacts.sourceUrl params;
     Artifacts.display := Artifacts.display params;
     Artifacts.category := Artifacts.category params;
     Artifacts.reliabilityOverride := Artifacts.reliabilityOverride params |}.

(** What a fact read from an event of [provider] looks like. *)
Definition factOf (provider : string) (fact : NormalizedFact) : Prop :=
  Resolver.provider fact = provider
  /\ Js.truthy (winner fact) = true
  /\ Js.startsWith (canonicalKey fact) "winner:" = true
  /\ award fact = None
  /\ player fact = None
  /\ reliability fact = Artifacts.getReliabilityScore provider.

(** What a fact read from a headline looks like. *)
Definition headlineFact (fact : NormalizedFact) : Prop :=
  Js.startsWith (Resolver.provider fact) "rss:" = true
  /\ Js.truthy (winner fact) = true
  /\ Js.startsWith (canonicalKey fact) "winner:" = true
  /\ award fact = None
  /\ player fact = None
  /\ reliability fact = 0.6%float.

End FactNotions.

(** ** Concrete hosts and inputs for the worked examples *)

Module Scenarios.

(** Decimal printing of the integer part: what the host prints for an
    integral number below 1e21.  The examples print integral numbers only. *)
Definition printInteger (x : float) : string :=
  NilZero.string_of_int (Z.to_int (Js.trunc x)).

(** The power of a host on the exponent 2, the only one the sources use:
    the product. *)
Definition power (base exponent : float) : float := (base * base)%float.

(** A model call that failed: [summarizeWithModel] returns [null]. *)
Definition noModel (query : string) (structured : QuerySchema.StructuredQuery)
  (acceptedKey : string) (context : Resolver.SummaryContext)
  : option Resolver.ModelSummary := None.

(** 2025-01-16T00:00:00Z in epoch milliseconds. *)
Definition clockNow : Z := 1736985600000.

(** [Date.parse] on the two timestamps the examples use. *)
Definition parseKnownDates (s : string) : option Z :=
  if s =? "2025-01-15T22:00:00Z" then Some 1736978400000%Z
  else if s =? "2025-01-10T22:00:00Z" then Some 1736546400000%Z
  else None.

(** A query text holding no date. *)
Definition noDate (lower : string) : option string := None.

(** A finished fixture reported by one provider. *)
Definition fixture (provider canonicalKey : string) (winner : option string)
  (homeScore awayScore : float) (endTimestamp : string) (reliability : float)
  : Resolver.NormalizedFact :=
  {| Resolver.provider := provider;
     Resolver.canonicalKey := canonicalKey;
     Resolver.display := "Result reported";
     Resolver.category := Resolver.cat_result;
     Resolver.homeTeam := Some "Arsenal";
     Resolver.awayTeam := Some "Chelsea";
     Resolver.winner := winner;
     Resolver.homeScore := Some homeScore;
     Resolver.awayScore := Some awayScore;
     Resolver.award := None;
     Resolver.player := None;
     Resolver.status := Some "FT";
     Resolver.endTimestamp := Some endTimestamp;
     Resolver.sourceUrl := None;
     Resolver.reliability := reliability |}.

Definition didArsenalWin : QuerySchema.StructuredQuery :=
  {| QuerySchema.sport := QuerySchema.general;
     QuerySchema.date := Some "2025-01-15";
     QuerySchema.teams := ["Arsenal"; "Chelsea"];
     QuerySchema.player := None;
     QuerySchema.competition := None;
     QuerySchema.matchday := None;
     QuerySchema.questionType := QuerySchema.did_result_happen |}.

Definition drawKey : string := "winner:draw:arsenal|chelsea:2025-01-15".
Definition arsenalKey : string := "winner:arsenal:arsenal|chelsea:2025-01-15".
Definition chelseaKey : string := "winner:chelsea:arsenal|chelsea:2025-01-15".

(** Three providers report the same 1-1 draw. *)
Definition drawFacts : list Resolver.NormalizedFact :=
  [fixture "THESPORTSDB" drawKey (Some "draw") 1 1 "2025-01-15T22:00:00Z" 0.85;
   fixture "API_SPORTS_SOCCER" drawKey (Some "draw") 1 1 "2025-01-15T22:00:00Z" 0.95;
   fixture "THE_ODDS_API" drawKey (Some "draw") 1 1 "2025-01-15T22:00:00Z" 0.9].

Definition decide (structured : QuerySchema.StructuredQuery)
  (fs : list Resolver.NormalizedFact) : Resolver.ResolutionDecision :=
  Resolver.decideResolution clockNow parseKnownDates printInteger noModel
    "Did Arsenal win against Chelsea on 2025-01-15?" structured ""
    (Resolver.analyzeArtifacts fs []).

(** The inputs of the consensus test suite: [BASE_QUERY] and [buildStat]. *)
Definition yellowCardsQuery : StatisticsQuery.t :=
  {| StatisticsQuery.queryType := StatisticQueryType.match_statistic;
     StatisticsQuery.statisticType := "yellow_cards";
     StatisticsQuery.entities :=
       {| Entities.match_ :=
            Some {| MatchEntities.homeTeam := Some "Arsenal";
                    MatchEntities.awayTeam := Some "Chelsea";
                    MatchEntities.date := Some 1730836800000%Z;
                    MatchEntities.competition := None;
                    MatchEntities.matchId := None |};
          Entities.team := None;
          Entities.player := None;
          Entities.competition := None |};
     StatisticsQuery.aggregation := Some StatisticAggregation.total;
     StatisticsQuery.period := Some StatisticPeriod.full_time;
     StatisticsQuery.threshold := None;
     StatisticsQuery.comparator := None;
     StatisticsQuery.eventEndTime := Some 1730836800000%Z;
     StatisticsQuery.canResolveNow := true;
     StatisticsQuery.rawText := "Total yellow cards in Arsenal vs Chelsea" |}.

(** The sources of the examples were collected at [clockNow]. *)
Definition buildStat (source : string) (value : float) (tier : Z)
  : NormalizedStatistic.t :=
  {| NormalizedStatistic.type := "yellow_cards";
     NormalizedStatistic.team := None;
     NormalizedStatistic.player := None;
     NormalizedStatistic.value := value;
     NormalizedStatistic.unit := StatisticUnit.count;
     NormalizedStatistic.period := StatisticPeriod.full_time;
     NormalizedStatistic.aggregation := StatisticAggregation.total;
     NormalizedStatistic.sources :=
       [{| StatisticSource.source := source;
           StatisticSource.tier := tier;
           StatisticSource.weight := if (tier =? 1)%Z then 0.45 else 0.3;
           StatisticSource.parsedValue := Some value;
           StatisticSource.timestamp := Some clockNow |}] |}.

(** "identifies consensus when three sources agree" *)
Definition threeAgree : list NormalizedStatistic.t :=
  [buildStat "OFFICIAL_LEAGUE_API" 4 1; buildStat "OPTA_STATS" 4 1;
   buildStat "API_FOOTBALL" 4 2; buildStat "FLASHSCORE" 3 2].

(** "fails consensus when insufficient agreement" *)
Definition twoAgree : list NormalizedStatistic.t :=
  [buildStat "OFFICIAL_LEAGUE_API" 5 1; buildStat "OPTA_STATS" 4 1;
   buildStat "API_FOOTBALL" 4 2].

(** Two providers report a value beyond the range of the numbers, which
    a payload writes as [1e999]. *)
Definition unboundedValues : list NormalizedStatistic.t :=
  [buildStat "OPTA_STATS" infinity 1; buildStat "STATSBOMB" infinity 1].

(** A request that takes 120 ms and is answered with an error status. *)
Definition failingRequest (url : string) : Utils.Action string :=
  fun e =>
    (inl "Request failed with status code 503",
     {| Utils.clock := (Utils.clock e + 120)%Z;
        Utils.requests := Utils.requests e ++ [url] |}).

(** The host at a given time, with no request made yet. *)
Definition hostAt (time : Z) : Utils.Env :=
  {| Utils.clock := time; Utils.requests := [] |}.

Definition statsUrl : string := "https://stats.example/match-stats".

(** Two feeds, equally reliable, each reporting another winner. *)
Definition tiedFacts : list Resolver.NormalizedFact :=
  [fixture "rss:bbc.co.uk" arsenalKey (Some "Arsenal") 2 1 "2025-01-15T22:00:00Z" 0.6;
   fixture "rss:espn.com" chelseaKey (Some "Chelsea") 1 2 "2025-01-15T22:00:00Z" 0.6].

(** The same three providers report an Arsenal win and a Chelsea win: the
    reliabilities of the two groups are the same three numbers, met in
    another order. *)
Definition splitFacts : list Resolver.NormalizedFact :=
  [fixture "THESPORTSDB" arsenalKey (Some "Arsenal") 2 1 "2025-01-15T22:00:00Z" 0.85;
   fixture "API_SPORTS_SOCCER" arsenalKey (Some "Arsenal") 2 1 "2025-01-15T22:00:00Z" 0.95;
   fixture "THE_ODDS_API" arsenalKey (Some "Arsenal") 2 1 "2025-01-15T22:00:00Z" 0.9;
   fixture "THE_ODDS_API" chelseaKey (Some "Chelsea") 1 2 "2025-01-15T22:00:00Z" 0.9;
   fixture "API_SPORTS_SOCCER" chelseaKey (Some "Chelsea") 1 2 "2025-01-15T22:00:00Z" 0.95;
   fixture "THESPORTSDB" chelseaKey (Some "Chelsea") 1 2 "2025-01-15T22:00:00Z" 0.85].

(** Three providers report an Arsenal win and one a Chelsea win. *)
Definition majorityFacts : list Resolver.NormalizedFact :=
  [fixture "THESPORTSDB" arsenalKey (Some "Arsenal") 2 1 "2025-01-15T22:00:00Z" 0.85;
   fixture "rss:espn.com" chelseaKey (Some "Chelsea") 1 2 "2025-01-15T22:00:00Z" 0.6;
   fixture "API_SPORTS_SOCCER" arsenalKey (Some "Arsenal") 2 1 "2025-01-15T22:00:00Z" 0.95;
   fixture "THE_ODDS_API" arsenalKey (Some "Arsenal") 2 1 "2025-01-15T22:00:00Z" 0.9].

(** Four providers report an Arsenal win; two of the four reports are a
    few hours old and two are five days old. *)
Definition halfRecentFacts : list Resolver.NormalizedFact :=
  [fixture "THESPORTSDB" arsenalKey (Some "Arsenal") 2 1 "2025-01-15T22:00:00Z" 0.85;
   fixture "API_SPORTS_SOCCER" arsenalKey (Some "Arsenal") 2 1 "2025-01-15T22:00:00Z" 0.95;
   fixture "THE_ODDS_API" arsenalKey (Some "Arsenal") 2 1 "2025-01-10T22:00:00Z" 0.9;
   fixture "rss:espn.com" arsenalKey (Some "Arsenal") 2 1 "2025-01-10T22:00:00Z" 0.6].

(** One provider answered, and its answer was normalized into the same
    statistic twice: the payload [{ statistics: [{ type: "yellow_cards",
    value: 4 }] }] is walked once through its [statistics] array and once
    more as a nested object. *)
Definition optaResponse : StatisticProviderResponse.t :=
  {| StatisticProviderResponse.provider := "OPTA_STATS";
     StatisticProviderResponse.tier := 1;
     StatisticProviderResponse.weight := 0.45;
     StatisticProviderResponse.collectedAt := clockNow |}.

Definition walkedTwice : list NormalizedStatistic.t :=
  [buildStat "OPTA_STATS" 4 1; buildStat "OPTA_STATS" 4 1].

(** The statistic pipeline on given normalized statistics, with no
    validation warnings and no errors. *)
Definition resolveStatistics (providers : list StatisticProviderResponse.t)
  (normalized : list NormalizedStatistic.t) (query : StatisticsQuery.t)
  : StatsResolver.StatisticsResolutionResult :=
  StatsResolver.resolveStatisticsQuery printInteger
    (StatsResolver.runStatisticsGraph power clockNow providers normalized None [] []
       query)
    query.

(** The statistic classifier and the outcome classifier on a query text
    without a date. *)
Definition classifyStatistics (rawQuery : string) : option StatisticsQuery.t :=
  QueryClassifier.classifyStatisticsQuery clockNow parseKnownDates noDate
    rawQuery None.

Definition classifyOutcome (query : string) : option QuerySchema.StructuredQuery :=
  QuerySchema.parseQueryToStructuredRequest noDate query
    (Some (Utils.extractQueryMetadata noDate query)).

End Scenarios.

(** ** Worked examples, continued *)

Module Samples.
Local Open Scope string_scope.

(** Timers fire on time: the clock moves on by the delay, rounded up. *)
Definition timerFires (delay : float) (e : Utils.Env) : Utils.Env :=
  {| Utils.clock := (Utils.clock e + Js.trunc delay)%Z;
     Utils.requests := Utils.requests e |}.

(** A request that takes 80 ms; the host answers the first two requests
    with an error status and the third one with a body. *)
Definition flakyRequest (url : string) : Utils.Action string :=
  fun e =>
    let e' := {| Utils.clock := (Utils.clock e + 80)%Z;
                 Utils.requests := Utils.requests e ++ [url] |} in
    if (List.length (Utils.requests e) <? 2)%nat
    then (inl "Request failed with status code 503", e')
    else (inr "{}", e').

(** The host of the statistics URL, as [new URL] gives it. *)
Definition hostOfUrl (url : string) : option string :=
  if Js.startsWith url "https://stats.example/" then Some "stats.example"
  else None.

(** A request, whatever its configuration, that is answered with an error
    status. *)
Definition failingAxios (url : string) (config : unit) : Utils.Action string :=
  Scenarios.failingRequest url.

(** The registry once the breaker of the statistics host has opened, at
    time 3120. *)
Definition openRegistry : Fetch.BreakerMap :=
  [("stats.example",
    {| Fetch.options := Utils.defaultOptions;
       Fetch.state := {| Utils.failures := 3; Utils.openedAt := Some 3120%Z |} |})].

(** [Number(text)] on the decimal numerals of the examples. *)
Definition toNumber (text : string) : float :=
  match QueryClassifier.parseFloat text with
  | Some value => value
  | None => nan
  end.

(** A response collected at [clockNow]. *)
Definition answerOf (provider : string) (tier : Z) (weight : float)
  : StatisticProviderResponse.t :=
  {| StatisticProviderResponse.provider := provider;
     StatisticProviderResponse.tier := tier;
     StatisticProviderResponse.weight := weight;
     StatisticProviderResponse.collectedAt := Scenarios.clockNow |}.

(** Three providers answer the query for the yellow cards: two with the
    bare number and one with a sentence. *)
Definition bareAnswers : list (StatisticProviderResponse.t * Json.t) :=
  [(Scenarios.optaResponse, Json.Num 4);
   (answerOf "OFFICIAL_LEAGUE_API" 1 0.45, Json.Num 4);
   (answerOf "API_FOOTBALL" 2 0.3, Json.Str "4 yellow cards")].

(** The payload [{ statistics: [{ type: "yellow_cards", value: 4 }] }]. *)
Definition listedStatistics : list Json.t :=
  [Json.Obj [("type", Json.Str "yellow_cards"); ("value", Json.Num 4)]].

Definition listedEntries : list (string * Json.t) :=
  [("statistics", Json.Arr listedStatistics)].

(** Three sources report four yellow cards. *)
Definition allAgree : list NormalizedStatistic.t :=
  [Scenarios.buildStat "OFFICIAL_LEAGUE_API" 4 1;
   Scenarios.buildStat "OPTA_STATS" 4 1;
   Scenarios.buildStat "API_FOOTBALL" 4 2].

(** The query of [didArsenalWin] with the teams the other way round. *)
Definition didChelseaLose : QuerySchema.StructuredQuery :=
  {| QuerySchema.sport := QuerySchema.general;
     QuerySchema.date := Some "2025-01-15";
     QuerySchema.teams := ["Chelsea"; "Arsenal"];
     QuerySchema.player := None;
     QuerySchema.competition := None;
     QuerySchema.matchday := None;
     QuerySchema.questionType := QuerySchema.did_result_happen |}.

(** Arsenal won 2-1 at home, as TheSportsDB would report it. *)
Definition arsenalWon : Artifacts.FactParams :=
  {| Artifacts.provider := "THESPORTSDB";
     Artifacts.structured := Scenarios.didArsenalWin;
     Artifacts.homeTeam := Some "Arsenal";
     Artifacts.awayTeam := Some "Chelsea";
     Artifacts.homeScore := Some 2%float;
     Artifacts.awayScore := Some 1%float;
     Artifacts.winner := Some "Arsenal";
     Artifacts.award := None;
     Artifacts.player := None;
     Artifacts.status := Some "FT";
     Artifacts.endTimestamp := Some "2025-01-15T22:00:00Z";
     Artifacts.sourceUrl := None;
     Artifacts.display := None;
     Artifacts.category := None;
     Artifacts.reliabilityOverride := None |}.

(** The event of that match in the format of TheSportsDB. *)
Definition arsenalEvent : Json.t :=
  Json.Obj [("strHomeTeam", Json.Str "Arsenal");
            ("strAwayTeam", Json.Str "Chelsea");
            ("dateEvent", Json.Str "2025-01-15");
            ("intHomeScore", Json.Str "2");
            ("intAwayScore", Json.Str "1");
            ("strStatus", Json.Str "FT")].

Definition artifactOf (tool : string) (output : Json.t)
  : Artifacts.DeepAgentArtifact :=
  {| Artifacts.tool := tool; Artifacts.output := Some output;
     Artifacts.error := None |}.

(** An output with the events at its top level; the same events inside
    the [payload] of an evidence record; and a list of events that holds a
    [null]. *)
Definition eventsAtTop : Artifacts.DeepAgentArtifact :=
  artifactOf "thesportsdb_tool"
    (Json.Obj [("provider", Json.Str "THESPORTSDB");
               ("events", Json.Arr [arsenalEvent])]).

Definition evidenceEntries : list (string * Json.t) :=
  [("provider", Json.Str "THESPORTSDB");
   ("url", Json.Str "https://www.thesportsdb.com/api/v1/json/eventsday.php");
   ("ts", Json.Str "2025-01-16T00:00:00.000Z");
   ("payload", Json.Obj [("events", Json.Arr [arsenalEvent])])].

Definition eventsInPayload : Artifacts.DeepAgentArtifact :=
  artifactOf "thesportsdb_tool" (Json.Obj evidenceEntries).

Definition nullEntries : list (string * Json.t) :=
  [("provider", Json.Str "THESPORTSDB");
   ("events", Json.Arr [arsenalEvent; Json.Null])].

Definition eventsWithNull : Artifacts.DeepAgentArtifact :=
  artifactOf "thesportsdb_tool" (Json.Obj nullEntries).

(** A planner whose call fails, tools that all throw, and a soccer tool
    that reports a win of the Lakers while the other tools throw. *)
Definition noPlanner (structured : QuerySchema.StructuredQuery)
  (tools : list string) : option string := None.

Definition toolsDown (tool : string) (input : DeepAgent.ToolInput)
  : DeepAgent.ToolOutcome :=
  DeepAgent.Failed "connect ECONNREFUSED".

Definition lakersGame : Json.t :=
  Json.Obj [("teams",
             Json.Obj [("home", Json.Obj [("name", Json.Str "Lakers");
                                          ("winner", Json.Bool true)]);
                       ("away", Json.Obj [("name", Json.Str "Celtics");
                                          ("winner", Json.Bool false)])]);
            ("fixture",
             Json.Obj [("date", Json.Str "2025-01-15T22:00:00Z");
                       ("status", Json.Obj [("short", Json.Str "FT")])]);
            ("goals", Json.Obj [("home", Json.Num 110);
                                ("away", Json.Num 102)])].

Definition oneToolUp (tool : string) (input : DeepAgent.ToolInput)
  : DeepAgent.ToolOutcome :=
  if tool =? DeepAgent.ApiSportsSoccerTool
  then DeepAgent.Returned
         (Some (Json.Obj [("provider", Json.Str "API_SPORTS_SOCCER");
                          ("response", Json.Arr [lakersGame])]))
  else DeepAgent.Failed "connect ECONNREFUSED".

(** The insert of [logResolution] resolves. *)
Definition logged (query : string) (result : Resolve.ResolutionResult) : bool :=
  true.

(** [resolveQuery] on a host that finds no date in the query. *)
Definition resolveUndated
  (invoke : string -> DeepAgent.ToolInput -> DeepAgent.ToolOutcome)
  (query : string) : Resolve.Failure + Resolve.ResolutionResult :=
  Resolve.resolveQuery Scenarios.clockNow Scenarios.parseKnownDates
    Scenarios.printInteger toNumber hostOfUrl Scenarios.noDate
    Scenarios.noModel noPlanner invoke true logged query.

End Samples.

(** * Properties *)

(** ** Drawn matches on the outcome path *)

Section DrawnMatch.
Import Resolver.

Variable now : Z.
Variable dateParse : string -> option Z.
Variable numberToString : float -> string.
Variable summarizeWithModel :
  string -> QuerySchema.StructuredQuery -> string -> SummaryContext ->
  option ModelSummary.

(** Scores of which neither is above the other, with no override, are
    reported as the winner "draw". *)
Lemma determineWinner_level_scores home away (hs aws : float) :
  (aws <? hs)%float = false -> (hs <? aws)%float = false ->
  determineWinner home away (Some hs) (Some aws) None = Some "draw".
Proof.
  intros H1 H2. unfold determineWinner. simpl. now rewrite H1, H2.
Qed.

Lemma extractWinner_all_draw fs :
  (forall f, In f fs -> winner f = Some "draw") ->
  extractWinner fs = None.
Proof.
  induction fs as [|f fs IH]; intros Hall; simpl.
  - reflexivity.
  - rewrite (Hall f (or_introl eq_refl)). simpl.
    apply IH. intros g Hg. apply Hall. now right.
Qed.

Lemma find_award_none fs :
  (forall f, In f fs ->
             ~ (category f = cat_award /\ Js.truthy (player f) = true)) ->
  find (fun fact => Category_eqb (category fact) cat_award
                    && Js.truthy (player fact)) fs = None.
Proof.
  induction fs as [|f fs IH]; intros Hno; simpl.
  - reflexivity.
  - destruct (Category_eqb (category f) cat_award && Js.truthy (player f))
      eqn:E.
    + exfalso. apply andb_true_iff in E. destruct E as [Ec Ep].
      apply (Hno f (or_introl eq_refl)). split; [|exact Ep].
      destruct (category f); simpl in Ec; congruence.
    + apply IH. intros g Hg. apply Hno. now right.
Qed.

Lemma deriveResolution_without_winner structured fs :
  (forall f, In f fs ->
             ~ (category f = cat_award /\ Js.truthy (player f) = true)) ->
  deriveResolution numberToString structured fs None = "insufficient_data".
Proof.
  intros Hno. unfold deriveResolution. simpl.
  rewrite (find_award_none fs Hno).
  now destruct (QuerySchema.questionType structured).
Qed.

(** C10: when every final fact of the accepted group carries the winner
    "draw" and none is an award fact with a player, [extractWinner] finds
    no winner, [deriveResolution] answers "insufficient_data", and so does
    the decision, with confidence 0.3, whatever the question type
    and however many providers corroborate the draw. *)
Theorem drawn_match_is_never_resolved
  query structured agentSummary analysis group :
  acceptedGroup analysis = Some group ->
  (forall f, In f (filterFinalFacts (facts group)) ->
             winner f = Some "draw") ->
  (forall f, In f (filterFinalFacts (facts group)) ->
             ~ (category f = cat_award /\ Js.truthy (player f) = true)) ->
  let decision :=
    decideResolution now dateParse numberToString summarizeWithModel
      query structured agentSummary analysis in
  extractWinner (filterFinalFacts (facts group)) = None
  /\ deriveResolution numberToString structured
       (filterFinalFacts (facts group))
       (extractWinner (filterFinalFacts (facts group))) = "insufficient_data"
  /\ resolution decision = "insufficient_data"
  /\ confidence decision = 0.3%float.
Proof.
  intros Hgroup Hdraw Haward decision.
  pose proof (extractWinner_all_draw _ Hdraw) as Hw.
  pose proof (deriveResolution_without_winner structured _ Haward) as Hr.
  repeat split.
  - exact Hw.
  - now rewrite Hw.
  - unfold decision, decideResolution. rewrite Hgroup.
    destruct (_ <? _)%nat; [reflexivity|].
    rewrite Hw, Hr. reflexivity.
  - unfold decision, decideResolution. rewrite Hgroup.
    destruct (_ <? _)%nat; [reflexivity|].
    rewrite Hw, Hr. reflexivity.
Qed.

End DrawnMatch.

Lemma drawn_match_is_never_resolved_witness :
  Resolver.extractWinner (Resolver.filterFinalFacts Scenarios.drawFacts) = None
  /\ Resolver.deriveResolution Scenarios.printInteger Scenarios.didArsenalWin
       (Resolver.filterFinalFacts Scenarios.drawFacts)
       (Resolver.extractWinner (Resolver.filterFinalFacts Scenarios.drawFacts))
     = "insufficient_data"
  /\ Resolver.resolution (Scenarios.decide Scenarios.didArsenalWin Scenarios.drawFacts)
     = "insufficient_data"
  /\ Resolver.confidence (Scenarios.decide Scenarios.didArsenalWin Scenarios.drawFacts)
     = 0.3%float.
Proof.
  apply (drawn_match_is_never_resolved
           Scenarios.clockNow Scenarios.parseKnownDates Scenarios.printInteger
           Scenarios.noModel "Did Arsenal win against Chelsea on 2025-01-15?"
           Scenarios.didArsenalWin ""
           (Resolver.analyzeArtifacts Scenarios.drawFacts [])
           {| Resolver.key := Scenarios.drawKey;
              Resolver.facts := Scenarios.drawFacts;
              Resolver.providers :=
                ["THESPORTSDB"; "API_SPORTS_SOCCER"; "THE_ODDS_API"];
              Resolver.reliabilityAverage :=
                Resolver.averageReliability Scenarios.drawFacts |}).
  - reflexivity.
  - intros f Hf. simpl in Hf.
    destruct Hf as [<-|[<-|[<-|[]]]]; reflexivity.
  - intros f Hf [Hc _]. simpl in Hf.
    destruct Hf as [<-|[<-|[<-|[]]]]; discriminate Hc.
Defined.

(** ** The order and the differences of numbers *)

Section NumberFacts.
Local Open Scope float_scope.

Lemma SFltb_iff f1 f2 :
  SFltb f1 f2 = true
  <-> sfNan f1 = false /\ sfNan f2 = false /\ lexLt (sfCode f1) (sfCode f2).
Proof.
  unfold SFltb, SFcompare.
  destruct f1 as [s1|s1| |s1 m1 e1], f2 as [s2|s2| |s2 m2 e2];
    try destruct s1; try destruct s2; cbn [sfNan sfCode lexLt];
    try (split; [discriminate | intros (_ & _ & H); lia]);
    try (split; [discriminate | intros (H & _); discriminate]);
    try (split; [discriminate | intros (_ & H & _); discriminate]);
    try (split; [intros _; repeat split; lia | reflexivity]).
  - change (Pos.compare_cont Eq m1 m2) with (Pos.compare m1 m2).
    destruct (Z.compare_spec e1 e2); destruct (Pos.compare_spec m1 m2);
      cbn [CompOpp];
      (split; [ first [discriminate | intros _; repeat split; lia]
              | first [reflexivity | intros (_ & _ & H'); lia] ]).
  - change (Pos.compare_cont Eq m1 m2) with (Pos.compare m1 m2).
    destruct (Z.compare_spec e1 e2); destruct (Pos.compare_spec m1 m2);
      (split; [ first [discriminate | intros _; repeat split; lia]
              | first [reflexivity | intros (_ & _ & H'); lia] ]).
Qed.

Lemma SFleb_iff f1 f2 :
  SFleb f1 f2 = true
  <-> sfNan f1 = false /\ sfNan f2 = false /\ ~ lexLt (sfCode f2) (sfCode f1).
Proof.
  unfold SFleb, SFcompare.
  destruct f1 as [s1|s1| |s1 m1 e1], f2 as [s2|s2| |s2 m2 e2];
    try destruct s1; try destruct s2; cbn [sfNan sfCode lexLt];
    try (split; [discriminate | intros (_ & _ & H); lia]);
    try (split; [discriminate | intros (H & _); discriminate]);
    try (split; [discriminate | intros (_ & H & _); discriminate]);
    try (split; [intros _; repeat split; lia | reflexivity]).
  - change (Pos.compare_cont Eq m1 m2) with (Pos.compare m1 m2).
    destruct (Z.compare_spec e1 e2); destruct (Pos.compare_spec m1 m2);
      cbn [CompOpp];
      (split; [ first [discriminate | intros _; repeat split; lia]
              | first [reflexivity | intros (_ & _ & H'); lia] ]).
  - change (Pos.compare_cont Eq m1 m2) with (Pos.compare m1 m2).
    destruct (Z.compare_spec e1 e2); destruct (Pos.compare_spec m1 m2);
      (split; [ first [discriminate | intros _; repeat split; lia]
              | first [reflexivity | intros (_ & _ & H'); lia] ]).
Qed.

Lemma is_nan_spec x : is_nan x = sfNan (Prim2SF x).
Proof.
  unfold Prim2SF. destruct (is_nan x); [reflexivity|].
  destruct (is_zero x); [reflexivity|].
  destruct (is_infinity x); [reflexivity|].
  destruct (Z.frexp x) as [r e].
  destruct (shr_fexp _ _ _ _ _) as [shr e'].
  destruct (shr_m shr); reflexivity.
Qed.

Lemma is_infinity_spec x :
  is_infinity x
  = match Prim2SF x with S754_infinity _ => true | _ => false end.
Proof.
  unfold is_infinity. rewrite FloatAxioms.eqb_spec, FloatAxioms.abs_spec.
  change (Prim2SF infinity) with (S754_infinity false).
  destruct (Prim2SF x) as [s|s| |s m e]; try destruct s; reflexivity.
Qed.

Lemma isFinite_spec x :
  Js.isFinite x
  = match Prim2SF x with
    | S754_zero _ | S754_finite _ _ _ => true
    | _ => false
    end.
Proof.
  unfold Js.isFinite, is_finite. rewrite is_nan_spec, is_infinity_spec.
  destruct (Prim2SF x); reflexivity.
Qed.

Lemma lexLt_irrefl a : ~ lexLt a a.
Proof. destruct a as [[a1 a2] a3]. unfold lexLt. lia. Qed.

Lemma lexLt_trans a b c : lexLt a b -> lexLt b c -> lexLt a c.
Proof.
  destruct a as [[a1 a2] a3], b as [[b1 b2] b3], c as [[c1 c2] c3].
  unfold lexLt. lia.
Qed.

Lemma lexLt_cotrans a b c : lexLt a c -> lexLt a b \/ lexLt b c.
Proof.
  destruct a as [[a1 a2] a3], b as [[b1 b2] b3], c as [[c1 c2] c3].
  unfold lexLt. lia.
Qed.

Lemma ltb_iff x y :
  (x <? y) = true
  <-> is_nan x = false /\ is_nan y = false
      /\ lexLt (sfCode (Prim2SF x)) (sfCode (Prim2SF y)).
Proof. rewrite FloatAxioms.ltb_spec, !is_nan_spec. apply SFltb_iff. Qed.

Lemma leb_iff x y :
  (x <=? y) = true
  <-> is_nan x = false /\ is_nan y = false
      /\ ~ lexLt (sfCode (Prim2SF y)) (sfCode (Prim2SF x)).
Proof. rewrite FloatAxioms.leb_spec, !is_nan_spec. apply SFleb_iff. Qed.

Lemma ltb_irrefl x : (x <? x) = false.
Proof.
  destruct (x <? x) eqn:E; [|reflexivity].
  apply ltb_iff in E. destruct E as (_ & _ & E).
  destruct (lexLt_irrefl _ E).
Qed.

Lemma ltb_trans x y z : (x <? y) = true -> (y <? z) = true -> (x <? z) = true.
Proof.
  rewrite !ltb_iff. intros (Hx & Hy & Hxy) (_ & Hz & Hyz).
  repeat split; trivial. eapply lexLt_trans; eassumption.
Qed.

Lemma ltb_asym x y : (x <? y) = true -> (y <? x) = false.
Proof.
  intros H. destruct (y <? x) eqn:E; [|reflexivity].
  pose proof (ltb_irrefl x) as Hi. rewrite (ltb_trans _ _ _ H E) in Hi.
  discriminate.
Qed.

(** A number between: [y] is above [x] or below [z] when [x < z]. *)
Lemma ltb_cotrans x y z :
  (x <? z) = true -> is_nan y = false ->
  (x <? y) = true \/ (y <? z) = true.
Proof.
  rewrite !ltb_iff. intros (Hx & Hz & Hxz) Hy.
  destruct (lexLt_cotrans _ (sfCode (Prim2SF y)) _ Hxz); [left|right];
    repeat split; trivial.
Qed.

Lemma leb_negb_ltb x y :
  is_nan x = false -> is_nan y = false -> (x <=? y) = negb (y <? x).
Proof.
  intros Hx Hy.
  destruct (y <? x) eqn:E; cbn [negb].
  - apply ltb_iff in E. destruct E as (_ & _ & E).
    destruct (x <=? y) eqn:E'; [|reflexivity].
    apply leb_iff in E'. destruct E' as (_ & _ & E'). contradiction.
  - apply leb_iff. repeat split; trivial. intros H.
    assert ((y <? x) = true) as E'
      by (apply ltb_iff; repeat split; trivial).
    rewrite E in E'. discriminate.
Qed.

Lemma leb_false_of_ltb x y : (y <? x) = true -> (x <=? y) = false.
Proof.
  intros E. pose proof E as E0. apply ltb_iff in E.
  destruct E as (Hy & Hx & _).
  rewrite leb_negb_ltb, E0 by trivial. reflexivity.
Qed.

Lemma ltb_not_nan_l x y : (x <? y) = true -> is_nan x = false.
Proof. intros H. apply ltb_iff in H. tauto. Qed.

Lemma ltb_not_nan_r x y : (x <? y) = true -> is_nan y = false.
Proof. intros H. apply ltb_iff in H. tauto. Qed.

Lemma leb_not_nan_l x y : (x <=? y) = true -> is_nan x = false.
Proof. intros H. apply leb_iff in H. tauto. Qed.

Lemma isFinite_not_nan x : Js.isFinite x = true -> is_nan x = false.
Proof.
  rewrite isFinite_spec, is_nan_spec. destruct (Prim2SF x); trivial.
  discriminate.
Qed.

Lemma is_nan_abs x : is_nan (abs x) = is_nan x.
Proof.
  rewrite !is_nan_spec, FloatAxioms.abs_spec. destruct (Prim2SF x); reflexivity.
Qed.

(** The difference of a finite number and itself is zero. *)
Lemma sub_diag x : Js.isFinite x = true -> x - x = 0.
Proof.
  intros Hx. rewrite isFinite_spec in Hx.
  apply Prim2SF_inj. rewrite FloatAxioms.sub_spec.
  change (Prim2SF 0) with (S754_zero false).
  destruct (Prim2SF x) as [s|s| |s m e]; try discriminate.
  - destruct s; reflexivity.
  - unfold SF64sub, SFsub. rewrite Z.sub_diag. reflexivity.
Qed.

Lemma abs_sub_diag x : Js.isFinite x = true -> abs (x - x) = 0.
Proof. intros Hx. rewrite sub_diag by trivial. reflexivity. Qed.

(** Rounding a mantissa that is not negative gives a number. *)
Lemma shr_1_nonneg mrs : (0 <= shr_m mrs)%Z -> (0 <= shr_m (shr_1 mrs))%Z.
Proof.
  destruct mrs as [m r s]. destruct m as [|[p|p|]|p]; cbn; intros H;
    try lia; destruct p; cbn; lia.
Qed.

Lemma iter_shr_1_nonneg p mrs :
  (0 <= shr_m mrs)%Z -> (0 <= shr_m (iter_pos shr_1 p mrs))%Z.
Proof.
  revert mrs. induction p as [p IH|p IH|]; intros mrs H; cbn.
  - apply IH, IH, shr_1_nonneg, H.
  - apply IH, IH, H.
  - apply shr_1_nonneg, H.
Qed.

Lemma shr_fexp_nonneg m e l :
  (0 <= m)%Z -> (0 <= shr_m (fst (shr_fexp prec emax m e l)))%Z.
Proof.
  intros H. unfold shr_fexp, shr.
  assert (0 <= shr_m (shr_record_of_loc m l))%Z as H0
    by (destruct l as [|[| |]]; exact H).
  destruct (_ - e)%Z; cbn [fst]; trivial.
  apply iter_shr_1_nonneg, H0.
Qed.

Lemma round_nearest_even_nonneg m l :
  (0 <= m)%Z -> (0 <= round_nearest_even m l)%Z.
Proof.
  intros H. destruct l as [|[| |]]; cbn; try lia.
  destruct (Z.even m); lia.
Qed.

Lemma binary_round_aux_number s m e l :
  (0 <= m)%Z -> sfNan (binary_round_aux prec emax s m e l) = false.
Proof.
  intros H. unfold binary_round_aux.
  pose proof (shr_fexp_nonneg m e l H) as H1.
  destruct (shr_fexp prec emax m e l) as [mrs' e']. cbn [fst] in H1.
  pose proof (shr_fexp_nonneg _ e' loc_Exact
                (round_nearest_even_nonneg _ (loc_of_shr_record mrs') H1)) as H2.
  destruct (shr_fexp prec emax _ e' loc_Exact) as [mrs'' e'']. cbn [fst] in H2.
  destruct (shr_m mrs''); [reflexivity| |lia].
  destruct (_ <=? _)%Z; reflexivity.
Qed.

Lemma binary_normalize_number m e szero :
  sfNan (binary_normalize prec emax m e szero) = false.
Proof.
  unfold binary_normalize, binary_round.
  destruct m; [reflexivity| |];
    destruct (shl_align _ _ _) as [mz ez];
    apply binary_round_aux_number; lia.
Qed.

(** The difference of two finite numbers is a number. *)
Lemma sub_finite_number x y :
  Js.isFinite x = true -> Js.isFinite y = true -> is_nan (x - y) = false.
Proof.
  rewrite !isFinite_spec, is_nan_spec, FloatAxioms.sub_spec. unfold SF64sub, SFsub.
  destruct (Prim2SF x) as [sx|sx| |sx mx ex]; try discriminate;
    destruct (Prim2SF y) as [sy|sy| |sy my ey]; try discriminate;
    intros _ _; try reflexivity.
  - destruct sx, sy; reflexivity.
  - apply binary_normalize_number.
Qed.

(** A finite difference is within the tolerance or beyond it. *)
Lemma within_or_beyond x y t :
  Js.isFinite x = true -> Js.isFinite y = true -> is_nan t = false ->
  (abs (x - y) <=? t) = negb (t <? abs (x - y)).
Proof.
  intros Hx Hy Ht. apply leb_negb_ltb; trivial.
  rewrite is_nan_abs. apply sub_finite_number; trivial.
Qed.

End NumberFacts.

(** ** Statistic consensus *)

Section ConsensusFacts.
Import Consensus.

Lemma findConsensusValue_fold first rest tolerance :
  findConsensusValue (first :: rest) tolerance
  = fold_left (pick tolerance (first :: rest)) (first :: rest) (first, 1%nat).
Proof. reflexivity. Qed.

(** A finite value is a peer of itself. *)
Lemma peersWithin_self tolerance values v :
  (0 <=? tolerance)%float = true -> Js.isFinite v = true -> In v values ->
  (1 <= peersWithin tolerance values v)%nat.
Proof.
  intros Htol Hfinite Hin. unfold peersWithin.
  assert (Hf : In v (filter (fun candidate =>
                               (abs (candidate - v) <=? tolerance)%float)
                            values)).
  { apply filter_In. split; [exact Hin|].
    rewrite abs_sub_diag by exact Hfinite. exact Htol. }
  destruct (filter _ values); [contradiction|simpl; lia].
Qed.

Lemma pick_keeps_best tolerance values seen best value :
  bestSoFar tolerance values seen best ->
  In value values ->
  bestSoFar tolerance values (seen ++ [value]) (pick tolerance values best value).
Proof.
  intros (Hbv & Hone & Hle & Hseen) Hin.
  destruct best as [bv bc]. simpl in *. unfold pick.
  set (count := peersWithin tolerance values value).
  destruct ((bc <? count)%nat || ((count =? bc)%nat && (value <? bv)%float))
    eqn:E; unfold bestSoFar; simpl; (split; [|split; [|split]]);
    try assumption.
  - (* the new value replaces the best one *)
    apply orb_true_iff in E. destruct E as [E|E].
    + apply Nat.ltb_lt in E. lia.
    + apply andb_true_iff in E. destruct E as [E _].
      apply Nat.eqb_eq in E. lia.
  - fold count. lia.
  - intros v H. apply in_app_or in H. destruct H as [H|[<-|[]]].
    + destruct (Hseen v H) as [Hc Htie].
      apply orb_true_iff in E. destruct E as [E|E].
      * apply Nat.ltb_lt in E. split; [lia|intros Heq; lia].
      * apply andb_true_iff in E. destruct E as [E1 E2].
        apply Nat.eqb_eq in E1.
        split; [lia|]. intros Heq.
        destruct (v <? value)%float eqn:Ev; [|reflexivity].
        rewrite <- (Htie ltac:(lia)). symmetry.
        apply ltb_trans with value; assumption.
    + fold count. split; [lia|intros _; apply ltb_irrefl].
  - (* the best value stays *)
    apply orb_false_iff in E. destruct E as [E1 E2].
    apply Nat.ltb_ge in E1.
    intros v H. apply in_app_or in H. destruct H as [H|[<-|[]]].
    + apply (Hseen v H).
    + fold count. split; [exact E1|]. intros Heq.
      rewrite Heq, Nat.eqb_refl in E2. exact E2.
Qed.

Lemma fold_pick_keeps_best tolerance values :
  forall todo seen best,
    (forall v, In v todo -> In v values) ->
    bestSoFar tolerance values seen best ->
    bestSoFar tolerance values (seen ++ todo)
              (fold_left (pick tolerance values) todo best).
Proof.
  intros todo.
  induction todo as [|value todo IH]; intros seen best Hsub Hbest; simpl.
  - now rewrite app_nil_r.
  - replace (seen ++ value :: todo) with ((seen ++ [value]) ++ todo)
      by (rewrite <- app_assoc; reflexivity).
    apply IH.
    + intros v Hv. apply Hsub. now right.
    + apply pick_keeps_best; [assumption|]. apply Hsub. now left.
Qed.

(** [findConsensusValue] on a non-empty list of finite values returns a
    value of the list with the most peers within the tolerance, the
    smallest such value, and the number of its peers. *)
Lemma findConsensusValue_spec tolerance values :
  (0 <=? tolerance)%float = true ->
  (forall v, In v values -> Js.isFinite v = true) ->
  values <> [] ->
  exists a,
    findConsensusValue values tolerance = (a, peersWithin tolerance values a)
    /\ In a values
    /\ (forall v, In v values ->
          (peersWithin tolerance values v <= peersWithin tolerance values a)%nat)
    /\ (forall v, In v values ->
          peersWithin tolerance values v = peersWithin tolerance values a ->
          (a <=? v)%float = true).
Proof.
  intros Htol Hfinite Hne. destruct values as [|first rest]; [congruence|].
  rewrite findConsensusValue_fold.
  set (vs := first :: rest) in *.
  assert (Hinit : bestSoFar tolerance vs [] (first, 1%nat)).
  { repeat split; simpl; try lia; try contradiction.
    - now left.
    - apply peersWithin_self; [exact Htol| |now left].
      apply Hfinite. now left. }
  pose proof (fold_pick_keeps_best tolerance vs vs [] (first, 1%nat)
                (fun v H => H) Hinit) as Hfinal.
  simpl app in Hfinal.
  destruct (fold_left (pick tolerance vs) vs (first, 1%nat)) as [a n].
  destruct Hfinal as (Ha & Hone & Hle & Hall). simpl in *.
  assert (Hn : n = peersWithin tolerance vs a).
  { destruct (Hall a Ha) as [Hc _]. lia. }
  exists a. subst n. repeat split; try assumption.
  - intros v Hv. apply (Hall v Hv).
  - intros v Hv Heq.
    rewrite leb_negb_ltb
      by (apply isFinite_not_nan, Hfinite; assumption).
    destruct (Hall v Hv) as [_ Htie]. now rewrite (Htie Heq).
Qed.

End ConsensusFacts.

Section ConsensusClaims.
Import Consensus.

Variable pow : float -> float -> float.

Lemma tolerance_of_first_unit s0 rel :
  (if isPercentage (firstUnit (s0 :: rel)) then 1 else 0)%float
  = countingTolerance (NormalizedStatistic.unit s0).
Proof.
  unfold firstUnit, countingTolerance. simpl.
  now destruct (NormalizedStatistic.unit s0).
Qed.

Lemma variance_bound_of_first_unit s0 rel :
  (if isPercentage (firstUnit (s0 :: rel)) then 4 else 1)%float
  = varianceTolerance (NormalizedStatistic.unit s0).
Proof.
  unfold firstUnit, varianceTolerance. simpl.
  now destruct (NormalizedStatistic.unit s0).
Qed.

Lemma countingTolerance_nonneg u : (0 <=? countingTolerance u)%float = true.
Proof. unfold countingTolerance. now destruct (StatisticUnit.eqb _ _). Qed.

Lemma countingTolerance_number u : is_nan (countingTolerance u) = false.
Proof. unfold countingTolerance. now destruct (StatisticUnit.eqb _ _). Qed.

(** The variance the code computes is the population variance. *)
Lemma calculateVariance_population values :
  values <> [] ->
  calculateVariance pow values = populationVariance pow values.
Proof.
  intros Hne. destruct values as [|v rest]; [congruence|].
  unfold calculateVariance, populationVariance, mean.
  now rewrite length_map.
Qed.

(** C2 (amended): on a non-empty list of matching statistics with finite
    values the agreed value is an observed value with the most peers
    within the counting tolerance (1 for percentage, 0 for every other
    unit), ties going to the smaller value; the agreement count is the
    number of its peers; and the outliers are exactly the matching
    statistics further from the agreed value than that tolerance. *)
Theorem consensus_counts_within_counting_tolerance normalized query c :
  computeStatisticConsensus pow normalized query = Some c ->
  finiteValues query normalized ->
  consensusWithin countingTolerance normalized query c.
Proof.
  unfold computeStatisticConsensus, consensusWithin, finiteValues, valuesFor,
    relevantTo.
  destruct (filter (fun stat => matchesQuery stat query) normalized)
    as [|s0 rel] eqn:Erel; [discriminate|].
  rewrite tolerance_of_first_unit. intros H Hfinite.
  destruct (findConsensusValue_spec
              (countingTolerance (NormalizedStatistic.unit s0))
              (map NormalizedStatistic.value (s0 :: rel))
              (countingTolerance_nonneg _) Hfinite)
    as (a & Ha & Hin & Hmax & Htie); [discriminate|].
  rewrite Ha in H. rewrite (Hfinite a Hin) in H. injection H as <-.
  cbn [StatisticConsensus.unit
    StatisticConsensus.agreedValue StatisticConsensus.agreementCount
    StatisticConsensus.outliers firstUnit hd_error option_map].
  exists a. repeat split; try assumption.
Qed.

(** C3: an agreed consensus has at least three agreeing values, at least
    one source named OPTA_STATS, STATSBOMB or SPORTSRADAR among its
    supporting sources, and its variance, which is the population variance
    of the matching values, is at most 4 for percentage and at most 1 for
    every other unit. *)
Theorem agreed_consensus_passes_the_gates normalized query c :
  computeStatisticConsensus pow normalized query = Some c ->
  StatisticConsensus.agreed c = true ->
  (3 <= StatisticConsensus.agreementCount c)%nat
  /\ (1 <= StatisticConsensus.statsProviderCount c)%nat
  /\ (exists s, In s (StatisticConsensus.supportingSources c)
                /\ In (StatisticSource.source s) STATS_PROVIDER_NAMES)
  /\ StatisticConsensus.variance c
     = populationVariance pow (valuesFor query normalized)
  /\ (populationVariance pow (valuesFor query normalized)
      <=? varianceTolerance (StatisticConsensus.unit c))%float = true.
Proof.
  unfold computeStatisticConsensus, valuesFor, relevantTo.
  destruct (filter (fun stat => matchesQuery stat query) normalized)
    as [|s0 rel] eqn:Erel; [discriminate|].
  rewrite variance_bound_of_first_unit.
  rewrite calculateVariance_population by discriminate.
  destruct (findConsensusValue _ _) as [agreedValue agreementCount].
  intros H. injection H as <-. cbn [StatisticConsensus.unit
    StatisticConsensus.agreed StatisticConsensus.agreementCount
    StatisticConsensus.statsProviderCount StatisticConsensus.variance
    StatisticConsensus.supportingSources firstUnit hd_error option_map].
  intros Hagreed.
  apply andb_true_iff in Hagreed. destruct Hagreed as [Hagreed Hvar].
  apply andb_true_iff in Hagreed. destruct Hagreed as [Hcount Hstats].
  change ((3 <=? agreementCount)%nat = true) in Hcount.
  change ((1 <=? List.length
                   (filter
                      (fun s => existsb (String.eqb (StatisticSource.source s))
                                        STATS_PROVIDER_NAMES)
                      (flattenSources (s0 :: rel))))%nat = true) in Hstats.
  apply Nat.leb_le in Hcount. apply Nat.leb_le in Hstats.
  repeat split; try assumption.
  destruct (filter _ (flattenSources (s0 :: rel))) as [|s rest] eqn:Ef;
    [simpl in Hstats; lia|].
  assert (Hs : In s (filter
                       (fun s => existsb (String.eqb (StatisticSource.source s))
                                         STATS_PROVIDER_NAMES)
                       (flattenSources (s0 :: rel))))
    by (rewrite Ef; now left).
  apply filter_In in Hs. destruct Hs as [Hs Hname].
  exists s. split; [exact Hs|].
  apply existsb_exists in Hname. destruct Hname as (name & Hname & Heq).
  apply String.eqb_eq in Heq. now rewrite Heq.
Qed.

End ConsensusClaims.

Lemma consensus_counts_within_counting_tolerance_witness :
  exists c,
    Consensus.computeStatisticConsensus Scenarios.power Scenarios.threeAgree
      Scenarios.yellowCardsQuery = Some c
    /\ StatisticConsensus.agreedValue c = Some 4%float
    /\ StatisticConsensus.agreementCount c = 3%nat
    /\ StatisticConsensus.outliers c = [("FLASHSCORE", 3%float)]
    /\ consensusWithin countingTolerance Scenarios.threeAgree
         Scenarios.yellowCardsQuery c.
Proof.
  eexists. split; [reflexivity|].
  split; [vm_compute; reflexivity|].
  split; [vm_compute; reflexivity|].
  split; [vm_compute; reflexivity|].
  apply (consensus_counts_within_counting_tolerance Scenarios.power
           Scenarios.threeAgree Scenarios.yellowCardsQuery).
  - reflexivity.
  - intros v Hv. vm_compute in Hv.
    destruct Hv as [<-|[<-|[<-|[<-|[]]]]]; reflexivity.
Defined.

(** C2 as worded fails on the first case of the test suite (values 4, 4, 4
    and 3 in counts): with the tolerance 1 the agreed value 4 would have four
    peers and no outlier, while the code counts three and reports the 3. *)
Lemma consensus_tolerance_counterexample :
  exists c,
    Consensus.computeStatisticConsensus Scenarios.power Scenarios.threeAgree
      Scenarios.yellowCardsQuery = Some c
    /\ finiteValues Scenarios.yellowCardsQuery Scenarios.threeAgree
    /\ StatisticConsensus.agreementCount c = 3%nat
    /\ StatisticConsensus.outliers c = [("FLASHSCORE", 3%float)]
    /\ ~ consensusWithin varianceTolerance Scenarios.threeAgree
           Scenarios.yellowCardsQuery c.
Proof.
  eexists. split; [reflexivity|].
  split.
  { intros v Hv. vm_compute in Hv.
    destruct Hv as [<-|[<-|[<-|[<-|[]]]]]; reflexivity. }
  split; [vm_compute; reflexivity|].
  split; [vm_compute; reflexivity|].
  intros (a & Ha & _ & Hcount & _).
  vm_compute in Ha. injection Ha as <-.
  vm_compute in Hcount. discriminate Hcount.
Qed.

(** Values that are not finite have no peer, themselves included: two
    sources that both report a value beyond the range of the numbers leave
    the agreement count at the 1 the loop starts from, no agreed value and
    no outlier. *)
Lemma consensus_of_unbounded_values :
  exists c,
    Consensus.computeStatisticConsensus Scenarios.power
      Scenarios.unboundedValues Scenarios.yellowCardsQuery = Some c
    /\ Consensus.peersWithin 0 [infinity; infinity] infinity = 0%nat
    /\ StatisticConsensus.agreedValue c = None
    /\ StatisticConsensus.agreementCount c = 1%nat
    /\ StatisticConsensus.outliers c = []
    /\ StatisticConsensus.agreed c = false.
Proof.
  eexists. split; [reflexivity|]. repeat split; vm_compute; reflexivity.
Qed.

(** The difference is the rounded one: 64.4 - 63.4 is a little more than 1
    in the numbers of the host, so two percentages written one point apart
    are no peers, while 4 and 3 are. *)
Lemma peers_follow_the_rounded_difference :
  Consensus.peersWithin 1 [63.4; 64.4]%float 63.4%float = 1%nat
  /\ (1 <? abs (64.4 - 63.4))%float = true
  /\ Consensus.peersWithin 1 [3; 4]%float 3%float = 2%nat.
Proof. repeat split; vm_compute; reflexivity. Qed.

Lemma agreed_consensus_passes_the_gates_witness :
  exists c,
    Consensus.computeStatisticConsensus Scenarios.power Scenarios.threeAgree
      Scenarios.yellowCardsQuery = Some c
    /\ StatisticConsensus.agreed c = true
    /\ StatisticConsensus.variance c = 0.1875%float
    /\ (3 <= StatisticConsensus.agreementCount c)%nat
    /\ (1 <= StatisticConsensus.statsProviderCount c)%nat
    /\ (exists s, In s (StatisticConsensus.supportingSources c)
                  /\ In (StatisticSource.source s) Consensus.STATS_PROVIDER_NAMES)
    /\ StatisticConsensus.variance c
       = populationVariance Scenarios.power
           (valuesFor Scenarios.yellowCardsQuery Scenarios.threeAgree)
    /\ (populationVariance Scenarios.power
          (valuesFor Scenarios.yellowCardsQuery Scenarios.threeAgree)
        <=? varianceTolerance (StatisticConsensus.unit c))%float = true.
Proof.
  eexists. split; [reflexivity|].
  split; [vm_compute; reflexivity|].
  split; [vm_compute; reflexivity|].
  apply (agreed_consensus_passes_the_gates Scenarios.power
           Scenarios.threeAgree Scenarios.yellowCardsQuery).
  - reflexivity.
  - vm_compute. reflexivity.
Defined.
(** ** The circuit breaker *)

Section BreakerClaims.
Import Utils.

Variable A : Type.
Variable opts : CircuitBreakerOptions.

Lemma exec_closed (action : Action A) s e :
  openedAt s = None -> exec opts action s e = settle opts action s e.
Proof.
  intros Hclosed. destruct s as [f o]. simpl in Hclosed. subst o.
  reflexivity.
Qed.

Lemma exec_open (action : Action A) s e opened :
  openedAt s = Some opened ->
  (clock e - opened <= cooldownMs opts)%Z ->
  exec opts action s e = (inl CircuitOpenError, s, e).
Proof.
  intros Hopen Hwithin. destruct s as [f o]. simpl in Hopen. subst o.
  assert (E : (cooldownMs opts <? clock e - opened)%Z = false)
    by (apply Z.ltb_ge; exact Hwithin).
  cbv [exec start isOpen bind getState dateNow openedAt].
  rewrite E. reflexivity.
Qed.



Lemma settle_rejected (action : Action A) s e message e' :
  action e = (inl message, e') ->
  settle opts action s e
  = (inl (ActionError message),
     {| failures := failures s + 1;
        openedAt := if (failureThreshold opts <=? failures s + 1)%Z
                    then Some (clock e') else openedAt s |},
     e').
Proof.
  intros Hrun. unfold settle. rewrite Hrun.
  unfold finish, bind, recordFailure, bind, getState, putState, dateNow,
    throw, ret.
  destruct (failureThreshold opts <=? failures s + 1)%Z; reflexivity.
Qed.

(** The breaker reads the clock of the host and leaves the host as it
    is. *)
Lemma start_host s e :
  start opts s e
  = (fst (fst (start opts s (hostAtTime (clock e)))),
     snd (fst (start opts s (hostAtTime (clock e)))), e).
Proof.
  destruct s as [f [opened|]], e as [c r];
    unfold start, isOpen, bind, getState, dateNow, reset, putState, ret,
      throw, hostAtTime; simpl; [|reflexivity].
  destruct (cooldownMs opts <? c - opened)%Z; reflexivity.
Qed.

Lemma finish_host (outcome : string + A) s e :
  finish opts outcome s e
  = (match outcome with
     | inr result => inr result
     | inl message => inl (ActionError message)
     end,
     snd (fst (finish opts outcome s (hostAtTime (clock e)))), e).
Proof.
  destruct outcome as [message|result], e as [c r];
    unfold finish, bind, recordFailure, bind, getState, putState, dateNow,
      throw, ret, reset, hostAtTime; simpl; [|reflexivity].
  destruct (failureThreshold opts <=? failures s + 1)%Z; reflexivity.
Qed.

(** A refused call fails with [CircuitOpenError]. *)
Lemma start_refused s e failure s1 e1 :
  start opts s e = (inl failure, s1, e1) -> failure = CircuitOpenError.
Proof.
  destruct s as [f [opened|]], e as [c r];
    unfold start, isOpen, bind, getState, dateNow, reset, putState, ret,
      throw; simpl; [|discriminate].
  destruct (cooldownMs opts <? c - opened)%Z; [discriminate|].
  intros H. now injection H as <- _ _.
Qed.

(** A call that no other call overlaps is the event of the call at the
    time it starts, followed, unless it is refused, by the event of its
    settling at the time the action ends. *)
Lemma exec_is_call_then_settlement (action : Action A) s e outcome e' :
  action e = (outcome, e') ->
  exec opts action s e
  = match runEvent A opts (clock e) (Called A) s with
    | (Refused _, s1) => (inl CircuitOpenError, s1, e)
    | (_, s1) =>
        (match outcome with
         | inr result => inr result
         | inl message => inl (ActionError message)
         end,
         snd (runEvent A opts (clock e') (Settled A outcome) s1), e')
    end.
Proof.
  intros Hrun. unfold exec, bind, runEvent. rewrite start_host.
  destruct (start opts s (hostAtTime (clock e))) as [[[failure|[]] s1] e1]
    eqn:Estart; cbn [fst snd].
  - now rewrite (start_refused _ _ _ _ _ Estart).
  - unfold settle. rewrite Hrun. apply finish_host.
Qed.





End BreakerClaims.



(** ** Grouping of outcome facts *)

Section GroupingFacts.
Import Resolver.

Lemma mapGet_mapSet_same k g gm : mapGet k (mapSet k g gm) = Some g.
Proof.
  induction gm as [|[k' g'] gm IH]; simpl.
  - now rewrite String.eqb_refl.
  - destruct (k' =? k) eqn:E; simpl; rewrite E; [reflexivity|exact IH].
Qed.

Lemma mapGet_mapSet_other k k' g gm :
  k' <> k -> mapGet k' (mapSet k g gm) = mapGet k' gm.
Proof.
  intros Hne. induction gm as [|[k0 g0] gm IH]; simpl.
  - apply String.eqb_neq in Hne. rewrite String.eqb_sym in Hne. now rewrite Hne.
  - destruct (k0 =? k) eqn:E; simpl.
    + apply String.eqb_eq in E. subst k0.
      assert (E' : (k =? k') = false)
        by (apply String.eqb_neq; congruence).
      now rewrite E'.
    + destruct (k0 =? k'); [reflexivity|exact IH].
Qed.

Lemma mapSet_keys k g gm :
  map fst (mapSet k g gm)
  = match mapGet k gm with
    | Some _ => map fst gm
    | None => map fst gm ++ [k]
    end.
Proof.
  induction gm as [|[k' g'] gm IH]; simpl.
  - reflexivity.
  - destruct (k' =? k) eqn:E; simpl; [reflexivity|].
    rewrite IH. now destruct (mapGet k gm).
Qed.

Lemma mapGet_None_keys k gm : mapGet k gm = None -> ~ In k (map fst gm).
Proof.
  induction gm as [|[k' g'] gm IH]; simpl; intros Hget Hin.
  - exact Hin.
  - destruct Hin as [Heq|Hin].
    + subst k'. now rewrite String.eqb_refl in Hget.
    + destruct (k' =? k); [discriminate|]. now apply IH.
Qed.

Lemma mapGet_In k g gm : mapGet k gm = Some g -> In (k, g) gm.
Proof.
  induction gm as [|[k' g'] gm IH]; simpl; [discriminate|].
  destruct (k' =? k) eqn:E; intros Hget.
  - apply String.eqb_eq in E. injection Hget as ->. subst. now left.
  - right. now apply IH.
Qed.

Lemma In_mapGet k g gm :
  NoDup (map fst gm) -> In (k, g) gm -> mapGet k gm = Some g.
Proof.
  induction gm as [|[k' g'] gm IH]; simpl; intros Hnd Hin; [contradiction|].
  inversion Hnd as [|? ? Hfresh Hnd']; subst.
  destruct Hin as [Heq|Hin].
  - injection Heq as -> ->. now rewrite String.eqb_refl.
  - destruct (k' =? k) eqn:E.
    + apply String.eqb_eq in E. subst k'. exfalso. apply Hfresh.
      apply in_map_iff. now exists (k, g).
    + now apply IH.
Qed.

Lemma factsOf_snoc k fs f :
  factsOf k (fs ++ [f])
  = factsOf k fs ++ (if canonicalKey f =? k then [f] else []).
Proof. unfold factsOf. rewrite filter_app. reflexivity. Qed.

Lemma dedupe_snoc xs x :
  Js.dedupe (xs ++ [x]) = set_add string_dec x (Js.dedupe xs).
Proof. unfold Js.dedupe. now rewrite fold_left_app. Qed.

Lemma addFact_grouped fs gm f :
  grouped fs gm -> grouped (fs ++ [f]) (addFact gm f).
Proof.
  intros (Hnd & Hsome & Hnone). unfold addFact.
  destruct (canonicalKey f) as [|c r] eqn:Ekey; simpl Js.truthy; cbn [negb].
  - (* a fact without key is skipped *)
    split; [exact Hnd|split].
    + intros k g Hget. destruct (Hsome k g Hget) as (Hk & Hne & Hkey & Hfacts & Hprov).
      assert (E : factsOf k (fs ++ [f]) = factsOf k fs).
      { rewrite factsOf_snoc, Ekey.
        destruct k; [congruence|]. simpl. now rewrite app_nil_r. }
      rewrite E. repeat split; assumption.
    + intros k Hget Hk. rewrite factsOf_snoc, Ekey.
      destruct k; [congruence|]. simpl. rewrite app_nil_r. now apply Hnone.
  - (* a fact with a key joins or opens its group *)
    set (kf := String c r) in *.
    assert (Hkf : kf <> "") by discriminate.
    assert (Hown : factsOf kf (fs ++ [f]) = factsOf kf fs ++ [f])
      by (rewrite factsOf_snoc, Ekey, String.eqb_refl; reflexivity).
    assert (Hother : forall k, k <> kf -> factsOf k (fs ++ [f]) = factsOf k fs).
    { intros k Hk. rewrite factsOf_snoc, Ekey.
      assert (E : (kf =? k) = false) by (apply String.eqb_neq; congruence).
      rewrite E. apply app_nil_r. }
    destruct (mapGet kf gm) as [existing|] eqn:Eget.
    + destruct (Hsome kf existing Eget) as (_ & Hne & Hkey & Hfacts & Hprov).
      split; [rewrite mapSet_keys, Eget; exact Hnd|split].
      * intros k g Hget. destruct (string_dec k kf) as [->|Hk].
        -- rewrite mapGet_mapSet_same in Hget. injection Hget as <-.
           cbn [key facts providers]. rewrite Hown.
           repeat split; try assumption.
           ++ destruct (factsOf kf fs); discriminate.
           ++ now rewrite Hfacts.
           ++ rewrite map_app. cbn [map]. rewrite dedupe_snoc, Hprov. reflexivity.
        -- rewrite mapGet_mapSet_other in Hget by exact Hk.
           rewrite (Hother k Hk). now apply Hsome.
      * intros k Hget Hk'. destruct (string_dec k kf) as [->|Hk].
        -- now rewrite mapGet_mapSet_same in Hget.
        -- rewrite mapGet_mapSet_other in Hget by exact Hk.
           rewrite (Hother k Hk). now apply Hnone.
    + pose proof (Hnone kf Eget Hkf) as Hempty.
      split; [|split].
      * rewrite mapSet_keys, Eget. apply NoDup_app; [exact Hnd|repeat constructor; easy|].
        intros k Hin [<-|[]]. revert Hin. now apply mapGet_None_keys.
      * intros k g Hget. destruct (string_dec k kf) as [->|Hk].
        -- rewrite mapGet_mapSet_same in Hget. injection Hget as <-.
           cbn [key facts providers]. rewrite Hown, Hempty.
           repeat split; try assumption; try reflexivity. discriminate.
        -- rewrite mapGet_mapSet_other in Hget by exact Hk.
           rewrite (Hother k Hk). now apply Hsome.
      * intros k Hget Hk'. destruct (string_dec k kf) as [->|Hk].
        -- now rewrite mapGet_mapSet_same in Hget.
        -- rewrite mapGet_mapSet_other in Hget by exact Hk.
           rewrite (Hother k Hk). now apply Hnone.
Qed.

Lemma fold_addFact_grouped fs : grouped fs (fold_left addFact fs []).
Proof.
  induction fs as [|f fs IH] using rev_ind.
  - split; [constructor|split]; simpl; [discriminate|reflexivity].
  - rewrite fold_left_app. simpl. now apply addFact_grouped.
Qed.

(** [set_add] on a list of strings: a new one goes to the end. *)
Lemma set_add_old x xs : In x xs -> set_add string_dec x xs = xs.
Proof.
  induction xs as [|y xs IH]; simpl; [contradiction|].
  intros Hin. destruct (string_dec x y) as [E|E]; [reflexivity|].
  destruct Hin as [Hin|Hin]; [congruence|]. now rewrite IH.
Qed.

Lemma set_add_new x xs : ~ In x xs -> set_add string_dec x xs = xs ++ [x].
Proof.
  induction xs as [|y xs IH]; simpl; [reflexivity|].
  intros Hin. destruct (string_dec x y) as [E|E].
  - exfalso. apply Hin. now left.
  - rewrite IH; [reflexivity|]. intros H. apply Hin. now right.
Qed.

Lemma keysInOrder_snoc fs f :
  keysInOrder (fs ++ [f])
  = if canonicalKey f =? "" then keysInOrder fs
    else set_add string_dec (canonicalKey f) (keysInOrder fs).
Proof.
  unfold keysInOrder. rewrite map_app, filter_app. cbn [map filter].
  destruct (canonicalKey f =? ""); cbn [negb].
  - now rewrite app_nil_r.
  - apply dedupe_snoc.
Qed.

Lemma mapGet_Some_keys k g gm : mapGet k gm = Some g -> In k (map fst gm).
Proof.
  intros H. apply mapGet_In in H. apply in_map_iff. now exists (k, g).
Qed.

(** The groups are kept in the order in which their keys first occur. *)
Lemma fold_addFact_keys fs :
  map fst (fold_left addFact fs []) = keysInOrder fs.
Proof.
  induction fs as [|f fs IH] using rev_ind; [reflexivity|].
  rewrite fold_left_app, keysInOrder_snoc. cbn [fold_left].
  set (gm := fold_left addFact fs []) in *.
  unfold addFact. destruct (canonicalKey f) as [|c r] eqn:Ekey.
  - exact IH.
  - cbn [Js.truthy negb String.eqb].
    destruct (mapGet (String c r) gm) as [existing|] eqn:Eget.
    + rewrite mapSet_keys, Eget, IH. symmetry. apply set_add_old.
      rewrite <- IH. eapply mapGet_Some_keys, Eget.
    + rewrite mapSet_keys, Eget, IH. symmetry. apply set_add_new.
      rewrite <- IH. now apply mapGet_None_keys.
Qed.

End GroupingFacts.

Section GroupingClaims.
Import Resolver.

Lemma groupFacts_values fs g :
  In g (mapValues (groupFacts fs))
  <-> exists k, k <> "" /\ factsOf k fs <> [] /\ g = groupOf k fs.
Proof.
  destruct (fold_addFact_grouped fs) as (Hnd & Hsome & Hnone).
  unfold mapValues, groupFacts. split.
  - intros Hin. apply in_map_iff in Hin. destruct Hin as ([k g1] & <- & Hin).
    apply in_map_iff in Hin. destruct Hin as ([k0 g0] & Heq & Hin).
    injection Heq as <- <-.
    pose proof (In_mapGet k0 g0 _ Hnd Hin) as Hget.
    destruct (Hsome k0 g0 Hget) as (Hk & Hne & Hkey & Hfacts & Hprov).
    exists k0. repeat split; try assumption.
    unfold groupOf. simpl. now rewrite Hkey, Hfacts, Hprov.
  - intros (k & Hk & Hne & ->).
    destruct (mapGet k (fold_left addFact fs [])) as [g0|] eqn:Hget.
    + destruct (Hsome k g0 Hget) as (_ & _ & Hkey & Hfacts & Hprov).
      apply in_map_iff. exists (k, groupOf k fs). split; [reflexivity|].
      apply in_map_iff. exists (k, g0). split; [|now apply mapGet_In].
      unfold groupOf. now rewrite Hkey, Hfacts, Hprov.
    + exfalso. apply Hne. now apply Hnone.
Qed.

Lemma Permutation_factsOf k fs fs' :
  Permutation fs fs' -> Permutation (factsOf k fs) (factsOf k fs').
Proof.
  unfold factsOf. induction 1 as [|f l l' _ IH|f f' l|l l' l'' _ IH1 _ IH2]; simpl.
  - constructor.
  - destruct (canonicalKey f =? k); [now constructor|exact IH].
  - destruct (canonicalKey f =? k), (canonicalKey f' =? k);
      try apply Permutation_refl. apply perm_swap.
  - now apply Permutation_trans with (filter (fun f => canonicalKey f =? k) l').
Qed.

Lemma fold_set_add_spec xs :
  forall acc,
    NoDup acc ->
    NoDup (fold_left (fun acc x => set_add string_dec x acc) xs acc)
    /\ forall x, In x (fold_left (fun acc x => set_add string_dec x acc) xs acc)
                 <-> In x acc \/ In x xs.
Proof.
  induction xs as [|y xs IH]; intros acc Hnd; simpl.
  - split; [exact Hnd|]. intros x. tauto.
  - destruct (IH (set_add string_dec y acc) (set_add_nodup string_dec y Hnd))
      as [Hnd' Hin].
    split; [exact Hnd'|]. intros x. rewrite Hin, set_add_iff.
    intuition (subst; auto).
Qed.

Lemma dedupe_NoDup xs : NoDup (Js.dedupe xs).
Proof. apply (fold_set_add_spec xs []). constructor. Qed.

Lemma dedupe_In xs x : In x (Js.dedupe xs) <-> In x xs.
Proof.
  unfold Js.dedupe.
  destruct (fold_set_add_spec xs [] (NoDup_nil _)) as [_ Hin].
  rewrite Hin. simpl. tauto.
Qed.

Lemma Permutation_dedupe xs xs' :
  Permutation xs xs' -> Permutation (Js.dedupe xs) (Js.dedupe xs').
Proof.
  intros Hperm. apply NoDup_Permutation; try apply dedupe_NoDup.
  intros x. rewrite !dedupe_In. split; apply Permutation_in;
    [exact Hperm|now apply Permutation_sym].
Qed.

(** Permuting the facts gives, key by key, groups with the same facts up to
    order and the same providers. *)
Lemma Permutation_groupOf k fs fs' :
  Permutation fs fs' ->
  Permutation (facts (groupOf k fs)) (facts (groupOf k fs'))
  /\ Permutation (providers (groupOf k fs)) (providers (groupOf k fs')).
Proof.
  intros Hperm. pose proof (Permutation_factsOf k _ _ Hperm) as Hfacts.
  unfold groupOf. simpl. split.
  - exact Hfacts.
  - apply Permutation_dedupe. now apply Permutation_map.
Qed.

(** The keys of the groups, in their order. *)
Lemma groupFacts_keys fs :
  map key (mapValues (groupFacts fs)) = keysInOrder fs.
Proof.
  rewrite <- fold_addFact_keys.
  destruct (fold_addFact_grouped fs) as (Hnd & Hsome & _).
  unfold mapValues, groupFacts. rewrite !map_map.
  apply map_ext_in. intros [k g] Hin. cbn [fst snd key].
  destruct (Hsome k g (In_mapGet k g _ Hnd Hin)) as (_ & _ & Hkey & _).
  exact Hkey.
Qed.

Lemma keysInOrder_In k fs :
  In k (keysInOrder fs) <-> k <> "" /\ exists f, In f fs /\ canonicalKey f = k.
Proof.
  unfold keysInOrder. rewrite dedupe_In, filter_In, in_map_iff.
  rewrite negb_true_iff, String.eqb_neq. split.
  - intros ((f & Hf & Hin) & Hk). split; [exact Hk|]. now exists f.
  - intros (Hk & f & Hin & Hf). split; [|exact Hk]. now exists f.
Qed.

(** A key listed before another first occurs before it in the input. *)
Lemma keysInOrder_first fs :
  forall a k b h,
    keysInOrder fs = a ++ k :: b -> In h b -> firstInInput k h fs.
Proof.
  induction fs as [|f fs IH] using rev_ind; intros a k b h Hkeys Hin.
  - destruct a; discriminate Hkeys.
  - assert (Hmore : firstInInput k h fs -> firstInInput k h (fs ++ [f])).
    { intros (before & fact & after & -> & Hk & Hfree).
      exists before, fact, (after ++ [f]). split; [|now split].
      now rewrite <- app_assoc. }
    rewrite keysInOrder_snoc in Hkeys.
    destruct (canonicalKey f =? "") eqn:Eempty;
      [apply Hmore; now apply (IH a k b h)|].
    destruct (in_dec string_dec (canonicalKey f) (keysInOrder fs))
      as [Hold|Hnew].
    + rewrite set_add_old in Hkeys by exact Hold.
      apply Hmore. now apply (IH a k b h).
    + rewrite set_add_new in Hkeys by exact Hnew.
      destruct (exists_last (l := b)) as (b' & last & ->);
        [intros ->; contradiction|].
      change (a ++ k :: b' ++ [last]) with (a ++ (k :: b') ++ [last]) in Hkeys.
      rewrite app_assoc in Hkeys.
      apply app_inj_tail in Hkeys. destruct Hkeys as [Hkeys <-].
      apply in_app_or in Hin. destruct Hin as [Hin|[<-|[]]];
        [apply Hmore; now apply (IH a k b' h)|].
      assert (Hk : In k (keysInOrder fs))
        by (rewrite Hkeys; apply in_or_app; right; now left).
      apply keysInOrder_In in Hk. destruct Hk as (_ & fact & Hfact & Hkey).
      apply in_split in Hfact. destruct Hfact as (before & after & ->).
      exists before, fact, (after ++ [f]). split; [|split; [exact Hkey|]].
      * now rewrite <- !app_assoc.
      * apply Forall_forall. intros x Hx Heq. apply Hnew.
        apply keysInOrder_In. split.
        -- now apply String.eqb_neq.
        -- exists x. split; [|exact Heq]. apply in_or_app. now left.
Qed.

End GroupingClaims.

(** ** Selection of the accepted group *)

Section SelectionClaims.
Import Resolver.

Lemma replaces_outranks g b : replaces g b = true <-> outranks g b.
Proof.
  unfold replaces, outranks.
  rewrite orb_true_iff, andb_true_iff, Z.ltb_lt, Z.eqb_eq. split.
  - intros [H|[H H']]; [left; lia|right; split; [lia|exact H']].
  - intros [H|[H H']]; [left; lia|right; split; [lia|exact H']].
Qed.

Lemma outranks_irrefl g : ~ outranks g g.
Proof.
  intros [H|[_ H]]; [lia|]. rewrite ltb_irrefl in H. discriminate.
Qed.

Lemma outranks_trans a b c : outranks a b -> outranks b c -> outranks a c.
Proof.
  intros [H1|[H1 H1']] [H2|[H2 H2']]; try (left; lia).
  right. split; [lia|]. now apply ltb_trans with (reliabilityAverage b).
Qed.

(** A group whose average is a number lies below [a] or above [c] when
    [a] outranks [c]. *)
Lemma outranks_cotrans a b c :
  is_nan (reliabilityAverage b) = false ->
  outranks a c -> outranks a b \/ outranks b c.
Proof.
  intros Hb Hac.
  destruct (lt_eq_lt_dec (List.length (providers b)) (List.length (providers a)))
    as [[Hlt|Heq]|Hgt].
  - left. left. exact Hlt.
  - destruct Hac as [H|[H H']].
    + right. left. lia.
    + destruct (ltb_cotrans _ (reliabilityAverage b) _ H' Hb) as [Hq|Hq].
      * right. right. split; [lia|exact Hq].
      * left. right. split; [lia|exact Hq].
  - right. left. destruct Hac as [H|[H _]]; lia.
Qed.

Lemma outranks_count g b :
  ~ outranks g b ->
  (List.length (providers g) <= List.length (providers b))%nat.
Proof. intros H. unfold outranks in H. lia. Qed.

Lemma selectAcceptedGroup_fold gm :
  selectAcceptedGroup gm = fold_left choose (mapValues gm) None.
Proof. reflexivity. Qed.

(** The loop keeps a group that no group seen so far outranks. *)
Lemma fold_choose_max groups :
  forall best r seen,
    fold_left choose groups best = Some r ->
    (forall b, best = Some b -> forall s, In s seen -> ~ outranks s b) ->
    (best = None -> seen = []) ->
    forall s, In s (seen ++ groups) -> ~ outranks s r.
Proof.
  induction groups as [|g groups IH]; intros best r seen Hfold Hseen Hnone;
    simpl in Hfold.
  - subst best. rewrite app_nil_r. now apply Hseen.
  - replace (seen ++ g :: groups) with ((seen ++ [g]) ++ groups)
      by (rewrite <- app_assoc; reflexivity).
    apply (IH _ _ _ Hfold).
    + intros b Hb s Hs. apply in_app_or in Hs.
      destruct best as [b0|]; simpl in Hb.
      * destruct (replaces g b0) eqn:E; injection Hb as <-.
        -- destruct Hs as [Hs|[<-|[]]]; [|apply outranks_irrefl].
           intros Hsg. apply (Hseen b0 eq_refl s Hs).
           apply outranks_trans with g; [exact Hsg|].
           now apply replaces_outranks.
        -- destruct Hs as [Hs|[<-|[]]]; [now apply Hseen|].
           intros Hgb. apply replaces_outranks in Hgb. congruence.
      * injection Hb as <-. rewrite (Hnone eq_refl) in Hs.
        destruct Hs as [[]|[<-|[]]]. apply outranks_irrefl.
    + destruct best as [b0|]; simpl; [|discriminate].
      destruct (replaces g b0); discriminate.
Qed.

Lemma fold_choose_In groups :
  forall best r,
    fold_left choose groups best = Some r -> In r groups \/ best = Some r.
Proof.
  induction groups as [|g groups IH]; intros best r Hfold; simpl in Hfold.
  - now right.
  - destruct (IH _ _ Hfold) as [Hin|Hin]; [left; now right|].
    destruct best as [b|]; simpl in Hin.
    + destruct (replaces g b); injection Hin as <-; [left; now left|now right].
    + injection Hin as <-. left. now left.
Qed.

(** When the averages are numbers, the group the loop keeps outranks
    every group met before it. *)
Lemma fold_choose_first groups :
  (forall g, In g groups -> is_nan (reliabilityAverage g) = false) ->
  forall best r,
    fold_left choose groups best = Some r ->
    best = Some r
    \/ exists earlier later,
         groups = earlier ++ r :: later
         /\ (forall s, In s earlier -> outranks r s)
         /\ (forall b, best = Some b -> outranks r b).
Proof.
  induction groups as [|g groups IH]; intros Hnum best r Hfold;
    simpl in Hfold.
  - now left.
  - assert (Hnum' : forall h, In h groups ->
                              is_nan (reliabilityAverage h) = false)
      by (intros h Hh; apply Hnum; now right).
    destruct (IH Hnum' _ _ Hfold) as [Hkept|(earlier & later & -> & Hearly & Hbest)].
    + destruct best as [b|]; simpl in Hkept.
      * destruct (replaces g b) eqn:E; injection Hkept as <-.
        -- right. exists [], groups. split; [reflexivity|split].
           ++ intros s [].
           ++ intros b' Hb'. injection Hb' as <-. now apply replaces_outranks.
        -- now left.
      * injection Hkept as <-. right. exists [], groups.
        split; [reflexivity|split]; [intros s []|discriminate].
    + right. exists (g :: earlier), later. split; [reflexivity|].
      destruct best as [b|]; simpl in Hbest.
      * destruct (replaces g b) eqn:E.
        -- pose proof (Hbest g eq_refl) as Hrg. split.
           ++ intros s [<-|Hs]; [exact Hrg|now apply Hearly].
           ++ intros b' Hb'. injection Hb' as <-.
              apply outranks_trans with g; [exact Hrg|].
              now apply replaces_outranks.
        -- pose proof (Hbest b eq_refl) as Hrb. split.
           ++ intros s [<-|Hs]; [|now apply Hearly].
              destruct (outranks_cotrans r g b) as [H|H]; trivial.
              ** apply Hnum. now left.
              ** apply replaces_outranks in H. congruence.
           ++ intros b' Hb'. now injection Hb' as <-.
      * split; [|discriminate].
        intros s [<-|Hs]; [now apply Hbest|now apply Hearly].
Qed.

Lemma fold_choose_some groups best :
  (groups <> [] \/ best <> None) -> fold_left choose groups best <> None.
Proof.
  revert best. induction groups as [|g groups IH]; intros best H; simpl.
  - destruct H as [H|H]; [congruence|exact H].
  - apply IH. right. destruct best as [b|]; simpl; [|discriminate].
    destruct (replaces g b); discriminate.
Qed.

(** Non-emptiness of the facts of a key does not depend on their order. *)
Lemma factsOf_nonempty_Permutation k fs fs' :
  Permutation fs fs' -> factsOf k fs <> [] -> factsOf k fs' <> [].
Proof.
  intros Hperm Hne Hnil. apply Hne.
  pose proof (Permutation_factsOf k _ _ Hperm) as H. rewrite Hnil in H.
  now apply Permutation_nil, Permutation_sym.
Qed.

Lemma providers_groupOf k fs fs' :
  Permutation fs fs' ->
  List.length (providers (groupOf k fs))
  = List.length (providers (groupOf k fs')).
Proof.
  intros Hperm. apply Permutation_length.
  now destruct (Permutation_groupOf k _ _ Hperm).
Qed.

(** The selected group of a list of facts: it is one of the groups, and
    none of them outranks it. *)
Lemma selected_is_unbeaten fs g :
  selectAcceptedGroup (groupFacts fs) = Some g ->
  In g (mapValues (groupFacts fs))
  /\ forall h, In h (mapValues (groupFacts fs)) -> ~ outranks h g.
Proof.
  intros Hsel. rewrite selectAcceptedGroup_fold in Hsel. split.
  - destruct (fold_choose_In _ _ _ Hsel) as [H|H]; [exact H|discriminate].
  - apply (fold_choose_max _ None g [] Hsel); [discriminate|reflexivity].
Qed.

(** C1 (amended): for a permutation of the facts the selected group has the
    same number of distinct providers as before, the largest of any group
    (and among the groups with that many providers none has a higher
    average); when every other group has fewer providers, the same key is
    selected, with the same facts up to order and the same providers; and
    when the averages are numbers, a group that the selected one does not
    outrank (it ties with it on both criteria) has its key first occur
    later in the input than the key of the selected group.  The selected
    group holds the facts of its key in input order, and its average is
    the mean of their reliabilities summed in that order. *)
Theorem selected_group_under_permutation fs fs' g :
  Permutation fs fs' ->
  selectAcceptedGroup (groupFacts fs) = Some g ->
  exists g',
    selectAcceptedGroup (groupFacts fs') = Some g'
    /\ g = groupOf (key g) fs
    /\ g' = groupOf (key g') fs'
    /\ List.length (providers g') = List.length (providers g)
    /\ (forall h, In h (mapValues (groupFacts fs)) -> ~ outranks h g)
    /\ ((forall h, In h (mapValues (groupFacts fs)) -> key h <> key g ->
           (List.length (providers h) < List.length (providers g))%nat) ->
        key g' = key g
        /\ Permutation (facts g) (facts g')
        /\ Permutation (providers g) (providers g'))
    /\ ((forall h, In h (mapValues (groupFacts fs)) ->
                   is_nan (reliabilityAverage h) = false) ->
        forall h, In h (mapValues (groupFacts fs)) -> key h <> key g ->
                  ~ outranks g h -> firstInInput (key g) (key h) fs).
Proof.
  intros Hperm Hsel.
  destruct (selected_is_unbeaten _ _ Hsel) as [Hin Hmax].
  pose proof Hin as Hg. apply groupFacts_values in Hg.
  destruct Hg as (k & Hk & Hne & Heq).
  pose proof (factsOf_nonempty_Permutation k _ _ Hperm Hne) as Hne'.
  assert (Hin' : In (groupOf k fs') (mapValues (groupFacts fs')))
    by (apply groupFacts_values; now exists k).
  destruct (selectAcceptedGroup (groupFacts fs')) as [g'|] eqn:Hsel'.
  2:{ exfalso. rewrite selectAcceptedGroup_fold in Hsel'.
      revert Hsel'. apply fold_choose_some. left.
      destruct (mapValues (groupFacts fs')); [contradiction|discriminate]. }
  destruct (selected_is_unbeaten _ _ Hsel') as [Hing' Hmax'].
  pose proof Hing' as Hg'. apply groupFacts_values in Hg'.
  destruct Hg' as (k' & Hk' & Hnek' & Heq').
  assert (Hback : In (groupOf k' fs) (mapValues (groupFacts fs))).
  { apply groupFacts_values. exists k'. repeat split; try assumption.
    apply (factsOf_nonempty_Permutation k' fs' fs);
      [now apply Permutation_sym|exact Hnek']. }
  assert (Hlen : List.length (providers g') = List.length (providers g)).
  { pose proof (outranks_count _ _ (Hmax _ Hback)) as H1.
    pose proof (outranks_count _ _ (Hmax' _ Hin')) as H2.
    rewrite (providers_groupOf k' fs fs' Hperm), <- Heq' in H1.
    rewrite <- (providers_groupOf k fs fs' Hperm), <- Heq in H2. lia. }
  exists g'. split; [reflexivity|].
  split; [rewrite Heq at 1; now rewrite Heq|].
  split; [rewrite Heq' at 1; now rewrite Heq'|].
  split; [exact Hlen|split; [exact Hmax|split]].
  - intros Hfewer.
    assert (Hkey : k' = k).
    { destruct (string_dec k' k) as [E|E]; [exact E|]. exfalso.
      assert (Hlt : (List.length (providers (groupOf k' fs))
                     < List.length (providers g))%nat).
      { apply Hfewer; [exact Hback|]. rewrite Heq. exact E. }
      rewrite (providers_groupOf k' fs fs' Hperm), <- Heq' in Hlt. lia. }
    subst k'. rewrite Heq, Heq'.
    destruct (Permutation_groupOf k _ _ Hperm) as (Hfacts & Hprov).
    simpl key. repeat split; assumption.
  - intros Hnum h Hh Hkey Htie.
    rewrite selectAcceptedGroup_fold in Hsel.
    destruct (fold_choose_first _ Hnum _ _ Hsel)
      as [Hnone|(earlier & later & Hsplit & Hearly & _)]; [discriminate|].
    rewrite Hsplit in Hh. apply in_app_or in Hh.
    destruct Hh as [Hh|[Hh|Hh]].
    + exfalso. apply Htie. now apply Hearly.
    + exfalso. apply Hkey. now rewrite Hh.
    + apply (keysInOrder_first fs (map key earlier) (key g) (map key later)).
      * rewrite <- groupFacts_keys, Hsplit, map_app. reflexivity.
      * now apply in_map.
Qed.

End SelectionClaims.

Lemma selected_group_under_permutation_witness :
  exists g',
    Resolver.selectAcceptedGroup
      (Resolver.groupFacts (rev Scenarios.majorityFacts)) = Some g'
    /\ Resolver.key g' = Scenarios.arsenalKey
    /\ Permutation
         (Resolver.facts (groupOf Scenarios.arsenalKey Scenarios.majorityFacts))
         (Resolver.facts g')
    /\ Permutation
         (Resolver.providers
            (groupOf Scenarios.arsenalKey Scenarios.majorityFacts))
         (Resolver.providers g').
Proof.
  destruct (selected_group_under_permutation
              Scenarios.majorityFacts (rev Scenarios.majorityFacts)
              (groupOf Scenarios.arsenalKey Scenarios.majorityFacts)
              (Permutation_rev _) eq_refl)
    as (g' & Hsel & _ & _ & _ & _ & Hunique & _).
  exists g'. split; [exact Hsel|].
  apply Hunique. intros h Hin Hkey.
  vm_compute in Hin. destruct Hin as [<-|[<-|[]]].
  - exfalso. apply Hkey. reflexivity.
  - vm_compute. lia.
Defined.

(** C1 as worded fails when two groups tie on both criteria: the group met
    first wins, so reversing the two facts changes the selected key. *)
Lemma selected_group_counterexample :
  Permutation Scenarios.tiedFacts (rev Scenarios.tiedFacts)
  /\ option_map Resolver.key
       (Resolver.selectAcceptedGroup (Resolver.groupFacts Scenarios.tiedFacts))
     = Some Scenarios.arsenalKey
  /\ option_map Resolver.key
       (Resolver.selectAcceptedGroup
          (Resolver.groupFacts (rev Scenarios.tiedFacts)))
     = Some Scenarios.chelseaKey
  /\ option_map Resolver.key
       (Resolver.selectAcceptedGroup (Resolver.groupFacts Scenarios.tiedFacts))
     <> option_map Resolver.key
          (Resolver.selectAcceptedGroup
             (Resolver.groupFacts (rev Scenarios.tiedFacts))).
Proof.
  split; [apply Permutation_rev|].
  split; [vm_compute; reflexivity|].
  split; [vm_compute; reflexivity|].
  vm_compute. discriminate.
Qed.

(** The average of a group is summed in the order of its facts and rounded
    at every step, so it can change with the order: of two groups with the
    same three providers and the same three reliabilities, the one or the
    other has the higher average, and is selected, as the facts come. *)
Lemma selected_group_follows_the_rounding :
  Permutation Scenarios.splitFacts (rev Scenarios.splitFacts)
  /\ map (fun g => (Resolver.key g, List.length (Resolver.providers g),
                    Resolver.reliabilityAverage g))
         (Resolver.mapValues (Resolver.groupFacts Scenarios.splitFacts))
     = [(Scenarios.arsenalKey, 3%nat, 0.8999999999999999%float);
        (Scenarios.chelseaKey, 3%nat, 0.9%float)]
  /\ map (fun g => (Resolver.key g, List.length (Resolver.providers g),
                    Resolver.reliabilityAverage g))
         (Resolver.mapValues (Resolver.groupFacts (rev Scenarios.splitFacts)))
     = [(Scenarios.chelseaKey, 3%nat, 0.8999999999999999%float);
        (Scenarios.arsenalKey, 3%nat, 0.9%float)]
  /\ option_map Resolver.key
       (Resolver.selectAcceptedGroup (Resolver.groupFacts Scenarios.splitFacts))
     = Some Scenarios.chelseaKey
  /\ option_map Resolver.key
       (Resolver.selectAcceptedGroup
          (Resolver.groupFacts (rev Scenarios.splitFacts)))
     = Some Scenarios.arsenalKey.
Proof.
  split; [apply Permutation_rev|].
  repeat split; vm_compute; reflexivity.
Qed.

(** ** Confidence on the outcome path *)

Section OutcomeConfidence.
Import Resolver.

Variable now : Z.
Variable dateParse : string -> option Z.
Variable numberToString : float -> string.
Variable summarizeWithModel :
  string -> QuerySchema.StructuredQuery -> string -> SummaryContext ->
  option ModelSummary.

Lemma clampConfidence_clampUnit x : clampConfidence x = clampUnit x.
Proof.
  unfold clampConfidence, clampUnit. now destruct (Js.isFinite x).
Qed.

Lemma countDistinctProviders_le fs :
  (countDistinctProviders fs <= List.length fs)%nat.
Proof.
  unfold countDistinctProviders.
  rewrite <- (length_map provider fs).
  apply NoDup_incl_length; [apply dedupe_NoDup|].
  intros x Hx. now apply dedupe_In.
Qed.

Lemma computeFreshnessBonus_atLeastHalf fs :
  (3 <= List.length fs)%nat ->
  computeFreshnessBonus now dateParse fs
  = bonusAtLeastHalf (List.length (filter (isRecent now dateParse) fs))
                     (List.length fs).
Proof.
  intros Hlen. unfold computeFreshnessBonus, bonusAtLeastHalf.
  assert (E : (0 <? List.length fs)%nat = true) by (apply Nat.ltb_lt; lia).
  rewrite E, andb_true_r.
  destruct (_ =? _)%nat; [reflexivity|].
  set (r := List.length (filter (isRecent now dateParse) fs)).
  set (n := List.length fs).
  assert (Hhalf : (Nat.div2 (n + 1) <=? r)%nat = (n <=? 2 * r)%nat).
  { rewrite Nat.div2_div.
    destruct (n <=? 2 * r)%nat eqn:E2.
    - apply Nat.leb_le in E2. apply Nat.leb_le.
      apply Nat.lt_succ_r. apply Nat.Div0.div_lt_upper_bound. lia.
    - apply Nat.leb_gt in E2. apply Nat.leb_gt.
      unfold lt. apply Nat.div_le_lower_bound; lia. }
  now rewrite Hhalf.
Qed.

Lemma computeConfidence_base agreeing conflicts avgReliability :
  (3 <= agreeing)%nat ->
  computeConfidence agreeing conflicts avgReliability
  = (baseConfidence agreeing
     - Js.min 0.25 (Js.ofNat conflicts * 0.1)
     + (avgReliability - 0.7) * 0.15)%float.
Proof.
  intros Hthree. unfold computeConfidence, baseConfidence.
  destruct (agreeing =? 3)%nat eqn:E3; [reflexivity|].
  destruct (agreeing =? 4)%nat eqn:E4; [reflexivity|].
  apply Nat.eqb_neq in E3. apply Nat.eqb_neq in E4.
  assert (E5 : (5 <=? agreeing)%nat = true) by (apply Nat.leb_le; lia).
  now rewrite E5.
Qed.

(** C5 (amended): when the accepted group passes the three-provider gate
    and no resolution can be derived, the decision is "insufficient_data"
    with confidence 0.3.  When a resolution other than "insufficient_data"
    is derived, the deterministic confidence, which is the candidate
    confidence handed to the advisory model, equals the clamp to [0,1] (0
    for what is not a finite number) of base (0.6 at 3 providers, 0.75 at
    4, 0.9 at 5 or more) minus min(0.25, conflicts * 0.1) plus
    (avgReliability - 0.7) * 0.15 plus the freshness bonus: 0.05 when every
    final fact is recent, 0.02 when at least half of them are, 0 otherwise;
    a fact is recent when its end timestamp parses to a time later than 72
    hours before now.  The decision carries that confidence, or its clamped
    mean with the model's confidence when the model gives one. *)
Theorem deterministic_confidence_formula
  query structured agentSummary analysis group :
  acceptedGroup analysis = Some group ->
  (3 <= countDistinctProviders (filterFinalFacts (facts group)))%nat ->
  let decision :=
    decideResolution now dateParse numberToString summarizeWithModel
      query structured agentSummary analysis in
  let derived :=
    deriveResolution numberToString structured
      (filterFinalFacts (facts group))
      (extractWinner (filterFinalFacts (facts group))) in
  resolution decision = derived
  /\ (derived = "insufficient_data" -> confidence decision = 0.3%float)
  /\ (derived <> "insufficient_data" ->
      exists context,
        ctx_confidence context
        = formulaFor now dateParse bonusAtLeastHalf analysis group
        /\ confidence decision
           = match summarizeWithModel query structured (key group) context with
             | Some sm =>
                 match ms_confidence sm with
                 | Some c => clampConfidence ((ctx_confidence context + c) / 2)
                 | None => ctx_confidence context
                 end
             | None => ctx_confidence context
             end).
Proof.
  intros Hgroup Hthree decision derived.
  unfold decision, decideResolution. rewrite Hgroup.
  set (finalFacts := filterFinalFacts (facts group)) in *.
  assert (Egate : (countDistinctProviders finalFacts
                   <? MIN_CORROBORATING_PROVIDERS)%nat = false)
    by (apply Nat.ltb_ge; exact Hthree).
  rewrite Egate. fold derived.
  destruct (derived =? "insufficient_data") eqn:Eres.
  - apply String.eqb_eq in Eres. split; [now rewrite Eres|].
    split; [reflexivity|]. intros H. now destruct H.
  - apply String.eqb_neq in Eres. split.
    { destruct (summarizeWithModel _ _ _ _); reflexivity. }
    split; [intros H; now destruct Eres|]. intros _.
    exists {| ctx_resolution := derived;
              ctx_confidence :=
                clampConfidence
                  (computeConfidence (countDistinctProviders finalFacts)
                     (countConflicts (groups analysis) (key group))
                     (averageReliability finalFacts)
                   + computeFreshnessBonus now dateParse finalFacts);
              ctx_providers :=
                Js.slice0 MAX_SOURCE_COUNT (gatherSources finalFacts);
              ctx_winner := extractWinner finalFacts;
              ctx_agentSummary := agentSummary |}.
    split; [|destruct (summarizeWithModel _ _ _ _) as [sm|]; reflexivity].
    cbn [ctx_confidence]. rewrite clampConfidence_clampUnit.
    unfold formulaFor, formulaConfidence. fold finalFacts.
    rewrite computeConfidence_base by exact Hthree.
    rewrite computeFreshnessBonus_atLeastHalf; [reflexivity|].
    pose proof (countDistinctProviders_le finalFacts). lia.
Qed.

End OutcomeConfidence.

Lemma deterministic_confidence_formula_witness :
  Resolver.resolution
    (Scenarios.decide Scenarios.didArsenalWin Scenarios.halfRecentFacts) = "yes"
  /\ Resolver.confidence
       (Scenarios.decide Scenarios.didArsenalWin Scenarios.halfRecentFacts)
     = formulaFor Scenarios.clockNow Scenarios.parseKnownDates bonusAtLeastHalf
         (Resolver.analyzeArtifacts Scenarios.halfRecentFacts [])
         (groupOf Scenarios.arsenalKey Scenarios.halfRecentFacts)
  /\ Resolver.confidence
       (Scenarios.decide Scenarios.didArsenalWin Scenarios.halfRecentFacts)
     = 0.7887500000000001%float
  /\ Resolver.confidence
       (Scenarios.decide Scenarios.didArsenalWin Scenarios.drawFacts)
     = 0.3%float.
Proof.
  destruct (deterministic_confidence_formula
              Scenarios.clockNow Scenarios.parseKnownDates Scenarios.printInteger
              Scenarios.noModel "Did Arsenal win against Chelsea on 2025-01-15?"
              Scenarios.didArsenalWin ""
              (Resolver.analyzeArtifacts Scenarios.halfRecentFacts [])
              (groupOf Scenarios.arsenalKey Scenarios.halfRecentFacts)
              eq_refl)
    as (Hres & _ & Hformula).
  { apply Nat.leb_le. vm_compute. reflexivity. }
  destruct (deterministic_confidence_formula
              Scenarios.clockNow Scenarios.parseKnownDates Scenarios.printInteger
              Scenarios.noModel "Did Arsenal win against Chelsea on 2025-01-15?"
              Scenarios.didArsenalWin ""
              (Resolver.analyzeArtifacts Scenarios.drawFacts [])
              (groupOf Scenarios.drawKey Scenarios.drawFacts)
              eq_refl)
    as (_ & Hdraw & _).
  { apply Nat.leb_le. vm_compute. reflexivity. }
  destruct Hformula as (context & Hcontext & Hdecision).
  { intros H. vm_compute in H. discriminate H. }
  split; [vm_compute; reflexivity|].
  split; [|split].
  - unfold Scenarios.decide. rewrite Hdecision. simpl. exact Hcontext.
  - vm_compute. reflexivity.
  - apply Hdraw. vm_compute. reflexivity.
Defined.

(** C5 as worded fails in two ways.  With four final facts of which exactly
    two are recent the code adds 0.02, although two of four is no majority;
    and a drawn match corroborated by three providers passes the
    three-provider gate and gets the confidence 0.3, not the formula's. *)
Lemma confidence_formula_counterexample :
  Resolver.confidence
    (Scenarios.decide Scenarios.didArsenalWin Scenarios.halfRecentFacts)
  <> formulaFor Scenarios.clockNow Scenarios.parseKnownDates bonusStrictMajority
       (Resolver.analyzeArtifacts Scenarios.halfRecentFacts [])
       (groupOf Scenarios.arsenalKey Scenarios.halfRecentFacts)
  /\ Resolver.countDistinctProviders
       (Resolver.filterFinalFacts Scenarios.drawFacts) = 3%nat
  /\ Resolver.confidence
       (Scenarios.decide Scenarios.didArsenalWin Scenarios.drawFacts)
     <> formulaFor Scenarios.clockNow Scenarios.parseKnownDates
          bonusStrictMajority
          (Resolver.analyzeArtifacts Scenarios.drawFacts [])
          (groupOf Scenarios.drawKey Scenarios.drawFacts).
Proof.
  split; [|split].
  - vm_compute. discriminate.
  - vm_compute. reflexivity.
  - vm_compute. discriminate.
Qed.

(** ** The sources of a result *)

Section ResultSources.

Lemma NoDup_firstn {A} (n : nat) (l : list A) : NoDup l -> NoDup (firstn n l).
Proof.
  revert n. induction l as [|x l IH]; intros [|n] Hnd; simpl; try constructor.
  - inversion Hnd as [|? ? Hfresh Hrest]; subst.
    intros Hin. apply Hfresh. revert Hin. clear.
    revert n. induction l as [|y l IH]; intros [|n]; simpl; try easy.
    intros [H|H]; [now left|right; now apply (IH n)].
  - inversion Hnd; subst. now apply IH.
Qed.

(** On the outcome path the sources are at most eight and never repeat. *)
Lemma outcome_sources_bounded_and_unique
  now dateParse numberToString summarizeWithModel
  query structured agentSummary analysis :
  let decision :=
    Resolver.decideResolution now dateParse numberToString summarizeWithModel
      query structured agentSummary analysis in
  (List.length (Resolver.sources decision) <= 8)%nat
  /\ NoDup (Resolver.sources decision).
Proof.
  unfold Resolver.decideResolution.
  destruct (Resolver.acceptedGroup analysis) as [group|];
    [|simpl; split; [lia|constructor]].
  destruct (_ <? _)%nat; [simpl; split; [lia|constructor]|].
  destruct (_ =? _); [simpl; split; [lia|constructor]|].
  destruct (summarizeWithModel _ _ _ _) as [sm|]; cbn [Resolver.sources].
  - destruct (Resolver.ms_sources sm); unfold Js.slice0, Resolver.MAX_SOURCE_COUNT;
      (split; [apply firstn_le_length|apply NoDup_firstn, dedupe_NoDup]).
  - unfold Js.slice0, Resolver.MAX_SOURCE_COUNT.
    split; [apply firstn_le_length|apply NoDup_firstn, dedupe_NoDup].
Qed.

(** On the statistic path the sources are at most eight. *)
Lemma statistic_sources_bounded numberToString artifacts statsQuery :
  (List.length
     (StatsResolver.sources
        (StatsResolver.resolveStatisticsQuery numberToString artifacts statsQuery))
   <= 8)%nat.
Proof.
  unfold StatsResolver.resolveStatisticsQuery, StatsResolver.selectSources.
  cbn [StatsResolver.sources].
  destruct (StatisticsResolutionArtifacts.consensus artifacts);
    apply firstn_le_length.
Qed.

(** C6: the statistic path lists a provider once per supporting source,
    without removing repetitions: a provider whose answer yields the
    statistic twice appears twice among the sources of the result. *)
Theorem statistic_sources_repeat_a_provider :
  StatsResolver.sources
    (Scenarios.resolveStatistics [Scenarios.optaResponse] Scenarios.walkedTwice
       Scenarios.yellowCardsQuery)
  = ["OPTA_STATS"; "OPTA_STATS"]
  /\ ~ NoDup
       (StatsResolver.sources
          (Scenarios.resolveStatistics [Scenarios.optaResponse]
             Scenarios.walkedTwice Scenarios.yellowCardsQuery)).
Proof.
  assert (E : StatsResolver.sources
                (Scenarios.resolveStatistics [Scenarios.optaResponse]
                   Scenarios.walkedTwice Scenarios.yellowCardsQuery)
              = ["OPTA_STATS"; "OPTA_STATS"]) by (vm_compute; reflexivity).
  split; [exact E|]. rewrite E. intros Hnd.
  inversion Hnd as [|? ? Hfresh _]; subst. apply Hfresh. now left.
Qed.

End ResultSources.

(** ** The statistic path and the agreed flag *)

Section StatisticGates.

(** Without a consensus the statistic result is "insufficient_data"; a
    resolution other than that needs a consensus with an agreed value,
    whatever its agreed flag. *)
Lemma statistic_resolution_needs_a_value
  pow numberToString now providers normalized validation errors warnings query :
  let artifacts :=
    StatsResolver.runStatisticsGraph pow now providers normalized validation
      errors warnings query in
  let result :=
    StatsResolver.resolveStatisticsQuery numberToString artifacts query in
  (StatisticsResolutionArtifacts.consensus artifacts = None ->
   StatsResolver.resolution result = "insufficient_data")
  /\ (StatsResolver.resolution result <> "insufficient_data" ->
      exists c a,
        StatisticsResolutionArtifacts.consensus artifacts = Some c
        /\ StatisticConsensus.agreedValue c = Some a).
Proof.
  intros artifacts result. split.
  - intros Hnone. unfold result, StatsResolver.resolveStatisticsQuery.
    cbn [StatsResolver.resolution]. now rewrite Hnone.
  - intros Hres. unfold result, StatsResolver.resolveStatisticsQuery in Hres.
    cbn [StatsResolver.resolution] in Hres.
    unfold StatsResolver.buildResolution in Hres.
    destruct (StatisticsResolutionArtifacts.consensus artifacts) as [c|];
      [|now elim Hres].
    destruct (StatisticConsensus.agreedValue c) as [a|] eqn:Ea;
      [|now elim Hres].
    now exists c, a.
Qed.

End StatisticGates.

(** C4: the statistic path does not consult the agreed flag.  On the second
    case of the test suite (values 5, 4 and 4) the consensus is not agreed
    (two agreeing values only), yet the result is the value text
    "yellow_cards:4", not "insufficient_data", and its confidence is the
    score of the pipeline, outside the band from 0.25 to 0.30. *)
Theorem statistic_resolved_without_agreement :
  exists c,
    Consensus.computeStatisticConsensus Scenarios.power Scenarios.twoAgree
      Scenarios.yellowCardsQuery = Some c
    /\ StatisticConsensus.agreed c = false
    /\ StatisticConsensus.agreementCount c = 2%nat
    /\ StatsResolver.resolution
         (Scenarios.resolveStatistics [] Scenarios.twoAgree
            Scenarios.yellowCardsQuery) = "yellow_cards:4"
    /\ StatsResolver.resolution
         (Scenarios.resolveStatistics [] Scenarios.twoAgree
            Scenarios.yellowCardsQuery) <> "insufficient_data"
    /\ StatsResolver.confidence
         (Scenarios.resolveStatistics [] Scenarios.twoAgree
            Scenarios.yellowCardsQuery) = 0.8388888888888889%float
    /\ (StatsResolver.confidence
          (Scenarios.resolveStatistics [] Scenarios.twoAgree
             Scenarios.yellowCardsQuery) <=? 0.3)%float = false.
Proof.
  eexists. split; [reflexivity|].
  split; [vm_compute; reflexivity|].
  split; [vm_compute; reflexivity|].
  split; [vm_compute; reflexivity|].
  split; [vm_compute; discriminate|].
  split; vm_compute; reflexivity.
Qed.

(** ** The classifiers *)

Section Classifiers.

Variable now : Z.
Variable dateParse : string -> option Z.
Variable detectIsoDate : string -> option string.



Lemma structured_query_fields query metadata q :
  QuerySchema.parseQueryToStructuredRequest detectIsoDate query (Some metadata)
  = Some q ->
  QuerySchema.questionType q = QuerySchema.classifyQuestion (Js.toLowerCase query)
  /\ QuerySchema.teams q = Js.slice0 2 (Utils.teams metadata).
Proof.
  unfold QuerySchema.parseQueryToStructuredRequest.
  destruct (QuerySchema.schemaAccepts _); [|discriminate].
  intros H. injection H as <-. split; reflexivity.
Qed.

(** C8 (amended): in the structured query produced for a raw query the
    question type is [did_result_happen] exactly when the lower-cased text
    matches [did], white space, any text and one of win, lose, draw, tie,
    happen; the teams are the first two basketball team keywords, in table
    order, that the trimmed lower-cased query contains, so there are at most
    two of them and there may be none. *)
Theorem teams_of_structured_query query q :
  QuerySchema.parseQueryToStructuredRequest detectIsoDate query
    (Some (Utils.extractQueryMetadata detectIsoDate query)) = Some q ->
  (QuerySchema.questionType q = QuerySchema.did_result_happen
   <-> Regex.test QuerySchema.didResultRegex (Js.toLowerCase query) = true)
  /\ QuerySchema.teams q
     = firstn 2
         (filter (fun keyword =>
                    negb (keyword =? "nba") && negb (keyword =? "basketball")
                    && Js.includes (Js.toLowerCase (Js.trim query)) keyword)
                 Utils.BASKETBALL_KEYWORDS)
  /\ (List.length (QuerySchema.teams q) <= 2)%nat.
Proof.
  intros H. destruct (structured_query_fields _ _ _ H) as [Hquestion Hteams].
  rewrite Hquestion, Hteams. split; [|split].
  - unfold QuerySchema.classifyQuestion.
    destruct (Regex.test QuerySchema.didResultRegex (Js.toLowerCase query)).
    + split; reflexivity.
    + split; [|discriminate].
      destruct (Regex.test QuerySchema.whoWonRegex _); [discriminate|].
      destruct (existsb _ _); [discriminate|].
      destruct (Regex.test QuerySchema.awardRegex _); discriminate.
  - reflexivity.
  - unfold Js.slice0. apply firstn_le_length.
Qed.

End Classifiers.



(** The hints of [determineQueryType] leave out the forms [>=] and [<=]
    that [resolveThreshold] reads: ">= 3" sets the threshold and the
    comparator while the query type stays [match_statistic]. *)
Lemma threshold_symbol_is_no_hint :
  exists q,
    Scenarios.classifyStatistics
      "Were there >= 3 yellow cards in Arsenal vs Chelsea?" = Some q
    /\ StatisticsQuery.queryType q = StatisticQueryType.match_statistic
    /\ StatisticsQuery.threshold q = Some 3%float
    /\ StatisticsQuery.comparator q = Some Comparator.ge.
Proof.
  eexists. split; [vm_compute; reflexivity|]. repeat split.
Qed.

Lemma teams_of_structured_query_witness :
  exists q,
    Scenarios.classifyOutcome "Did the Lakers win against the Suns?" = Some q
    /\ QuerySchema.teams q = ["lakers"; "suns"]
    /\ (QuerySchema.questionType q = QuerySchema.did_result_happen
        <-> Regex.test QuerySchema.didResultRegex
              (Js.toLowerCase "Did the Lakers win against the Suns?") = true)
    /\ QuerySchema.teams q
       = firstn 2
           (filter (fun keyword =>
                      negb (keyword =? "nba") && negb (keyword =? "basketball")
                      && Js.includes
                           (Js.toLowerCase
                              (Js.trim "Did the Lakers win against the Suns?"))
                           keyword)
                   Utils.BASKETBALL_KEYWORDS)
    /\ (List.length (QuerySchema.teams q) <= 2)%nat.
Proof.
  eexists. split; [vm_compute; reflexivity|].
  split; [reflexivity|].
  apply (teams_of_structured_query Scenarios.noDate
           "Did the Lakers win against the Suns?").
  vm_compute. reflexivity.
Defined.

(** C8 as worded fails for any team outside the basketball keyword table:
    the question is classified [did_result_happen] and no team is found. *)
Lemma teams_counterexample :
  exists q,
    Scenarios.classifyOutcome "Did Arsenal win?" = Some q
    /\ QuerySchema.questionType q = QuerySchema.did_result_happen
    /\ QuerySchema.teams q = [].
Proof.
  eexists. split; [vm_compute; reflexivity|]. split; reflexivity.
Qed.

(** * Further properties *)

(** ** Retries, the breaker registry and [fetchJson] *)

Section RetryFacts.

Variable setTimeout : float -> Utils.Env -> Utils.Env.
Variable A : Type.
Variable fn : Utils.Action A.

(** The loop hands back what the attempt [n] gave, when the attempts
    before it were rejected and either [n] is the last one allowed or it
    was not rejected. *)
Lemma retryLoop_stops_at factor :
  forall n remaining delay e,
    (n <= remaining)%nat ->
    (forall k, (k < n)%nat ->
               rejectedIn A fn (envOfAttempt setTimeout A fn factor k delay e)) ->
    (n = remaining
     \/ ~ rejectedIn A fn (envOfAttempt setTimeout A fn factor n delay e)) ->
    Fetch.retryLoop setTimeout fn factor remaining delay e
    = fn (envOfAttempt setTimeout A fn factor n delay e).
Proof.
  induction n as [|n IH]; intros remaining delay e Hle Hbefore Hstop.
  - cbn [envOfAttempt] in *.
    destruct remaining as [|remaining]; cbn [Fetch.retryLoop].
    + destruct (fn e) as [[message|result] e']; reflexivity.
    + destruct (fn e) as [[message|result] e'] eqn:Hrun; [|reflexivity].
      destruct Hstop as [Hstop|Hstop]; [discriminate|].
      exfalso. apply Hstop. exists message. now rewrite Hrun.
  - destruct remaining as [|remaining]; [lia|].
    cbn [Fetch.retryLoop envOfAttempt].
    destruct (Hbefore 0%nat ltac:(lia)) as [message Hfirst].
    cbn [envOfAttempt] in Hfirst.
    destruct (fn e) as [[message'|result] e'] eqn:Hrun; [|discriminate].
    cbn [snd]. apply IH.
    + lia.
    + intros k Hk. specialize (Hbefore (S k) ltac:(lia)).
      cbn [envOfAttempt] in Hbefore. now rewrite Hrun in Hbefore.
    + destruct Hstop as [Hstop|Hstop]; [left; lia|right].
      cbn [envOfAttempt] in Hstop. now rewrite Hrun in Hstop.
Qed.

(** X1: [withRetry] resolves with the first attempt that is not rejected,
    provided it comes within [retries] retries: its result and the host
    state it left are those of that attempt, which started after the
    timers of the rejected attempts ([initialDelayMs], then [factor] times
    longer each time). *)
Theorem withRetry_stops_at_the_first_success options e n :
  (n <= retriesOf options)%nat ->
  (forall k, (k < n)%nat ->
             rejectedIn A fn
               (envOfAttempt setTimeout A fn (factorOf options) k
                             (initialDelayOf options) e)) ->
  ~ rejectedIn A fn
      (envOfAttempt setTimeout A fn (factorOf options) n
                    (initialDelayOf options) e) ->
  Fetch.withRetry setTimeout fn options e
  = fn (envOfAttempt setTimeout A fn (factorOf options) n
                     (initialDelayOf options) e).
Proof.
  intros Hle Hbefore Hstop.
  apply (retryLoop_stops_at (factorOf options) n (retriesOf options)
           (initialDelayOf options) e Hle Hbefore).
  now right.
Qed.

(** X2: when the first attempt and all the [retries] retries are rejected,
    [withRetry] rejects with what the last of them gave and leaves the host
    as that attempt left it: [retries + 1] attempts are made and no timer
    is awaited after the last one. *)
Theorem withRetry_gives_up_after_the_retries options e :
  (forall k, (k <= retriesOf options)%nat ->
             rejectedIn A fn
               (envOfAttempt setTimeout A fn (factorOf options) k
                             (initialDelayOf options) e)) ->
  Fetch.withRetry setTimeout fn options e
  = fn (envOfAttempt setTimeout A fn (factorOf options) (retriesOf options)
                     (initialDelayOf options) e)
  /\ rejectedIn A fn
       (envOfAttempt setTimeout A fn (factorOf options) (retriesOf options)
                     (initialDelayOf options) e).
Proof.
  intros Hall. split.
  - apply (retryLoop_stops_at (factorOf options) (retriesOf options)
             (retriesOf options) (initialDelayOf options) e (Nat.le_refl _)).
    + intros k Hk. apply Hall. lia.
    + now left.
  - apply Hall. apply Nat.le_refl.
Qed.

(** An action that is rejected whatever the host state is rejected by
    every retry loop. *)
Lemma retryLoop_always_rejected factor :
  (forall e, rejectedIn A fn e) ->
  forall remaining delay e,
    exists message e',
      Fetch.retryLoop setTimeout fn factor remaining delay e
      = (inl message, e').
Proof.
  intros Hall. induction remaining as [|remaining IH]; intros delay e;
    cbn [Fetch.retryLoop]; destruct (Hall e) as [message Hrun];
    destruct (fn e) as [[message'|result] e'] eqn:Hfn; try discriminate.
  - now exists message', e'.
  - apply IH.
Qed.

End RetryFacts.

Lemma withRetry_stops_at_the_first_success_witness :
  Fetch.withRetry Samples.timerFires (Samples.flakyRequest Scenarios.statsUrl)
                  None (Scenarios.hostAt 1000)
  = (inr "{}",
     {| Utils.clock := 1990;
        Utils.requests := [Scenarios.statsUrl; Scenarios.statsUrl;
                           Scenarios.statsUrl] |}).
Proof.
  rewrite (withRetry_stops_at_the_first_success Samples.timerFires string
             (Samples.flakyRequest Scenarios.statsUrl) None
             (Scenarios.hostAt 1000) 2).
  - reflexivity.
  - vm_compute. lia.
  - intros k Hk.
    assert (Hcases : k = 0%nat \/ k = 1%nat) by lia.
    destruct Hcases as [-> | ->];
      exists "Request failed with status code 503"; reflexivity.
  - intros [message Hrun]. vm_compute in Hrun. discriminate.
Defined.

Lemma withRetry_gives_up_after_the_retries_witness :
  Fetch.withRetry Samples.timerFires (Scenarios.failingRequest Scenarios.statsUrl)
                  None (Scenarios.hostAt 1000)
  = (inl "Request failed with status code 503",
     {| Utils.clock := 2110;
        Utils.requests := [Scenarios.statsUrl; Scenarios.statsUrl;
                           Scenarios.statsUrl] |})
  /\ rejectedIn string (Scenarios.failingRequest Scenarios.statsUrl)
       (envOfAttempt Samples.timerFires string
          (Scenarios.failingRequest Scenarios.statsUrl) (factorOf None)
          (retriesOf None) (initialDelayOf None) (Scenarios.hostAt 1000)).
Proof.
  destruct (withRetry_gives_up_after_the_retries Samples.timerFires string
              (Scenarios.failingRequest Scenarios.statsUrl) None
              (Scenarios.hostAt 1000)) as [Hrun Hlast].
  - intros k Hk. exists "Request failed with status code 503". reflexivity.
  - split; [rewrite Hrun; reflexivity | exact Hlast].
Defined.

Section RegistryFacts.

Lemma registry_get_set_same key breaker m :
  Fetch.mapGet key (Fetch.mapSet key breaker m) = Some breaker.
Proof.
  induction m as [|[k b] m IH]; cbn [Fetch.mapSet Fetch.mapGet].
  - now rewrite String.eqb_refl.
  - destruct (k =? key) eqn:Hk; cbn [Fetch.mapGet]; now rewrite Hk.
Qed.

Lemma registry_set_present key breaker m :
  Fetch.mapGet key m = Some breaker -> Fetch.mapSet key breaker m = m.
Proof.
  induction m as [|[k b] m IH]; cbn [Fetch.mapSet Fetch.mapGet]; [discriminate|].
  destruct (k =? key) eqn:Hk.
  - intros [= ->]. reflexivity.
  - intros Hget. now rewrite IH.
Qed.

(** X3: the registry keeps one breaker per lower-cased host: a second call
    for a host that differs in case only returns the breaker of the first
    call and leaves the registry as it is, whatever options it passes. *)
Theorem breaker_is_shared_per_lowercased_host host host' options options' m :
  Js.toLowerCase host' = Js.toLowerCase host ->
  let '(m1, key, breaker) := Fetch.getCircuitBreaker host options m in
  Fetch.getCircuitBreaker host' options' m1 = (m1, key, breaker).
Proof.
  intros Hsame. unfold Fetch.getCircuitBreaker. rewrite Hsame.
  destruct (Fetch.mapGet (Js.toLowerCase host) m) as [found|] eqn:Hget.
  - now rewrite Hget.
  - now rewrite registry_get_set_same.
Qed.

End RegistryFacts.

Lemma breaker_is_shared_per_lowercased_host_witness :
  let '(m1, key, breaker) :=
    Fetch.getCircuitBreaker "Stats.Example"
      (Some {| Fetch.failureThreshold := Some 5%Z; Fetch.cooldownMs := None |})
      [] in
  Fetch.getCircuitBreaker "stats.EXAMPLE" None m1 = (m1, key, breaker)
  /\ key = "stats.example"
  /\ Utils.failureThreshold (Fetch.options breaker) = 5%Z.
Proof.
  pose proof (breaker_is_shared_per_lowercased_host "Stats.Example"
                "stats.EXAMPLE"
                (Some {| Fetch.failureThreshold := Some 5%Z;
                         Fetch.cooldownMs := None |})
                None [] eq_refl) as Hshared.
  cbv in Hshared |- *. split; [exact Hshared | split; reflexivity].
Defined.

Section FetchFacts.

Variable setTimeout : float -> Utils.Env -> Utils.Env.
Variable urlHost : string -> option string.
Variable Config : Type.
Variable A : Type.
Variable axios : string -> Config -> Utils.Action A.

(** X4: while the breaker of the host is open and its cool-down has not
    passed, [fetchJson] rejects with the error of the open circuit and
    leaves the host and the registry untouched: no request is made and no
    timer awaited, whatever the retry options are. *)
Theorem open_breaker_issues_no_request
  url config retryOptions cbOptions m e host breaker opened :
  urlHost url = Some host ->
  Fetch.mapGet (Js.toLowerCase host) m = Some breaker ->
  Utils.openedAt (Fetch.state breaker) = Some opened ->
  (Utils.clock e - opened <= Utils.cooldownMs (Fetch.options breaker))%Z ->
  Fetch.fetchJson setTimeout urlHost axios url config retryOptions cbOptions m e
  = (inl (Fetch.BreakerFailure Utils.CircuitOpenError), m, e).
Proof.
  intros Hhost Hget Hopen Hwithin.
  unfold Fetch.fetchJson, Fetch.getCircuitBreaker. rewrite Hhost, Hget.
  rewrite (exec_open A (Fetch.options breaker)
             (Fetch.withRetry setTimeout (axios url config) retryOptions)
             (Fetch.state breaker) e opened Hopen Hwithin).
  destruct breaker as [opts st]. cbn [Fetch.options Fetch.state].
  now rewrite (registry_set_present _ _ _ Hget).
Qed.

(** X5: a call of [fetchJson] whose requests are all rejected counts as
    one failure of the host's breaker, however many retries it made: from
    a closed breaker the failure count goes up by one, and the breaker
    opens at the time of the last rejection if that reaches the
    threshold. *)
Theorem failed_fetch_counts_as_one_failure
  url config retryOptions cbOptions m e host m1 key breaker :
  urlHost url = Some host ->
  Fetch.getCircuitBreaker host cbOptions m = (m1, key, breaker) ->
  Utils.openedAt (Fetch.state breaker) = None ->
  (forall e0, rejectedIn A (axios url config) e0) ->
  exists message e',
    Fetch.fetchJson setTimeout urlHost axios url config retryOptions cbOptions
                    m e
    = (inl (Fetch.BreakerFailure (Utils.ActionError message)),
       Fetch.mapSet key
         {| Fetch.options := Fetch.options breaker;
            Fetch.state :=
              {| Utils.failures := Utils.failures (Fetch.state breaker) + 1;
                 Utils.openedAt :=
                   if (Utils.failureThreshold (Fetch.options breaker)
                       <=? Utils.failures (Fetch.state breaker) + 1)%Z
                   then Some (Utils.clock e') else None |} |} m1,
       e').
Proof.
  intros Hhost Hbreaker Hclosed Hrejected.
  destruct (retryLoop_always_rejected setTimeout A (axios url config)
              (factorOf retryOptions) Hrejected (retriesOf retryOptions)
              (initialDelayOf retryOptions) e) as (message & e' & Hrun).
  exists message, e'.
  unfold Fetch.fetchJson. rewrite Hhost, Hbreaker.
  rewrite (exec_closed A (Fetch.options breaker)
             (Fetch.withRetry setTimeout (axios url config) retryOptions)
             (Fetch.state breaker) e Hclosed).
  rewrite (settle_rejected A (Fetch.options breaker)
             (Fetch.withRetry setTimeout (axios url config) retryOptions)
             (Fetch.state breaker) e message e' Hrun).
  now rewrite Hclosed.
Qed.

End FetchFacts.

Lemma open_breaker_issues_no_request_witness :
  Fetch.fetchJson Samples.timerFires Samples.hostOfUrl Samples.failingAxios
    Scenarios.statsUrl tt None None Samples.openRegistry (Scenarios.hostAt 9000)
  = (inl (Fetch.BreakerFailure Utils.CircuitOpenError), Samples.openRegistry,
     Scenarios.hostAt 9000).
Proof.
  apply (open_breaker_issues_no_request Samples.timerFires Samples.hostOfUrl
           unit string Samples.failingAxios Scenarios.statsUrl tt None None
           Samples.openRegistry (Scenarios.hostAt 9000) "stats.example"
           {| Fetch.options := Utils.defaultOptions;
              Fetch.state := {| Utils.failures := 3;
                                Utils.openedAt := Some 3120%Z |} |}
           3120%Z); [reflexivity | reflexivity | reflexivity | vm_compute; discriminate].
Defined.

Lemma failed_fetch_counts_as_one_failure_witness :
  exists message e',
    Fetch.fetchJson Samples.timerFires Samples.hostOfUrl Samples.failingAxios
      Scenarios.statsUrl tt None None [] (Scenarios.hostAt 1000)
    = (inl (Fetch.BreakerFailure (Utils.ActionError message)),
       [("stats.example",
         {| Fetch.options := Utils.defaultOptions;
            Fetch.state := {| Utils.failures := 1; Utils.openedAt := None |} |})],
       e')
    /\ Utils.requests e'
       = [Scenarios.statsUrl; Scenarios.statsUrl; Scenarios.statsUrl].
Proof.
  destruct (failed_fetch_counts_as_one_failure Samples.timerFires
              Samples.hostOfUrl unit string Samples.failingAxios
              Scenarios.statsUrl tt None None [] (Scenarios.hostAt 1000)
              "stats.example"
              [("stats.example",
                {| Fetch.options := Utils.defaultOptions;
                   Fetch.state := Utils.initialState |})]
              "stats.example"
              {| Fetch.options := Utils.defaultOptions;
                 Fetch.state := Utils.initialState |}
              eq_refl eq_refl eq_refl)
    as (message & e' & Hrun).
  - intros e0. exists "Request failed with status code 503". reflexivity.
  - exists message, e'. split; [exact Hrun|].
    vm_compute in Hrun. now injection Hrun as _ <-.
Defined.

(** ** Validation of the statistics *)

Section ValidationFacts.

Variable numberToString : float -> string.

Lemma rulesFor_In type table rules :
  Validation.rulesFor type table = Some rules -> In rules (map snd table).
Proof.
  induction table as [|[t r] table IH]; cbn [Validation.rulesFor map snd];
    [discriminate|].
  destruct (t =? type); [intros [= <-]; now left|].
  intros H. right. now apply IH.
Qed.

(** The bounds of the table are numbers. *)
Lemma rulesFor_number type rules :
  Validation.rulesFor type Validation.RANGE_RULES = Some rules ->
  is_nan (Validation.min rules) = false
  /\ is_nan (Validation.max rules) = false.
Proof.
  intros H. apply rulesFor_In in H.
  assert (Hall : forallb (fun r => negb (is_nan (Validation.min r))
                                   && negb (is_nan (Validation.max r)))
                         (map snd Validation.RANGE_RULES) = true)
    by (vm_compute; reflexivity).
  rewrite forallb_forall in Hall. specialize (Hall rules H).
  apply andb_true_iff in Hall. destruct Hall as [Hmin Hmax].
  now rewrite negb_true_iff in Hmin, Hmax.
Qed.

Lemma leb_true_ltb x y : (x <=? y)%float = true -> (y <? x)%float = false.
Proof.
  intros H. destruct (y <? x)%float eqn:E; [|reflexivity].
  rewrite (leb_false_of_ltb _ _ E) in H. discriminate.
Qed.

Lemma validateStatistic_valid stat :
  Validation.valid (Validation.validateStatistic numberToString stat) = false
  <-> outOfRange stat.
Proof.
  unfold Validation.validateStatistic, outOfRange.
  destruct (Validation.rulesFor _ _) as [rules|].
  - destruct (_ <? Validation.min rules)%float eqn:Hmin;
      [|destruct (Validation.max rules <? _)%float eqn:Hmax];
      cbn [orb Validation.valid]; split; intros H; try discriminate;
      try reflexivity.
    + exists rules. split; [reflexivity|now left].
    + exists rules. split; [reflexivity|now right].
    + destruct H as (rules' & [= <-] & [Hlow|Hhigh]); congruence.
  - cbn [Validation.valid]. split; [discriminate|].
    intros (rules & Hrules & _). discriminate.
Qed.

Lemma validateStatistic_warning stat :
  existsb (fun warning => Js.startsWith warning "Unusual value")
          (Validation.warnings (Validation.validateStatistic numberToString stat))
  = true
  <-> unusual stat.
Proof.
  unfold Validation.validateStatistic, unusual.
  destruct (Validation.rulesFor _ _) as [rules|] eqn:Hrules.
  - destruct (rulesFor_number _ _ Hrules) as [Nmin Nmax].
    destruct (_ <? Validation.min rules)%float eqn:Hmin;
      [|destruct (Validation.max rules <? _)%float eqn:Hmax];
      cbn [orb Validation.warnings existsb].
    + split; [discriminate|]. intros (rules' & [= <-] & Hlow & _).
      apply leb_true_ltb in Hlow. congruence.
    + split; [discriminate|]. intros (rules' & [= <-] & _ & Hhigh & _).
      apply leb_true_ltb in Hhigh. congruence.
    + assert (Hin : is_nan (NormalizedStatistic.value stat) = false ->
                    (Validation.min rules <=? NormalizedStatistic.value stat)%float
                    = true
                    /\ (NormalizedStatistic.value stat <=? Validation.max rules)%float
                       = true).
      { intros Nv. rewrite !leb_negb_ltb, Hmin, Hmax by assumption.
        now split. }
      destruct (_ <? Validation.typicalLow rules)%float eqn:Hlow;
        [|destruct (Validation.typicalHigh rules <? _)%float eqn:Hhigh];
        cbn [orb existsb].
      * split; [intros _|reflexivity].
        destruct (Hin (ltb_not_nan_l _ _ Hlow)).
        exists rules. repeat split; try assumption. now left.
      * split; [intros _|reflexivity].
        destruct (Hin (ltb_not_nan_r _ _ Hhigh)).
        exists rules. repeat split; try assumption. now right.
      * split; [discriminate|].
        intros (rules' & [= <-] & _ & _ & [Hl|Hh]); congruence.
  - cbn. split; [discriminate|]. intros (rules & H & _). discriminate.
Qed.

(** None of the messages of the logical rules reads as an unusual value. *)
Lemma logical_warnings_are_not_unusual stats :
  existsb (fun warning => Js.startsWith warning "Unusual value")
          (flat_map (fun rule => match rule stats with
                                 | Some message => [message]
                                 | None => []
                                 end) Validation.LOGICAL_RULES)
  = false.
Proof.
  unfold Validation.LOGICAL_RULES. cbn [flat_map app]. cbv beta.
  repeat match goal with
         | |- context [match ?x with _ => _ end] =>
             lazymatch x with
             | context [match _ with _ => _ end] => fail
             | _ => destruct x
             end
         end; reflexivity.
Qed.

Lemma existsb_flat_map {X Y} (p : Y -> bool) (f : X -> list Y) (l : list X) :
  existsb p (flat_map f l) = existsb (fun x => existsb p (f x)) l.
Proof.
  induction l as [|x l IH]; [reflexivity|].
  cbn [flat_map existsb]. now rewrite existsb_app, IH.
Qed.

(** X6: [summarizeValidation] reports [withinRange] exactly when no
    statistic lies outside the valid range of its type, and the invalid
    sources are exactly the first sources of the statistics that do. *)
Theorem validation_summary_names_the_invalid_statistics stats :
  let summary := Validation.summarizeValidation numberToString stats in
  (StatisticsValidationSummary.withinRange summary = true
   <-> forall stat, In stat stats -> ~ outOfRange stat)
  /\ (forall source,
        In source (StatisticsValidationSummary.invalidSources summary)
        <-> exists stat, In stat stats /\ outOfRange stat
                         /\ source = firstSource stat).
Proof.
  cbn zeta. unfold Validation.summarizeValidation.
  cbn [StatisticsValidationSummary.withinRange
         StatisticsValidationSummary.invalidSources].
  assert (Hsources : forall source,
             In source
                (map (fun '(stat, _) =>
                        match hd_error (NormalizedStatistic.sources stat) with
                        | Some s => StatisticSource.source s
                        | None => "unknown"
                        end)
                     (filter (fun '(_, result) => negb (Validation.valid result))
                             (map (fun stat =>
                                     (stat, Validation.validateStatistic
                                              numberToString stat)) stats)))
             <-> exists stat, In stat stats /\ outOfRange stat
                              /\ source = firstSource stat).
  { intros source. rewrite in_map_iff. split.
    - intros ([stat result] & <- & Hin). apply filter_In in Hin.
      destruct Hin as [Hin Hinvalid]. apply in_map_iff in Hin.
      destruct Hin as (stat' & [= <- <-] & Hin).
      exists stat'. split; [assumption|split; [|reflexivity]].
      apply validateStatistic_valid. now destruct (Validation.valid _).
    - intros (stat & Hin & Hout & ->).
      exists (stat, Validation.validateStatistic numberToString stat).
      split; [reflexivity|]. apply filter_In. split.
      + apply in_map_iff. now exists stat.
      + apply validateStatistic_valid in Hout. now rewrite Hout. }
  split; [|exact Hsources].
  rewrite Nat.eqb_eq. split.
  - intros Hnone stat Hin Hout.
    apply length_zero_iff_nil in Hnone.
    assert (Hfirst : In (firstSource stat) []).
    { rewrite <- Hnone. apply Hsources. now exists stat. }
    exact Hfirst.
  - intros Hall. apply length_zero_iff_nil.
    match goal with |- ?l = [] => destruct l as [|source rest] eqn:Hlist end;
      [reflexivity|].
    exfalso.
    destruct (proj1 (Hsources source) (or_introl eq_refl))
      as (stat & Hin & Hout & _).
    exact (Hall stat Hin Hout).
Qed.

(** X7: on the statistics it validated, the confidence score is lowered
    for an unusual value exactly when some statistic lies within the valid
    range of its type and outside the typical one; a value outside the
    valid range does not lower it. *)
Theorem unusual_value_adjustment now consensus normalized :
  In ("Unusual statistic value", 0.95%float)
     (Confidence.adjustments
        (Confidence.factors
           (Confidence.computeConfidenceScore now consensus normalized
              (Some (Validation.summarizeValidation numberToString normalized)))))
  <-> exists stat, In stat normalized /\ unusual stat.
Proof.
  unfold Confidence.computeConfidenceScore.
  cbn [Confidence.factors Confidence.adjustments].
  assert (Hunusual :
            Confidence.unusualValue
              (Some (Validation.summarizeValidation numberToString normalized))
            = true
            <-> exists stat, In stat normalized /\ unusual stat).
  { unfold Confidence.unusualValue, Validation.summarizeValidation.
    cbn [StatisticsValidationSummary.warnings].
    rewrite existsb_app, logical_warnings_are_not_unusual, orb_false_r.
    rewrite existsb_flat_map, existsb_exists. split.
    - intros ([stat result] & Hin & Hwarn). apply in_map_iff in Hin.
      destruct Hin as (stat' & [= <- <-] & Hin).
      exists stat'. split; [assumption|]. now apply validateStatistic_warning.
    - intros (stat & Hin & Hun).
      exists (stat, Validation.validateStatistic numberToString stat). split.
      + apply in_map_iff. now exists stat.
      + now apply validateStatistic_warning. }
  rewrite <- Hunusual.
  destruct (Confidence.unusualValue _); split; intros H; try reflexivity;
    try discriminate.
  - apply in_or_app. right. apply in_or_app. right. now left.
  - exfalso. apply in_app_or in H. destruct H as [H|H].
    + destruct (match consensus with Some c => _ | None => false end) in H;
        [destruct H as [[= H]|[]]|destruct H].
    + apply in_app_or in H. destruct H as [H|[]].
      destruct (match consensus with Some c => _ | None => false end) in H;
        [destruct H as [[= H]|[]]|destruct H].
Qed.

End ValidationFacts.

(** ** Normalization of the provider payloads *)

Section NormalizationFacts.

(** Induction on a JSON value, with the property at hand for the items of
    an array and for the values of an object. *)
Lemma Json_induction (P : Json.t -> Prop) :
  P Json.Null ->
  (forall b, P (Json.Bool b)) ->
  (forall n, P (Json.Num n)) ->
  (forall s, P (Json.Str s)) ->
  (forall items, Forall P items -> P (Json.Arr items)) ->
  (forall entries, Forall (fun entry => P (snd entry)) entries ->
                   P (Json.Obj entries)) ->
  forall value, P value.
Proof.
  intros Hnull Hbool Hnum Hstr Harr Hobj.
  fix IH 1. intros [|b|n|s|items|entries].
  - exact Hnull.
  - apply Hbool.
  - apply Hnum.
  - apply Hstr.
  - apply Harr. induction items as [|item items IHitems]; constructor.
    + apply IH.
    + exact IHitems.
  - apply Hobj. induction entries as [|[key value] entries IHentries];
      constructor.
    + apply IH.
    + exact IHentries.
Qed.

Lemma atKey_lookup {B} key (f : Json.t -> B) d entries :
  Json.atKey key f d entries
  = match Json.lookup key entries with
    | Some value => f value
    | None => d
    end.
Proof.
  induction entries as [|[k v] entries IH]; cbn [Json.atKey Json.lookup];
    [reflexivity|].
  destruct (k =? key); [reflexivity|exact IH].
Qed.

Lemma lookup_In key entries value :
  Json.lookup key entries = Some value -> In (key, value) entries.
Proof.
  induction entries as [|[k v] entries IH]; cbn [Json.lookup]; [discriminate|].
  destruct (k =? key) eqn:Hk.
  - intros [= ->]. apply String.eqb_eq in Hk. subst. now left.
  - intros H. right. now apply IH.
Qed.

Lemma Forall_flat_map {X Y} (P : Y -> Prop) (f : X -> list Y) (l : list X) :
  (forall x, In x l -> Forall P (f x)) -> Forall P (flat_map f l).
Proof.
  induction l as [|x l IH]; intros H; cbn [flat_map]; [constructor|].
  apply Forall_app. split.
  - apply H. now left.
  - apply IH. intros y Hy. apply H. now right.
Qed.

Lemma extractCandidates_plain context payload :
  Forall plain (Normalization.extractCandidates context payload).
Proof.
  induction payload as [|b|n|s|items IH|entries IH] using Json_induction;
    cbn [Normalization.extractCandidates].
  - constructor.
  - constructor.
  - repeat constructor.
  - destruct (Normalization.extractNumberFromText s); repeat constructor.
  - apply Forall_flat_map. intros item Hin.
    exact (proj1 (Forall_forall _ _) IH item Hin).
  - apply Forall_app; split;
      [|apply Forall_app; split;
        [|apply Forall_app; split; [|apply Forall_app; split]]].
    + unfold Normalization.extractFromKnownArrays.
      apply Forall_flat_map. intros key _. rewrite atKey_lookup.
      destruct (Json.lookup key entries) as [[| | | |items|]|] eqn:Hlookup;
        try constructor.
      apply lookup_In in Hlookup.
      exact (proj1 (Forall_forall _ _) IH _ Hlookup).
    + unfold Normalization.extractFromEmbeddedText.
      destruct (Json.lookup "text" entries) as [[| | |text| |]|];
        try constructor.
      destruct (Normalization.extractNumberFromText text); repeat constructor.
    + unfold Normalization.extractFromValueField.
      destruct (Json.lookup "value" entries) as [[| | | | |]|];
        repeat constructor.
    + unfold Normalization.extractFromPrimitivePairs.
      apply Forall_flat_map. intros [key inner] _.
      destruct inner; try constructor;
        destruct (Normalization.inferTypeFromKey _ _) as [[|c r]|];
        repeat constructor.
    + unfold Normalization.extractFromNestedObjects.
      apply Forall_flat_map. intros entry Hin.
      pose proof (proj1 (Forall_forall _ _) IH entry Hin) as Hentry.
      cbv beta in Hentry.
      destruct (snd entry); first [exact Hentry | apply Forall_nil].
Qed.

(** Where a normalized statistic comes from; its value is a number. *)
Lemma normalized_statistic_origin responses query stat :
  In stat (Normalization.deriveNormalizedStatistics responses query) ->
  exists response payload,
    In (response, payload) responses
    /\ NormalizedStatistic.sources stat
       = [sourceOf response (NormalizedStatistic.value stat)]
    /\ NormalizedStatistic.unit stat
       = Providers.inferUnit (NormalizedStatistic.type stat)
    /\ is_nan (NormalizedStatistic.value stat) = false.
Proof.
  unfold Normalization.deriveNormalizedStatistics. intros Hin.
  apply in_flat_map in Hin. destruct Hin as ([response payload] & Hresp & Hin).
  apply in_flat_map in Hin. destruct Hin as (candidate & Hcand & Hin).
  exists response, payload. split; [assumption|].
  pose proof (proj1 (Forall_forall _ _)
                (extractCandidates_plain
                   {| Normalization.provider := response;
                      Normalization.query := query |} payload)
                candidate Hcand) as [Hunit _].
  destruct (Normalization.value candidate) as [v|] eqn:Hvalue; [|destruct Hin].
  destruct (is_nan v) eqn:Hnan; [destruct Hin|].
  destruct Hin as [<-|[]].
  unfold Normalization.toNormalizedStatistic, sourceOf.
  cbn [NormalizedStatistic.sources NormalizedStatistic.value
         NormalizedStatistic.unit NormalizedStatistic.type
         Normalization.provider Normalization.query].
  rewrite Hvalue, Hunit. repeat split. exact Hnan.
Qed.

(** X8: every normalized statistic carries exactly one source, the one of
    the response it was read from with the statistic's value as parsed
    value, and its unit is the unit [inferUnit] gives for its type,
    whatever unit the payload names. *)
Theorem normalized_statistic_has_the_source_of_its_response
  responses query stat :
  In stat (Normalization.deriveNormalizedStatistics responses query) ->
  exists response payload,
    In (response, payload) responses
    /\ NormalizedStatistic.sources stat
       = [sourceOf response (NormalizedStatistic.value stat)]
    /\ NormalizedStatistic.unit stat
       = Providers.inferUnit (NormalizedStatistic.type stat).
Proof.
  intros Hin.
  destruct (normalized_statistic_origin _ _ _ Hin)
    as (response & payload & Hresp & Hsources & Hunit & _).
  now exists response, payload.
Qed.

End NormalizationFacts.

(** ** The consensus on normalized statistics *)

Section ConsensusOnNormalized.
Import Consensus.

Variable pow : float -> float -> float.

(** The fields of a consensus, read off [computeStatisticConsensus]. *)
Lemma computeStatisticConsensus_fields normalized query c :
  computeStatisticConsensus pow normalized query = Some c ->
  exists s0 rel a,
    filter (fun stat => matchesQuery stat query) normalized = s0 :: rel
    /\ StatisticConsensus.unit c = NormalizedStatistic.unit s0
    /\ StatisticConsensus.supportingSources c = flattenSources (s0 :: rel)
    /\ (a, StatisticConsensus.agreementCount c)
       = findConsensusValue (map NormalizedStatistic.value (s0 :: rel))
                            (countingTolerance (NormalizedStatistic.unit s0))
    /\ StatisticConsensus.agreedValue c
       = (if Js.isFinite a then Some a else None)
    /\ StatisticConsensus.variance c
       = calculateVariance pow (map NormalizedStatistic.value (s0 :: rel))
    /\ StatisticConsensus.tier1Count c
       = List.length (filter (fun s => (StatisticSource.tier s =? 1)%Z)
                             (flattenSources (s0 :: rel)))
    /\ StatisticConsensus.statsProviderCount c
       = List.length
           (filter (fun s => existsb (String.eqb (StatisticSource.source s))
                                     STATS_PROVIDER_NAMES)
                   (flattenSources (s0 :: rel)))
    /\ StatisticConsensus.officialSourcePresent c
       = (0 <? StatisticConsensus.tier1Count c)%nat
    /\ StatisticConsensus.agreed c
       = ((3 <=? StatisticConsensus.agreementCount c)%nat
          && (1 <=? StatisticConsensus.statsProviderCount c)%nat
          && (StatisticConsensus.variance c
              <=? varianceTolerance (NormalizedStatistic.unit s0))%float)
    /\ StatisticConsensus.outliers c
       = map (fun stat => (firstSource stat, NormalizedStatistic.value stat))
             (filter (fun stat =>
                        (countingTolerance (NormalizedStatistic.unit s0)
                         <? abs (NormalizedStatistic.value stat - a))%float)
                     (s0 :: rel)).
Proof.
  unfold computeStatisticConsensus.
  destruct (filter (fun stat => matchesQuery stat query) normalized)
    as [|s0 rel] eqn:Erel; [discriminate|].
  rewrite tolerance_of_first_unit, variance_bound_of_first_unit.
  destruct (findConsensusValue _ _) as [agreedValue agreementCount] eqn:Efind.
  intros H. injection H as <-. exists s0, rel, agreedValue.
  cbn [StatisticConsensus.unit StatisticConsensus.agreed
         StatisticConsensus.agreedValue StatisticConsensus.agreementCount
         StatisticConsensus.statsProviderCount StatisticConsensus.variance
         StatisticConsensus.tier1Count StatisticConsensus.outliers
         StatisticConsensus.officialSourcePresent
         StatisticConsensus.supportingSources firstUnit hd_error option_map].
  repeat split; try reflexivity. now rewrite Efind.
Qed.

Lemma filter_length_le_of_implies {X} (f g : X -> bool) (l : list X) :
  (forall x, In x l -> f x = true -> g x = true) ->
  (List.length (filter f l) <= List.length (filter g l))%nat.
Proof.
  induction l as [|x l IH]; intros H; cbn [filter]; [apply Nat.le_refl|].
  assert (IH' := IH (fun y Hy => H y (or_intror Hy))).
  destruct (f x) eqn:Hf.
  - rewrite (H x (or_introl eq_refl) Hf). cbn [List.length]. lia.
  - destruct (g x); cbn [List.length]; lia.
Qed.

Lemma filter_length_complement {X} (f g : X -> bool) (l : list X) :
  (forall x, g x = negb (f x)) ->
  (List.length (filter f l) + List.length (filter g l) = List.length l)%nat.
Proof.
  intros H. induction l as [|x l IH]; cbn [filter List.length]; [reflexivity|].
  rewrite (H x). destruct (f x); cbn [negb List.length]; lia.
Qed.

Lemma peersWithin_map tolerance (stats : list NormalizedStatistic.t) a :
  peersWithin tolerance (map NormalizedStatistic.value stats) a
  = List.length
      (filter (fun stat =>
                 (abs (NormalizedStatistic.value stat - a) <=? tolerance)%float)
              stats).
Proof.
  unfold peersWithin. induction stats as [|x l IH]; [reflexivity|].
  cbn [map filter]. destruct (_ <=? _)%float; cbn [List.length]; now rewrite IH.
Qed.

Lemma filter_length_complement_in {X} (f g : X -> bool) (l : list X) :
  (forall x, In x l -> g x = negb (f x)) ->
  (List.length (filter f l) + List.length (filter g l) = List.length l)%nat.
Proof.
  induction l as [|x l IH]; intros H; cbn [filter List.length]; [reflexivity|].
  rewrite (H x (or_introl eq_refl)).
  pose proof (IH (fun y Hy => H y (or_intror Hy))).
  destruct (f x); cbn [negb List.length]; lia.
Qed.

(** X9: in a consensus on finite values every matching statistic is
    counted once, either among the values that agree with the agreed value
    or among the outliers: the agreement count and the number of outliers
    add up to the number of matching statistics. *)
Theorem agreement_and_outliers_add_up normalized query c :
  computeStatisticConsensus pow normalized query = Some c ->
  finiteValues query normalized ->
  (StatisticConsensus.agreementCount c
   + List.length (StatisticConsensus.outliers c)
   = List.length (filter (fun stat => matchesQuery stat query) normalized))%nat.
Proof.
  intros Hc Hfinite.
  destruct (computeStatisticConsensus_fields normalized query c Hc)
    as (s0 & rel & a0 & Hrel & _ & _ & Hfind & _ & _ & _ & _ & _ & _ & Hout).
  unfold finiteValues, valuesFor, relevantTo in Hfinite. rewrite Hrel in Hfinite.
  destruct (findConsensusValue_spec
              (countingTolerance (NormalizedStatistic.unit s0))
              (map NormalizedStatistic.value (s0 :: rel))
              (countingTolerance_nonneg _) Hfinite)
    as (a & Ha & Hin & _); [discriminate|].
  rewrite Ha in Hfind. injection Hfind as -> Hcount.
  change (NormalizedStatistic.value s0 :: map NormalizedStatistic.value rel)
    with (map NormalizedStatistic.value (s0 :: rel)) in Hcount.
  rewrite Hrel, Hout, Hcount, length_map, peersWithin_map.
  apply filter_length_complement_in. intros x Hx.
  rewrite (within_or_beyond _ _ (countingTolerance (NormalizedStatistic.unit s0))).
  - now rewrite negb_involutive.
  - apply Hfinite. now apply in_map.
  - apply Hfinite. exact Hin.
  - apply countingTolerance_number.
Qed.

(** With values beyond the range of the numbers they do not add up: two
    such statistics give the agreement count 1 and no outlier. *)
Lemma unbounded_values_do_not_add_up :
  exists c,
    computeStatisticConsensus Scenarios.power Scenarios.unboundedValues
      Scenarios.yellowCardsQuery = Some c
    /\ StatisticConsensus.agreementCount c = 1%nat
    /\ StatisticConsensus.outliers c = []
    /\ List.length
         (filter (fun stat => matchesQuery stat Scenarios.yellowCardsQuery)
                 Scenarios.unboundedValues) = 2%nat.
Proof.
  eexists. split; [reflexivity|]. repeat split; vm_compute; reflexivity.
Qed.

Lemma flattenSources_of_normalized responses query :
  forall stats,
    (forall stat, In stat stats ->
                  In stat (Normalization.deriveNormalizedStatistics
                             responses query)) ->
    forall source,
      In source (flattenSources stats) ->
      exists response payload value,
        In (response, payload) responses /\ source = sourceOf response value.
Proof.
  intros stats Hsub source Hin. unfold flattenSources in Hin.
  apply in_flat_map in Hin. destruct Hin as (stat & Hstat & Hin).
  destruct (normalized_statistic_origin
              responses query stat (Hsub stat Hstat))
    as (response & payload & Hresp & Hsources & _).
  rewrite Hsources in Hin. destruct Hin as [<-|[]].
  now exists response, payload, (NormalizedStatistic.value stat).
Qed.

End ConsensusOnNormalized.

Section PipelineFacts.
Import Consensus.

Variable pow : float -> float -> float.

Lemma matchesQuery_type stat query :
  matchesQuery stat query = true ->
  NormalizedStatistic.type stat = StatisticsQuery.statisticType query.
Proof.
  unfold matchesQuery.
  destruct (NormalizedStatistic.type stat =? StatisticsQuery.statisticType query)
    eqn:Htype; [|discriminate].
  intros _. now apply String.eqb_eq.
Qed.

(** X10: the unit of a consensus over statistics normalized from provider
    responses is the one [inferUnit] gives for the statistic type of the
    query, whatever the payloads say: the counting tolerance and the
    variance bound depend on the type asked for only. *)
Theorem consensus_unit_follows_the_query_type responses query c :
  computeStatisticConsensus pow
    (Normalization.deriveNormalizedStatistics responses query) query = Some c ->
  StatisticConsensus.unit c
  = Providers.inferUnit (StatisticsQuery.statisticType query).
Proof.
  intros Hc.
  destruct (computeStatisticConsensus_fields pow _ query c Hc)
    as (s0 & rel & a & Hrel & Hunit & _).
  assert (Hin : In s0 (filter (fun stat => matchesQuery stat query)
                              (Normalization.deriveNormalizedStatistics
                                 responses query)))
    by (rewrite Hrel; now left).
  apply filter_In in Hin. destruct Hin as [Hin Hmatch].
  destruct (normalized_statistic_origin
              responses query s0 Hin) as (_ & _ & _ & _ & Hinfer & _).
  rewrite Hunit, Hinfer. f_equal. now apply matchesQuery_type.
Qed.

(** The stats providers of the consensus are tier-1 providers in the
    configuration. *)
Lemma stats_providers_are_tier_one response :
  configured response ->
  existsb (String.eqb (StatisticProviderResponse.provider response))
          STATS_PROVIDER_NAMES = true ->
  StatisticProviderResponse.tier response = 1%Z.
Proof.
  unfold configured. cbn [map Providers.providerConfigs Providers.provider
                            Providers.tier Providers.config Providers.withRetry
                            Providers.withHeaders snd].
  intros Hin Hname.
  repeat (destruct Hin as [Hin|Hin];
          [injection Hin as Hprovider Htier; rewrite <- Hprovider in Hname;
           first [exact (eq_sym Htier) | discriminate Hname]|]).
  destruct Hin.
Qed.

(** X11: when the responses come from the configured providers, a
    consensus counts no more stats providers than tier-1 sources, so that
    an agreed consensus always has an official source present. *)
Theorem agreed_consensus_has_an_official_source responses query c :
  Forall (fun response => configured (fst response)) responses ->
  computeStatisticConsensus pow
    (Normalization.deriveNormalizedStatistics responses query) query = Some c ->
  (StatisticConsensus.statsProviderCount c
   <= StatisticConsensus.tier1Count c)%nat
  /\ (StatisticConsensus.agreed c = true ->
      StatisticConsensus.officialSourcePresent c = true).
Proof.
  intros Hconfigured Hc.
  destruct (computeStatisticConsensus_fields pow _ query c Hc)
    as (s0 & rel & a & Hrel & _ & _ & _ & _ & _ & Htier & Hstats & Hofficial
        & Hagreed & _).
  assert (Hle : (StatisticConsensus.statsProviderCount c
                 <= StatisticConsensus.tier1Count c)%nat).
  { rewrite Htier, Hstats. apply filter_length_le_of_implies.
    intros source Hin Hname.
    destruct (flattenSources_of_normalized responses query (s0 :: rel))
      with (source := source) as (response & payload & value & Hresp & ->);
      [|assumption|].
    - intros stat Hstat. rewrite <- Hrel in Hstat.
      apply filter_In in Hstat. tauto.
    - cbn [sourceOf StatisticSource.tier StatisticSource.source] in *.
      rewrite (stats_providers_are_tier_one response); [reflexivity| |assumption].
      exact (proj1 (Forall_forall _ _) Hconfigured (response, payload) Hresp). }
  split; [exact Hle|].
  rewrite Hagreed, Hofficial. intros Hok.
  apply andb_true_iff in Hok. destruct Hok as [Hok _].
  apply andb_true_iff in Hok. destruct Hok as [_ Hok].
  apply Nat.leb_le in Hok. apply Nat.ltb_lt. lia.
Qed.

(** X12: an array found under [statistics], [data] or [items] is read
    twice, once as a known array and once more as a nested object: every
    statistic a provider lists there is normalized twice. *)
Theorem listed_statistics_are_normalized_twice
  response query key entries items :
  In key ["statistics"; "data"; "items"] ->
  Json.lookup key entries = Some (Json.Arr items) ->
  exists before between after,
    Normalization.deriveNormalizedStatistics
      [(response, Json.Obj entries)] query
    = before
      ++ Normalization.deriveNormalizedStatistics
           [(response, Json.Arr items)] query
      ++ between
      ++ Normalization.deriveNormalizedStatistics
           [(response, Json.Arr items)] query
      ++ after.
Proof.
  intros Hkey Hlookup.
  unfold Normalization.deriveNormalizedStatistics.
  cbn [flat_map]. rewrite !app_nil_r.
  set (context := {| Normalization.provider := response;
                     Normalization.query := query |}).
  set (keep := fun candidate : Normalization.RawStatisticCandidate =>
                 match Normalization.value candidate with
                 | Some v =>
                     if is_nan v then []
                     else [Normalization.toNormalizedStatistic candidate context]
                 | None => []
                 end).
  set (listed := Normalization.extractCandidates context (Json.Arr items)).
  assert (Hknown : exists k1 k2,
             Normalization.extractFromKnownArrays
               (Normalization.extractCandidates context) entries
             = k1 ++ listed ++ k2).
  { unfold Normalization.extractFromKnownArrays. cbn [flat_map].
    rewrite !atKey_lookup, app_nil_r.
    destruct Hkey as [<-|[<-|[<-|[]]]]; rewrite Hlookup;
      change (flat_map (Normalization.extractCandidates context) items)
        with listed.
    - eexists [], _. reflexivity.
    - eexists _, _. reflexivity.
    - eexists _, []. rewrite app_nil_r, app_assoc. reflexivity. }
  assert (Hnested : exists n1 n2,
             Normalization.extractFromNestedObjects
               (Normalization.extractCandidates context) entries
             = n1 ++ listed ++ n2).
  { apply lookup_In in Hlookup. apply in_split in Hlookup.
    destruct Hlookup as (l1 & l2 & ->).
    unfold Normalization.extractFromNestedObjects.
    rewrite flat_map_app. cbn [flat_map snd].
    change (Normalization.extractCandidates context (Json.Arr items))
      with listed.
    eexists _, _. reflexivity. }
  destruct Hknown as (k1 & k2 & Hknown), Hnested as (n1 & n2 & Hnested).
  cbn [Normalization.extractCandidates]. fold context.
  rewrite Hknown, Hnested.
  rewrite !flat_map_app.
  exists (flat_map keep k1),
    (flat_map keep k2
     ++ flat_map keep (Normalization.extractFromEmbeddedText entries context)
     ++ flat_map keep (Normalization.extractFromValueField entries context)
     ++ flat_map keep (Normalization.extractFromPrimitivePairs entries context)
     ++ flat_map keep n1),
    (flat_map keep n2).
  fold listed. rewrite <- !app_assoc. reflexivity.
Qed.

End PipelineFacts.

Section UnanimousStatistics.
Import Consensus.

Variable pow : float -> float -> float.

Lemma filter_all {X} (f : X -> bool) (l : list X) :
  (forall x, In x l -> f x = true) -> filter f l = l.
Proof.
  induction l as [|x l IH]; intros H; cbn [filter]; [reflexivity|].
  rewrite (H x (or_introl eq_refl)), IH; [reflexivity|].
  intros y Hy. apply H. now right.
Qed.

Lemma filter_none {X} (f : X -> bool) (l : list X) :
  (forall x, In x l -> f x = false) -> filter f l = [].
Proof.
  induction l as [|x l IH]; intros H; cbn [filter]; [reflexivity|].
  rewrite (H x (or_introl eq_refl)). apply IH.
  intros y Hy. apply H. now right.
Qed.

Lemma countingTolerance_not_below_zero u :
  (countingTolerance u <? 0)%float = false.
Proof. unfold countingTolerance. now destruct (StatisticUnit.eqb _ _). Qed.

(** X13: when the matching statistics all carry the same finite value, the
    consensus has that value, counts every matching statistic and has no
    outlier; it is agreed exactly when there are at least three of them,
    one of their sources is a stats provider and the population variance
    the host computes for them is within its bound. *)
Theorem unanimous_statistics_count_in_full normalized query a :
  let relevant := relevantTo query normalized in
  relevant <> [] ->
  Js.isFinite a = true ->
  (forall stat, In stat relevant -> NormalizedStatistic.value stat = a) ->
  exists c,
    computeStatisticConsensus pow normalized query = Some c
    /\ StatisticConsensus.agreedValue c = Some a
    /\ StatisticConsensus.agreementCount c = List.length relevant
    /\ StatisticConsensus.outliers c = []
    /\ (StatisticConsensus.agreed c = true
        <-> (3 <= List.length relevant)%nat
            /\ (exists source,
                   In source (flattenSources relevant)
                   /\ In (StatisticSource.source source) STATS_PROVIDER_NAMES)
            /\ (populationVariance pow (valuesFor query normalized)
                <=? varianceTolerance (StatisticConsensus.unit c))%float
               = true).
Proof.
  cbn zeta. unfold valuesFor, relevantTo. intros Hne Hfinite Hall.
  destruct (computeStatisticConsensus pow normalized query) as [c|] eqn:Hc.
  2:{ exfalso. unfold computeStatisticConsensus in Hc.
      destruct (filter (fun stat => matchesQuery stat query) normalized)
        as [|s0 rel]; [congruence|].
      destruct (findConsensusValue _ _) in Hc. discriminate. }
  destruct (computeStatisticConsensus_fields pow normalized query c Hc)
    as (s0 & rel & a0 & Hrel & Hunit & _ & Hfind & Hvalue & Hvar & _ & Hstats
        & _ & Hagreed & Hout).
  rewrite Hrel in *.
  assert (Hvalues : forall v, In v (map NormalizedStatistic.value (s0 :: rel)) ->
                              v = a).
  { intros v Hv. apply in_map_iff in Hv. destruct Hv as (stat & <- & Hstat).
    now apply Hall. }
  destruct (findConsensusValue_spec
              (countingTolerance (NormalizedStatistic.unit s0))
              (map NormalizedStatistic.value (s0 :: rel))
              (countingTolerance_nonneg _))
    as (v & Hv & Hin & _).
  { intros w Hw. now rewrite (Hvalues w Hw). }
  { discriminate. }
  rewrite Hv in Hfind. injection Hfind as -> Hcount.
  change (NormalizedStatistic.value s0 :: map NormalizedStatistic.value rel)
    with (map NormalizedStatistic.value (s0 :: rel)) in Hcount.
  rewrite (Hvalues v Hin) in *.
  assert (Hnear : forall stat, In stat (s0 :: rel) ->
                    abs (NormalizedStatistic.value stat - a) = 0%float).
  { intros stat Hstat. rewrite (Hall stat Hstat).
    now apply abs_sub_diag. }
  assert (Hpeers : StatisticConsensus.agreementCount c
                   = List.length (s0 :: rel)).
  { rewrite Hcount, peersWithin_map, filter_all; [reflexivity|].
    intros stat Hstat. rewrite (Hnear stat Hstat).
    apply countingTolerance_nonneg. }
  exists c. split; [reflexivity|]. split; [now rewrite Hvalue, Hfinite|].
  split; [exact Hpeers|]. split.
  { rewrite Hout, filter_none; [reflexivity|].
    intros stat Hstat. rewrite (Hnear stat Hstat).
    apply countingTolerance_not_below_zero. }
  rewrite Hagreed, Hpeers, Hstats, Hvar, Hunit.
  rewrite (calculateVariance_population pow) by discriminate.
  rewrite !andb_true_iff, !Nat.leb_le.
  assert (Hsources :
            (1 <= List.length
                    (filter (fun s =>
                               existsb (String.eqb (StatisticSource.source s))
                                       STATS_PROVIDER_NAMES)
                            (flattenSources (s0 :: rel))))%nat
            <-> exists source,
                  In source (flattenSources (s0 :: rel))
                  /\ In (StatisticSource.source source) STATS_PROVIDER_NAMES).
  { split.
    - intros Hlen.
      destruct (filter _ (flattenSources (s0 :: rel))) as [|s rest] eqn:Ef;
        [cbn in Hlen; lia|].
      assert (Hs : In s (filter
                           (fun s => existsb (String.eqb (StatisticSource.source s))
                                             STATS_PROVIDER_NAMES)
                           (flattenSources (s0 :: rel))))
        by (rewrite Ef; now left).
      apply filter_In in Hs. destruct Hs as [Hs Hname].
      exists s. split; [exact Hs|].
      apply existsb_exists in Hname. destruct Hname as (name & Hname & Heq).
      apply String.eqb_eq in Heq. now rewrite Heq.
    - intros (source & Hsource & Hname).
      assert (Hs : In source
                      (filter (fun s =>
                                 existsb (String.eqb (StatisticSource.source s))
                                         STATS_PROVIDER_NAMES)
                              (flattenSources (s0 :: rel)))).
      { apply filter_In. split; [assumption|].
        apply existsb_exists. exists (StatisticSource.source source).
        split; [assumption|apply String.eqb_refl]. }
      destruct (filter _ (flattenSources (s0 :: rel))); [destruct Hs|].
      cbn [List.length]. lia. }
  rewrite Hsources. tauto.
Qed.

End UnanimousStatistics.

(** ** The tools that are asked *)

Section ToolFacts.

Lemma NoDup_of_dedupe (l : list string) : Js.dedupe l = l -> NoDup l.
Proof. intros <-. apply dedupe_NoDup. Qed.

(** X14: [selectTools] asks no tool twice: it gives the five base tools
    first and then either the seven general tools, or the seven
    soccer-specific tools followed by the general ones. *)
Theorem selectTools_asks_each_tool_once query :
  NoDup (StatsGraph.selectTools query)
  /\ firstn 5 (StatsGraph.selectTools query)
     = firstn 5 StatsGraph.StatisticsTools
  /\ (List.length (StatsGraph.selectTools query) = 12%nat
      \/ List.length (StatsGraph.selectTools query) = 19%nat)
  /\ incl (StatsGraph.selectTools query) StatsGraph.StatisticsTools.
Proof.
  unfold StatsGraph.selectTools.
  destruct (_ || _ || _ || _).
  - repeat split.
    + apply NoDup_of_dedupe. reflexivity.
    + now right.
    + intros tool Hin. vm_compute in Hin |- *. tauto.
  - repeat split.
    + apply NoDup_of_dedupe. reflexivity.
    + now left.
    + intros tool Hin. vm_compute in Hin |- *. tauto.
Qed.

(** X15: the node [fetch_providers] records the result of every tool it
    asked exactly once: as a provider response, as a warning for a
    provider that is not configured, or as an error. *)
Theorem every_tool_result_is_recorded_once invoke query :
  let fetched := StatsGraph.fetchProviders invoke query in
  (List.length (StatsGraph.providerResponses fetched)
   + List.length (StatsGraph.warnings fetched)
   + List.length (StatsGraph.errors fetched)
   = List.length (StatsGraph.selectTools query))%nat.
Proof.
  cbn zeta. unfold StatsGraph.fetchProviders.
  cbn [StatsGraph.providerResponses StatsGraph.warnings StatsGraph.errors].
  generalize (StatsGraph.selectTools query). intros tools.
  induction tools as [|tool tools IH]; [reflexivity|].
  cbn [map flat_map]. rewrite !length_app.
  destruct (invoke tool); cbn [List.length]; lia.
Qed.

Lemma candidateInputs_names structuredQuery originalQuery :
  exists serp soccer odds : bool,
    map fst (DeepAgent.candidateInputs structuredQuery originalQuery)
    = (if serp then [DeepAgent.SerpApiTool] else [])
      ++ (if soccer then [DeepAgent.ApiSportsSoccerTool] else [])
      ++ (if odds then [DeepAgent.TheOddsScoresTool] else []).
Proof.
  unfold DeepAgent.candidateInputs. rewrite !map_app.
  exists (match DeepAgent.serpQuery structuredQuery originalQuery with
          | Some (String _ _) => true
          | _ => false
          end),
    (Js.truthy (hd_error (QuerySchema.teams structuredQuery))
     || Js.truthy (QuerySchema.date structuredQuery)),
    (match QuerySchema.date structuredQuery with
     | Some (String _ _) => true
     | _ => false
     end).
  destruct (DeepAgent.serpQuery structuredQuery originalQuery) as [[|c r]|];
    destruct (_ || _);
    destruct (QuerySchema.date structuredQuery) as [[|dc dr]|]; reflexivity.
Qed.

Lemma selectInputs_narrows candidates planning :
  incl (DeepAgent.selectInputs candidates planning) candidates
  /\ (DeepAgent.selectInputs candidates planning = [] -> candidates = []).
Proof.
  unfold DeepAgent.selectInputs.
  destruct planning as [rawContent|]; [|split; [apply incl_refl|auto]].
  destruct (DeepAgent.namesIn rawContent) as [|name names];
    [split; [apply incl_refl|auto]|].
  destruct (filter _ candidates) as [|entry filtered] eqn:Hfilter;
    [split; [apply incl_refl|auto]|].
  split; [|discriminate].
  rewrite <- Hfilter. intros x Hx. apply filter_In in Hx. tauto.
Qed.

Variable planner : QuerySchema.StructuredQuery -> list string -> option string.
Variable invoke : string -> DeepAgent.ToolInput -> DeepAgent.ToolOutcome.
Variable numberToString : float -> string.

(** X16: the planner can only narrow the choice of tools: the artifacts
    come from candidate tools, at most the three of the agent, and when
    there is a candidate at least one tool is run, whatever the planner
    answers. *)
Theorem planner_only_narrows_the_tools structuredQuery originalQuery :
  let candidates := DeepAgent.candidateInputs structuredQuery originalQuery in
  let artifacts :=
    fst (DeepAgent.runDeepAgent planner invoke numberToString structuredQuery
                                originalQuery) in
  incl (map Artifacts.tool artifacts) (map fst candidates)
  /\ incl (map fst candidates)
          [DeepAgent.SerpApiTool; DeepAgent.ApiSportsSoccerTool;
           DeepAgent.TheOddsScoresTool]
  /\ (artifacts = [] <-> candidates = []).
Proof.
  cbn zeta. unfold DeepAgent.runDeepAgent. cbn [fst].
  set (candidates := DeepAgent.candidateInputs structuredQuery originalQuery).
  set (selected := DeepAgent.selectInputs candidates _).
  destruct (selectInputs_narrows candidates
              (planner structuredQuery (map fst candidates)))
    as [Hincl Hempty].
  fold selected in Hincl, Hempty.
  split; [|split].
  - intros tool Hin. rewrite map_map in Hin. apply in_map_iff in Hin.
    destruct Hin as ([name input] & <- & Hin).
    apply in_map_iff. exists (name, input). split; [|now apply Hincl].
    destruct (invoke name input); reflexivity.
  - destruct (candidateInputs_names structuredQuery originalQuery)
      as (serp & soccer & odds & Hnames).
    fold candidates in Hnames. rewrite Hnames.
    destruct serp, soccer, odds; intros tool Hin; cbn in Hin |- *; tauto.
  - split.
    + intros Hnone. apply Hempty. now apply map_eq_nil in Hnone.
    + intros Hnone. clear Hincl Hempty. subst selected. rewrite Hnone.
      unfold DeepAgent.selectInputs.
      destruct (planner _ _) as [rawContent|]; [|reflexivity].
      destruct (DeepAgent.namesIn rawContent); reflexivity.
Qed.

End ToolFacts.

(** ** The URL of a provider *)

Section UrlFacts.
Local Open Scope string_scope.

Lemma append_assoc (a b c : string) : (a ++ b) ++ c = a ++ b ++ c.
Proof. induction a as [|x a IH]; cbn; [reflexivity|now rewrite IH]. Qed.

Lemma append_empty_r (a : string) : a ++ "" = a.
Proof. induction a as [|x a IH]; cbn; [reflexivity|now rewrite IH]. Qed.

Lemma buildQueryString_statistic params :
  exists rest,
    Providers.buildQueryString params
    = "statistic=" ++ Text.formEncode (Providers.statisticType params) ++ rest.
Proof.
  unfold Providers.buildQueryString, Text.searchParamsToString.
  cbn [app map].
  match goal with
  | |- context [map ?f ?l] => generalize (map f l)
  end.
  intros others.
  change (Text.formEncode "statistic") with "statistic".
  destruct others as [|other more].
  - exists "". cbn [Js.join]. now rewrite append_empty_r.
  - exists ("&" ++ Js.join "&" (other :: more)).
    change (Js.join "&" (?x :: other :: more))
      with (x ++ "&" ++ Js.join "&" (other :: more)).
    now rewrite !append_assoc.
Qed.

(** X17: the URL composed for a provider is the base URL without its last
    slash, the path of the provider, and a query string that starts with
    the statistic asked for: no URL goes out without that parameter. *)
Theorem provider_url_starts_with_the_statistic defaultPath baseUrl params :
  exists rest,
    Providers.buildDefaultPath defaultPath baseUrl params
    = (if Text.endsWith baseUrl "/" then Text.dropLast baseUrl else baseUrl)
      ++ (if Js.startsWith defaultPath "/" then defaultPath
          else "/" ++ defaultPath)
      ++ "?statistic=" ++ Text.formEncode (Providers.statisticType params)
      ++ rest.
Proof.
  unfold Providers.buildDefaultPath.
  destruct (buildQueryString_statistic params) as [rest ->].
  exists rest. reflexivity.
Qed.

End UrlFacts.

(** ** The order of strings *)

Section StringOrder.

Lemma ascii_compare_N (a b : ascii) :
  Ascii.compare a b = N.compare (N_of_ascii a) (N_of_ascii b).
Proof. reflexivity. Qed.

Lemma string_compare_trans (a : string) :
  forall b c,
    String.compare a b <> Gt -> String.compare b c <> Gt ->
    String.compare a c <> Gt.
Proof.
  induction a as [|x a IH]; intros [|y b] [|z c]; cbn;
    try congruence.
  rewrite !ascii_compare_N.
  destruct (N.compare_spec (N_of_ascii x) (N_of_ascii y)) as [Hxy|Hxy|Hxy];
    destruct (N.compare_spec (N_of_ascii y) (N_of_ascii z)) as [Hyz|Hyz|Hyz];
    destruct (N.compare_spec (N_of_ascii x) (N_of_ascii z)) as [Hxz|Hxz|Hxz];
    try congruence; try lia.
  apply IH.
Qed.

Lemma string_leb_trans (a b c : string) :
  (a <=? b)%string = true -> (b <=? c)%string = true ->
  (a <=? c)%string = true.
Proof.
  unfold String.leb. intros Hab Hbc.
  pose proof (string_compare_trans a b c) as Htrans.
  destruct (String.compare a b); destruct (String.compare b c);
    destruct (String.compare a c); try reflexivity; try discriminate;
    exfalso; apply Htrans; congruence.
Qed.

Lemma insert_insert (x y : string) (l : list string) :
  Artifacts.insert x (Artifacts.insert y l)
  = Artifacts.insert y (Artifacts.insert x l).
Proof.
  induction l as [|z l IH]; cbn [Artifacts.insert].
  - destruct (x <=? y)%string eqn:Hxy, (y <=? x)%string eqn:Hyx;
      try reflexivity.
    + now rewrite (String.leb_antisym _ _ Hxy Hyx).
    + destruct (String.leb_total x y); congruence.
  - destruct (y <=? z)%string eqn:Hyz, (x <=? z)%string eqn:Hxz;
      cbn [Artifacts.insert]; rewrite ?Hyz, ?Hxz.
    + destruct (x <=? y)%string eqn:Hxy, (y <=? x)%string eqn:Hyx;
        try reflexivity.
      * now rewrite (String.leb_antisym _ _ Hxy Hyx).
      * destruct (String.leb_total x y); congruence.
    + destruct (x <=? y)%string eqn:Hxy; [|reflexivity].
      rewrite (string_leb_trans _ _ _ Hxy Hyz) in Hxz. discriminate.
    + destruct (y <=? x)%string eqn:Hyx; [|reflexivity].
      rewrite (string_leb_trans _ _ _ Hyx Hxz) in Hyz. discriminate.
    + now rewrite IH.
Qed.

Lemma sort_Permutation (l l' : list string) :
  Permutation l l' -> Artifacts.sort l = Artifacts.sort l'.
Proof.
  unfold Artifacts.sort.
  induction 1 as [|x l l' _ IH|x y l|l l' l'' _ IH1 _ IH2]; cbn [fold_right].
  - reflexivity.
  - now rewrite IH.
  - apply insert_insert.
  - now rewrite IH1.
Qed.

Lemma Permutation_filter {A} (f : A -> bool) (l l' : list A) :
  Permutation l l' -> Permutation (filter f l) (filter f l').
Proof.
  induction 1 as [|x l l' _ IH|x y l|l l' l'' _ IH1 _ IH2]; cbn [filter].
  - constructor.
  - destruct (f x); [now constructor|exact IH].
  - destruct (f x), (f y); try apply Permutation_refl. apply perm_swap.
  - now apply Permutation_trans with (filter f l').
Qed.

End StringOrder.

(** ** The key of a fact *)

Section KeyFacts.

Lemma teams_key_of_Permutation structured structured' homeTeam awayTeam
  homeTeam' awayTeam' :
  Permutation (QuerySchema.teams structured) (QuerySchema.teams structured') ->
  Permutation [homeTeam; awayTeam] [homeTeam'; awayTeam'] ->
  Artifacts.buildTeamsKey structured homeTeam awayTeam
  = Artifacts.buildTeamsKey structured' homeTeam' awayTeam'.
Proof.
  intros Hteams Hsides. unfold Artifacts.buildTeamsKey.
  rewrite <- (Permutation_length Hteams).
  assert (Hchosen :
            Permutation
              (if (0 <? List.length (QuerySchema.teams structured))%nat
               then QuerySchema.teams structured
               else Js.definedStrings [homeTeam; awayTeam])
              (if (0 <? List.length (QuerySchema.teams structured))%nat
               then QuerySchema.teams structured'
               else Js.definedStrings [homeTeam'; awayTeam'])).
  { destruct (0 <? _)%nat; [exact Hteams|].
    unfold Js.definedStrings. now apply Permutation_flat_map. }
  rewrite <- (Permutation_length Hchosen).
  destruct (_ =? 0)%nat; [reflexivity|].
  f_equal. apply sort_Permutation, Permutation_filter.
  now apply Permutation_map.
Qed.

(** X18: the teams part of a canonical key does not depend on the order in
    which the query lists its teams, nor on which team an event calls the
    home side. *)
Theorem teams_key_ignores_the_order structured structured' homeTeam awayTeam :
  Permutation (QuerySchema.teams structured) (QuerySchema.teams structured') ->
  Artifacts.buildTeamsKey structured homeTeam awayTeam
  = Artifacts.buildTeamsKey structured' awayTeam homeTeam.
Proof.
  intros Hteams. apply teams_key_of_Permutation; [exact Hteams|].
  apply perm_swap.
Qed.

Section Host.

Variable numberToString : float -> string.

(** X19: a fact that names a winner gets the same canonical key when the
    event lists the two sides the other way round, so that both reports
    fall into one group. *)
Theorem winner_fact_key_ignores_the_sides params :
  Js.truthy (Artifacts.winner params) = true ->
  option_map Resolver.canonicalKey (Artifacts.buildFact numberToString params)
  = option_map Resolver.canonicalKey
      (Artifacts.buildFact numberToString (swapSides params)).
Proof.
  intros Hwinner.
  assert (Hkey : Artifacts.buildCanonicalKey numberToString (swapSides params)
                 = Artifacts.buildCanonicalKey numberToString params).
  { unfold Artifacts.buildCanonicalKey, swapSides.
    cbn [Artifacts.structured Artifacts.homeTeam Artifacts.awayTeam
         Artifacts.category Artifacts.award Artifacts.player Artifacts.winner
         Artifacts.endTimestamp Artifacts.homeScore Artifacts.awayScore].
    rewrite (teams_key_of_Permutation (Artifacts.structured params)
               (Artifacts.structured params)
               (Artifacts.awayTeam params) (Artifacts.homeTeam params)
               (Artifacts.homeTeam params) (Artifacts.awayTeam params)
               (Permutation_refl _) (perm_swap _ _ _)).
    destruct (Artifacts.winner params) as [[|c r]|]; try discriminate.
    reflexivity. }
  unfold Artifacts.buildFact. rewrite Hkey.
  destruct (_ =? "unknown"); reflexivity.
Qed.

End Host.

End KeyFacts.

(** ** The facts read from the output of a tool *)

Section ArtifactFacts.

Variable numberToString : float -> string.
Variable toNumber : string -> float.
Variable urlHostname : string -> option string.

Lemma startsWith_append (prefix rest : string) :
  Js.startsWith (prefix ++ rest) prefix = true.
Proof.
  induction prefix as [|c prefix IH]; cbn.
  - now destruct rest.
  - now rewrite Ascii.eqb_refl.
Qed.

Lemma determineWinner_of_scores homeTeam awayTeam homeScore awayScore
  override :
  Js.truthy homeTeam = true -> Js.truthy awayTeam = true ->
  Js.truthy (Resolver.determineWinner homeTeam awayTeam (Some homeScore)
                                      (Some awayScore) override) = true.
Proof.
  intros Hhome Haway. unfold Resolver.determineWinner.
  destruct (Js.truthy override) eqn:Hoverride; [exact Hoverride|].
  destruct (awayScore <? homeScore)%float; [exact Hhome|].
  destruct (homeScore <? awayScore)%float; [exact Haway|reflexivity].
Qed.

(** What [buildFact] gives for an event of a provider: no display, no
    category, no award, no player and no reliability are handed over. *)
Lemma buildFact_of_event provider structured homeTeam awayTeam homeScore
  awayScore override status endTimestamp sourceUrl fact :
  Artifacts.buildFact numberToString
    {| Artifacts.provider := provider;
       Artifacts.structured := structured;
       Artifacts.homeTeam := homeTeam;
       Artifacts.awayTeam := awayTeam;
       Artifacts.homeScore := homeScore;
       Artifacts.awayScore := awayScore;
       Artifacts.winner :=
         Resolver.determineWinner homeTeam awayTeam homeScore awayScore
                                  override;
       Artifacts.award := None;
       Artifacts.player := None;
       Artifacts.status := status;
       Artifacts.endTimestamp := endTimestamp;
       Artifacts.sourceUrl := sourceUrl;
       Artifacts.display := None;
       Artifacts.category := None;
       Artifacts.reliabilityOverride := None |} = Some fact ->
  Resolver.provider fact = provider
  /\ Js.truthy (Resolver.winner fact) = true
  /\ Js.startsWith (Resolver.canonicalKey fact) "winner:" = true
  /\ Resolver.award fact = None
  /\ Resolver.player fact = None
  /\ Resolver.reliability fact = Artifacts.getReliabilityScore provider.
Proof.
  unfold Artifacts.buildFact, Artifacts.buildCanonicalKey.
  cbn [Artifacts.provider Artifacts.structured Artifacts.homeTeam
       Artifacts.awayTeam Artifacts.homeScore Artifacts.awayScore
       Artifacts.winner Artifacts.award Artifacts.player Artifacts.status
       Artifacts.endTimestamp Artifacts.sourceUrl Artifacts.display
       Artifacts.category Artifacts.reliabilityOverride].
  destruct (Resolver.determineWinner homeTeam awayTeam homeScore awayScore
              override) as [[|c r]|] eqn:Hwinner.
  - destruct homeTeam as [[|hc hr]|], awayTeam as [[|ac ar]|],
      homeScore as [hs|], awayScore as [aws|];
      try (cbn; discriminate).
    pose proof (determineWinner_of_scores (Some (String hc hr))
                  (Some (String ac ar)) hs aws override eq_refl eq_refl)
      as Htruthy.
    rewrite Hwinner in Htruthy. discriminate.
  - change (("winner:" ++ ?rest =? "unknown")%string) with false.
    intros Hfact. injection Hfact as <-.
    cbn [Resolver.provider Resolver.winner Resolver.canonicalKey
         Resolver.award Resolver.player Resolver.reliability].
    split; [reflexivity|]. split; [reflexivity|]. split; [|auto].
    apply (startsWith_append "winner:").
  - destruct homeTeam as [[|hc hr]|], awayTeam as [[|ac ar]|],
      homeScore as [hs|], awayScore as [aws|];
      try (cbn; discriminate).
    pose proof (determineWinner_of_scores (Some (String hc hr))
                  (Some (String ac ar)) hs aws override eq_refl eq_refl)
      as Htruthy.
    rewrite Hwinner in Htruthy. discriminate.
Qed.

Lemma eachEntry_Forall (f : Json.t -> option Resolver.NormalizedFact)
  (P : Resolver.NormalizedFact -> Prop) entries :
  (forall entry fact, f entry = Some fact -> P fact) ->
  forall facts, Artifacts.eachEntry f entries = Some facts -> Forall P facts.
Proof.
  intros Hone. unfold Artifacts.eachEntry.
  induction entries as [|entry entries IH]; cbn [fold_right]; intros facts.
  - intros Hfacts. injection Hfacts as <-. constructor.
  - destruct (fold_right _ _ entries) as [later|].
    + specialize (IH later eq_refl).
      destruct (f entry) as [fact|] eqn:Hfact;
        destruct entry; intros Hfacts; try discriminate;
        injection Hfacts as <-;
        first [constructor; [now apply (Hone _ _ Hfact)|exact IH] | exact IH].
    + destruct entry; discriminate.
Qed.

Lemma eachEntry_null (f : Json.t -> option Resolver.NormalizedFact) entries :
  In Json.Null entries -> Artifacts.eachEntry f entries = None.
Proof.
  unfold Artifacts.eachEntry.
  induction entries as [|entry entries IH]; cbn [fold_right]; [intros []|].
  intros [->|Hin]; [reflexivity|].
  rewrite (IH Hin). now destruct entry.
Qed.

Lemma eachEntry_nil (f : Json.t -> option Resolver.NormalizedFact) :
  Artifacts.eachEntry f [] = Some [].
Proof. reflexivity. Qed.

Lemma normalizeSportsDb_facts output structured artifact facts :
  Artifacts.normalizeSportsDb numberToString toNumber output structured artifact
  = Some facts ->
  Forall (factOf "THESPORTSDB") facts.
Proof.
  unfold Artifacts.normalizeSportsDb. apply eachEntry_Forall.
  intros record fact. cbv zeta.
  destruct (negb _); [discriminate|].
  destruct (Artifacts.offDate _ _); [discriminate|].
  apply buildFact_of_event.
Qed.

Lemma normalizeApiSports_facts output structured artifact provider facts :
  Artifacts.normalizeApiSports numberToString toNumber output structured
    artifact provider = Some facts ->
  Forall (factOf provider) facts.
Proof.
  unfold Artifacts.normalizeApiSports. apply eachEntry_Forall.
  intros record fact. cbv zeta.
  destruct (negb _); [discriminate|].
  destruct (Artifacts.offDate _ _); [discriminate|].
  apply buildFact_of_event.
Qed.

Lemma oddsEntry_fact output structured artifact record fact :
  Artifacts.oddsEntry numberToString toNumber output structured artifact record
  = Some (Some fact) ->
  factOf "THE_ODDS_API" fact.
Proof.
  unfold Artifacts.oddsEntry. cbv zeta.
  destruct (negb _); [discriminate|].
  destruct (Artifacts.offDate _ _); [discriminate|].
  destruct (Artifacts.readScores _ _) as [scoreMap|]; [|discriminate].
  intros Hfact. injection Hfact as Hfact. revert Hfact.
  apply buildFact_of_event.
Qed.

Lemma normalizeOdds_facts output structured artifact facts :
  Artifacts.normalizeOdds numberToString toNumber output structured artifact
  = Some facts ->
  Forall (factOf "THE_ODDS_API") facts.
Proof.
  unfold Artifacts.normalizeOdds.
  generalize (match output with
              | Json.Arr items => items
              | Json.Obj _ => Artifacts.arrayAt "data" output
              | _ => []
              end).
  intros entries. revert facts.
  induction entries as [|entry entries IH]; cbn [fold_right]; intros facts.
  - intros Hfacts. injection Hfacts as <-. constructor.
  - destruct (fold_right _ _ entries) as [later|].
    + specialize (IH later eq_refl).
      destruct (Artifacts.oddsEntry numberToString toNumber output structured
                  artifact entry) as [[fact|]|] eqn:Hfact;
        destruct entry; intros Hfacts; try discriminate;
        injection Hfacts as <-;
        first [constructor; [now apply (oddsEntry_fact _ _ _ _ _ Hfact)
                            |exact IH]
              | exact IH].
    + destruct entry; discriminate.
Qed.

Lemma normalizeRssFacts_facts items structured :
  Forall headlineFact
         (Artifacts.normalizeRssFacts numberToString urlHostname items
                                      structured).
Proof.
  unfold Artifacts.normalizeRssFacts.
  induction items as [|item items IH]; cbn [flat_map]; [constructor|].
  apply Forall_app. split; [|exact IH].
  destruct item; try constructor;
    (destruct (Artifacts.toOptionalString _) as [title|]; [|constructor]);
    cbv zeta;
    (destruct (Artifacts.buildFact _ _) as [fact|] eqn:Hfact; [|constructor]);
    (destruct (_ && _); [|constructor]);
    (constructor; [|constructor]);
    revert Hfact; unfold Artifacts.buildFact, Artifacts.buildCanonicalKey;
    cbn [Artifacts.provider Artifacts.structured Artifacts.homeTeam
         Artifacts.awayTeam Artifacts.homeScore Artifacts.awayScore
         Artifacts.winner Artifacts.award Artifacts.player Artifacts.status
         Artifacts.endTimestamp Artifacts.sourceUrl Artifacts.display
         Artifacts.category Artifacts.reliabilityOverride];
    (destruct (match Artifacts.extractOutcomeFromTitle title _ with
               | Some o => Artifacts.oe_winner o
               | None => None
               end) as [[|c r]|];
     [ destruct (match Artifacts.extractOutcomeFromTitle title _ with
                 | Some o => Artifacts.oe_homeTeam o
                 | None => None
                 end) as [[|hc hr]|];
       try discriminate;
       destruct (match Artifacts.extractOutcomeFromTitle title _ with
                 | Some o => Artifacts.oe_awayTeam o
                 | None => None
                 end) as [[|ac ar]|];
       discriminate
     | change (("winner:" ++ ?rest =? "unknown")%string) with false;
       intros Hfact; injection Hfact as <-;
       cbn [Resolver.provider Resolver.winner Resolver.canonicalKey
            Resolver.award Resolver.player Resolver.reliability];
       split; [apply (startsWith_append "rss:")|];
       split; [reflexivity|];
       split; [apply (startsWith_append "winner:")|auto]
     | destruct (match Artifacts.extractOutcomeFromTitle title _ with
                 | Some o => Artifacts.oe_homeTeam o
                 | None => None
                 end) as [[|hc hr]|];
       try discriminate;
       destruct (match Artifacts.extractOutcomeFromTitle title _ with
                 | Some o => Artifacts.oe_awayTeam o
                 | None => None
                 end) as [[|ac ar]|];
       discriminate ]).
Qed.

Lemma factOf_reported provider fact :
  In provider ["THESPORTSDB"; "API_SPORTS_SOCCER"; "API_SPORTS_BASKETBALL";
               "THE_ODDS_API"] ->
  factOf provider fact -> reported fact.
Proof.
  intros Hprovider (_ & Hwinner & Hkey & Haward & Hplayer & Hreliability).
  repeat split; try assumption. rewrite Hreliability.
  cbn in Hprovider.
  destruct Hprovider as [<-|[<-|[<-|[<-|[]]]]]; cbn; tauto.
Qed.

Lemma headlineFact_reported fact : headlineFact fact -> reported fact.
Proof.
  intros (_ & Hwinner & Hkey & Haward & Hplayer & Hreliability).
  repeat split; try assumption. rewrite Hreliability. cbn. tauto.
Qed.

(** What the facts of one artifact share: all of them are reported facts,
    and all of them carry one provider unless they were read from
    headlines. *)
Lemma normalizeArtifact_facts artifact structured facts :
  Artifacts.normalizeArtifact numberToString toNumber urlHostname artifact
                              structured = Some facts ->
  Forall reported facts
  /\ (Artifacts.tool artifact <> "rss_tool" ->
      exists provider,
        Forall (fun fact => Resolver.provider fact = provider) facts).
Proof.
  unfold Artifacts.normalizeArtifact.
  assert (Hnone : forall fs : list Resolver.NormalizedFact,
             Some [] = Some fs ->
             Forall reported fs
             /\ (Artifacts.tool artifact <> "rss_tool" ->
                 exists provider,
                   Forall (fun fact => Resolver.provider fact = provider) fs)).
  { intros fs Hfs. injection Hfs as <-. split; [constructor|].
    intros _. exists "". constructor. }
  assert (Hone : forall provider fs,
             In provider ["THESPORTSDB"; "API_SPORTS_SOCCER";
                          "API_SPORTS_BASKETBALL"; "THE_ODDS_API"] ->
             Forall (factOf provider) fs ->
             Forall reported fs
             /\ (Artifacts.tool artifact <> "rss_tool" ->
                 exists p, Forall (fun fact => Resolver.provider fact = p) fs)).
  { intros provider fs Hprovider Hfs. split.
    - eapply Forall_impl; [|exact Hfs]. intros fact.
      now apply factOf_reported.
    - intros _. exists provider. eapply Forall_impl; [|exact Hfs].
      now intros fact [Hp _]. }
  assert (Hrest : forall output,
             (let provider :=
                match Json.prop "provider" output with
                | Some (Json.Str name) => name
                | _ => Text.toUpperCase (Artifacts.tool artifact)
                end in
              if provider =? "THESPORTSDB"
              then Artifacts.normalizeSportsDb numberToString toNumber output
                     structured artifact
              else if (provider =? "API_SPORTS_SOCCER")
                      || (provider =? "API_SPORTS_BASKETBALL")
              then Artifacts.normalizeApiSports numberToString toNumber output
                     structured artifact provider
              else if provider =? "THE_ODDS_API"
              then Artifacts.normalizeOdds numberToString toNumber output
                     structured artifact
              else Some []) = Some facts ->
             Forall reported facts
             /\ (Artifacts.tool artifact <> "rss_tool" ->
                 exists p,
                   Forall (fun fact => Resolver.provider fact = p) facts)).
  { intros output. cbv zeta.
    set (provider := match Json.prop "provider" output with
                     | Some (Json.Str name) => name
                     | _ => Text.toUpperCase (Artifacts.tool artifact)
                     end).
    destruct (provider =? "THESPORTSDB") eqn:Hdb.
    { intros Hfacts. apply (Hone "THESPORTSDB"); [cbn; tauto|].
      now apply normalizeSportsDb_facts in Hfacts. }
    destruct ((provider =? "API_SPORTS_SOCCER")
              || (provider =? "API_SPORTS_BASKETBALL")) eqn:Hapi.
    { intros Hfacts. apply (Hone provider).
      - apply orb_true_iff in Hapi.
        destruct Hapi as [Hapi|Hapi]; apply String.eqb_eq in Hapi;
          rewrite Hapi; cbn; tauto.
      - now apply normalizeApiSports_facts in Hfacts. }
    destruct (provider =? "THE_ODDS_API") eqn:Hodds.
    { intros Hfacts. apply (Hone "THE_ODDS_API"); [cbn; tauto|].
      now apply normalizeOdds_facts in Hfacts. }
    apply Hnone. }
  destruct (Artifacts.error artifact) as [[|ec er]|];
    try exact (Hnone facts);
    (destruct (Artifacts.output artifact) as [output|];
     [|exact (Hnone facts)]);
    (destruct output as [|b|n|s|items|entries];
     try exact (Hnone facts);
     try exact (Hrest _);
     (destruct (Artifacts.tool artifact =? "rss_tool") eqn:Htool;
      first
        [ exact (Hrest _)
        | intros Hfacts; injection Hfacts as <-;
          split;
          [ eapply Forall_impl; [|apply normalizeRssFacts_facts];
            intros fact; apply headlineFact_reported
          | intros Hne; apply String.eqb_eq in Htool; contradiction ] ])).
Qed.

End ArtifactFacts.

Section AnalysisFacts.

Variable numberToString : float -> string.
Variable toNumber : string -> float.
Variable urlHostname : string -> option string.

Lemma normalizeAll_facts artifacts structured :
  forall facts,
    Artifacts.normalizeAll numberToString toNumber urlHostname artifacts
                           structured = Some facts ->
    Forall reported facts
    /\ ((forall artifact, In artifact artifacts ->
                          Artifacts.tool artifact <> "rss_tool") ->
        exists providers,
          (List.length providers <= List.length artifacts)%nat
          /\ Forall (fun fact => In (Resolver.provider fact) providers) facts).
Proof.
  unfold Artifacts.normalizeAll.
  induction artifacts as [|artifact artifacts IH]; cbn [fold_right];
    intros facts.
  - intros Hfacts. injection Hfacts as <-. split; [constructor|].
    intros _. exists []. split; [apply Nat.le_refl|constructor].
  - destruct (Artifacts.normalizeArtifact _ _ _ artifact structured)
      as [first|] eqn:Hfirst; [|discriminate].
    destruct (fold_right _ _ artifacts) as [more|]; [|discriminate].
    intros Hfacts. injection Hfacts as <-.
    destruct (IH more eq_refl) as [Hmore Hproviders].
    destruct (normalizeArtifact_facts _ _ _ _ _ _ Hfirst) as [Hreported Hone].
    split; [apply Forall_app; now split|].
    intros Htools.
    destruct (Hone (Htools artifact (or_introl eq_refl))) as [provider Hp].
    destruct (Hproviders (fun a Ha => Htools a (or_intror Ha)))
      as (providers & Hlength & Hin).
    exists (provider :: providers). split; [cbn; lia|].
    apply Forall_app. split.
    + eapply Forall_impl; [|exact Hp]. intros fact <-. now left.
    + eapply Forall_impl; [|exact Hin]. intros fact Hfact. now right.
Qed.

(** X20: every fact read from the artifacts carries a winner that is not
    empty and has a [winner:] key: no fact has a [score:] or an [award:]
    key, none carries an award or a player, and the reliabilities are 0.85,
    0.95, 0.9 and 0.6. *)
Theorem facts_of_artifacts_name_a_winner artifacts structured analysis :
  Artifacts.analyzeArtifacts numberToString toNumber urlHostname artifacts
                             structured = Some analysis ->
  Forall reported (Resolver.normalizedFacts analysis).
Proof.
  unfold Artifacts.analyzeArtifacts.
  destruct (Artifacts.normalizeAll _ _ _ artifacts structured) as [facts|]
    eqn:Hfacts; [|discriminate].
  intros Hanalysis. injection Hanalysis as <-.
  cbn [Resolver.analyzeArtifacts Resolver.normalizedFacts].
  now destruct (normalizeAll_facts _ _ _ Hfacts).
Qed.

(** X21: an output object without a list under [events], [results],
    [response] or [data] gives no fact, whatever else it holds. *)
Theorem output_without_lists_gives_no_fact artifact structured entries :
  Artifacts.output artifact = Some (Json.Obj entries) ->
  (forall key, In key ["events"; "results"; "response"; "data"] ->
               Json.lookup key entries = None) ->
  Artifacts.normalizeArtifact numberToString toNumber urlHostname artifact
                              structured = Some [].
Proof.
  intros Houtput Hkeys. unfold Artifacts.normalizeArtifact. rewrite Houtput.
  assert (Hlist : forall key,
             In key ["events"; "results"; "response"; "data"] ->
             Artifacts.arrayAt key (Json.Obj entries) = []).
  { intros key Hkey. unfold Artifacts.arrayAt. cbn [Json.prop].
    now rewrite (Hkeys key Hkey). }
  assert (Hrest :
            (let provider :=
               match Json.prop "provider" (Json.Obj entries) with
               | Some (Json.Str name) => name
               | _ => Text.toUpperCase (Artifacts.tool artifact)
               end in
             if provider =? "THESPORTSDB"
             then Artifacts.normalizeSportsDb numberToString toNumber
                    (Json.Obj entries) structured artifact
             else if (provider =? "API_SPORTS_SOCCER")
                     || (provider =? "API_SPORTS_BASKETBALL")
             then Artifacts.normalizeApiSports numberToString toNumber
                    (Json.Obj entries) structured artifact provider
             else if provider =? "THE_ODDS_API"
             then Artifacts.normalizeOdds numberToString toNumber
                    (Json.Obj entries) structured artifact
             else Some []) = Some []).
  { cbv zeta.
    unfold Artifacts.normalizeSportsDb, Artifacts.normalizeApiSports,
      Artifacts.normalizeOdds.
    rewrite !Hlist by (cbn; tauto).
    destruct (_ =? "THESPORTSDB"); [reflexivity|].
    destruct (_ || _); [reflexivity|].
    destruct (_ =? "THE_ODDS_API"); reflexivity. }
  destruct (Artifacts.error artifact) as [[|ec er]|]; try reflexivity;
    destruct (Artifacts.tool artifact =? "rss_tool"); exact Hrest.
Qed.

(** X22: a [null] among the entries of a provider's list makes the
    analysis throw: the query is rejected, whatever the other artifacts
    hold. *)
Theorem null_entry_rejects_the_analysis artifacts structured artifact entries
  provider :
  In artifact artifacts ->
  Js.truthy (Artifacts.error artifact) = false ->
  Artifacts.output artifact = Some (Json.Obj entries) ->
  Json.lookup "provider" entries = Some (Json.Str provider) ->
  (provider = "THESPORTSDB"
   /\ In Json.Null (Artifacts.arrayAt "events" (Json.Obj entries)
                    ++ Artifacts.arrayAt "results" (Json.Obj entries)))
  \/ ((provider = "API_SPORTS_SOCCER" \/ provider = "API_SPORTS_BASKETBALL")
      /\ In Json.Null (Artifacts.arrayAt "response" (Json.Obj entries)))
  \/ (provider = "THE_ODDS_API"
      /\ In Json.Null (Artifacts.arrayAt "data" (Json.Obj entries))) ->
  Artifacts.analyzeArtifacts numberToString toNumber urlHostname artifacts
                             structured = None.
Proof.
  intros Hin Herror Houtput Hprovider Hnull.
  assert (Hthrows :
            Artifacts.normalizeArtifact numberToString toNumber urlHostname
              artifact structured = None).
  { unfold Artifacts.normalizeArtifact. rewrite Houtput.
    cbn [Json.prop]. rewrite Hprovider.
    assert (Hrest :
              (if provider =? "THESPORTSDB"
               then Artifacts.normalizeSportsDb numberToString toNumber
                      (Json.Obj entries) structured artifact
               else if (provider =? "API_SPORTS_SOCCER")
                       || (provider =? "API_SPORTS_BASKETBALL")
               then Artifacts.normalizeApiSports numberToString toNumber
                      (Json.Obj entries) structured artifact provider
               else if provider =? "THE_ODDS_API"
               then Artifacts.normalizeOdds numberToString toNumber
                      (Json.Obj entries) structured artifact
               else Some []) = None).
    { destruct Hnull as [[-> Hnull]|[[[-> | ->] Hnull]|[-> Hnull]]];
        cbn [String.eqb Ascii.eqb Bool.eqb orb andb].
      - now apply eachEntry_null.
      - now apply eachEntry_null.
      - now apply eachEntry_null.
      - unfold Artifacts.normalizeOdds.
        induction (Artifacts.arrayAt "data" (Json.Obj entries))
          as [|entry others IH]; [destruct Hnull|].
        cbn [fold_right]. destruct Hnull as [->|Hnull]; [reflexivity|].
        rewrite (IH Hnull). now destruct entry. }
    destruct (Artifacts.error artifact) as [[|ec er]|]; try discriminate;
      destruct (Artifacts.tool artifact =? "rss_tool"); exact Hrest. }
  unfold Artifacts.analyzeArtifacts, Artifacts.normalizeAll.
  induction artifacts as [|a artifacts IH]; [destruct Hin|].
  cbn [fold_right]. destruct Hin as [->|Hin].
  - now rewrite Hthrows.
  - destruct (Artifacts.normalizeArtifact _ _ _ a structured);
      [|reflexivity].
    specialize (IH Hin).
    destruct (fold_right _ _ artifacts); [discriminate|reflexivity].
Qed.

End AnalysisFacts.

(** ** Headlines *)

Section HeadlineFacts.

Lemma namedTeams_In teams team :
  In team (Artifacts.namedTeams teams) ->
  In (fst team) teams
  /\ snd team = Resolver.normalizeTeamName (Some (fst team))
  /\ snd team <> "".
Proof.
  unfold Artifacts.namedTeams. intros Hin. apply filter_In in Hin.
  destruct Hin as [Hin Hlength]. apply in_map_iff in Hin.
  destruct Hin as (name & <- & Hname). cbn [fst snd] in *.
  repeat split; [exact Hname|].
  intros Hempty. rewrite Hempty in Hlength. discriminate.
Qed.

(** X23: the winner read from a headline is a team of the query, written
    as the query writes it; it is reported as the home side, and the away
    side, where one is found, is a team of the query too. *)
Theorem headline_winner_is_a_team_of_the_query title teams outcome :
  Artifacts.extractOutcomeFromTitle title teams = Some outcome ->
  exists winner,
    Artifacts.oe_winner outcome = Some winner
    /\ Artifacts.oe_homeTeam outcome = Some winner
    /\ In winner teams
    /\ Resolver.normalizeTeamName (Some winner) <> ""
    /\ (forall away, Artifacts.oe_awayTeam outcome = Some away ->
                     In away teams).
Proof.
  unfold Artifacts.extractOutcomeFromTitle.
  set (named := Artifacts.namedTeams teams).
  destruct named as [|team others] eqn:Hnamed; [discriminate|].
  rewrite <- Hnamed.
  destruct (_ <? _)%nat; [discriminate|].
  induction Artifacts.RESULT_WORDS as [|keyword keywords IH];
    cbn [fold_right]; [discriminate|].
  destruct (Regex.exec (Artifacts.leadingOf keyword) title) as [first|];
    [|exact IH].
  destruct (Regex.exec (Artifacts.trailingOf keyword) title) as [second|];
    [|exact IH].
  destruct (Regex.group1 first) as [group1|]; [|exact IH].
  destruct (Regex.group1 second) as [group2|]; [|exact IH].
  cbv zeta.
  destruct (find _ named) as [winnerCandidate|] eqn:Hfind; [|exact IH].
  intros Houtcome. injection Houtcome as <-.
  cbn [Artifacts.oe_winner Artifacts.oe_homeTeam Artifacts.oe_awayTeam].
  apply find_some in Hfind. destruct Hfind as [Hin _].
  destruct (namedTeams_In _ _ Hin) as (Hteam & Hnormal & Hnonempty).
  exists (fst winnerCandidate). repeat split; try assumption.
  - now rewrite <- Hnormal.
  - intros away Haway.
    destruct (find _ named) as [awayCandidate|] eqn:Hfind; [|discriminate].
    injection Haway as <-. apply find_some in Hfind.
    now destruct (namedTeams_In _ _ (proj1 Hfind)).
Qed.

End HeadlineFacts.

(** ** From the query to the result *)

Section ResolveFacts.

Variable now : Z.
Variable dateParse : string -> option Z.
Variable numberToString : float -> string.
Variable toNumber : string -> float.
Variable urlHostname : string -> option string.
Variable detectIsoDate : string -> option string.
Variable summarizeWithModel :
  string -> QuerySchema.StructuredQuery -> string -> Resolver.SummaryContext ->
  option Resolver.ModelSummary.
Variable planner : QuerySchema.StructuredQuery -> list string -> option string.
Variable invoke : string -> DeepAgent.ToolInput -> DeepAgent.ToolOutcome.
Variable chatModelBuilt : bool.
Variable logResolution : string -> Resolve.ResolutionResult -> bool.

Lemma filterFinalFacts_incl facts :
  incl (Resolver.filterFinalFacts facts) facts.
Proof.
  unfold Resolver.filterFinalFacts.
  destruct (filter _ facts) as [|fact finals] eqn:Hfinals;
    [apply incl_refl|].
  rewrite <- Hfinals. intros x Hx. apply filter_In in Hx. tauto.
Qed.

Lemma accepted_group_facts facts group :
  Resolver.selectAcceptedGroup (Resolver.groupFacts facts) = Some group ->
  incl (Resolver.facts group) facts.
Proof.
  rewrite selectAcceptedGroup_fold. intros Hfold.
  destruct (fold_choose_In _ _ _ Hfold) as [Hin|Hbest]; [|discriminate].
  apply groupFacts_values in Hin. destruct Hin as (k & _ & _ & ->).
  cbn [Resolver.facts]. unfold factsOf.
  intros x Hx. apply filter_In in Hx. tauto.
Qed.

(** With the facts of fewer than three providers nothing is decided. *)
Lemma few_providers_decide_nothing query structured agentSummary facts errs
  providers :
  (List.length providers < 3)%nat ->
  Forall (fun fact => In (Resolver.provider fact) providers) facts ->
  let decision :=
    Resolver.decideResolution now dateParse numberToString summarizeWithModel
      query structured agentSummary (Resolver.analyzeArtifacts facts errs) in
  Resolver.resolution decision = "insufficient_data"
  /\ (Resolver.confidence decision = 0.25%float
      \/ Resolver.confidence decision = 0.3%float)
  /\ Resolver.sources decision = [].
Proof.
  intros Hfew Hproviders. cbv zeta. unfold Resolver.decideResolution.
  cbn [Resolver.analyzeArtifacts Resolver.acceptedGroup Resolver.errors
       Resolver.groups].
  destruct (Resolver.selectAcceptedGroup (Resolver.groupFacts facts))
    as [group|] eqn:Hgroup; [|cbn; tauto].
  assert (Hcount :
            (Resolver.countDistinctProviders
               (Resolver.filterFinalFacts (Resolver.facts group))
             <? Resolver.MIN_CORROBORATING_PROVIDERS)%nat = true).
  { apply Nat.ltb_lt. unfold Resolver.countDistinctProviders,
      Resolver.MIN_CORROBORATING_PROVIDERS.
    apply Nat.le_lt_trans with (List.length providers); [|exact Hfew].
    apply NoDup_incl_length; [apply dedupe_NoDup|].
    intros name Hname. apply (proj1 (dedupe_In _ _)) in Hname.
    apply in_map_iff in Hname.
    destruct Hname as (fact & <- & Hfact).
    apply filterFinalFacts_incl in Hfact.
    apply (accepted_group_facts _ _ Hgroup) in Hfact.
    rewrite Forall_forall in Hproviders. now apply Hproviders. }
  rewrite Hcount. cbn. tauto.
Qed.

Lemma selectInputs_length candidates planning :
  (List.length (DeepAgent.selectInputs candidates planning)
   <= List.length candidates)%nat.
Proof.
  unfold DeepAgent.selectInputs.
  destruct planning as [rawContent|]; [|apply Nat.le_refl].
  destruct (DeepAgent.namesIn rawContent); [apply Nat.le_refl|].
  destruct (filter _ candidates) as [|entry filtered] eqn:Hfilter;
    [apply Nat.le_refl|].
  rewrite <- Hfilter. apply filter_length_le.
Qed.

Lemma runDeepAgent_artifacts structured originalQuery :
  let artifacts :=
    fst (DeepAgent.runDeepAgent planner invoke numberToString structured
                                originalQuery) in
  (List.length artifacts
   <= List.length (DeepAgent.candidateInputs structured originalQuery))%nat
  /\ (forall artifact, In artifact artifacts ->
        In (Artifacts.tool artifact)
           [DeepAgent.SerpApiTool; DeepAgent.ApiSportsSoccerTool;
            DeepAgent.TheOddsScoresTool])
  /\ (forall artifact, In artifact artifacts ->
        exists tool input,
          Artifacts.tool artifact = tool
          /\ match invoke tool input with
             | DeepAgent.Returned output =>
                 Artifacts.output artifact = output
                 /\ Artifacts.error artifact = None
             | DeepAgent.Failed message =>
                 Artifacts.output artifact = None
                 /\ Artifacts.error artifact = Some message
             end).
Proof.
  cbv zeta. unfold DeepAgent.runDeepAgent. cbn [fst].
  set (candidates := DeepAgent.candidateInputs structured originalQuery).
  set (selected := DeepAgent.selectInputs candidates _).
  split; [|split].
  - rewrite length_map. apply selectInputs_length.
  - intros artifact Hin. apply in_map_iff in Hin.
    destruct Hin as ([tool input] & <- & Hin).
    apply (proj1 (selectInputs_narrows candidates _)) in Hin.
    destruct (candidateInputs_names structured originalQuery)
      as (serp & soccer & odds & Hnames).
    assert (Htool : In tool (map fst candidates))
      by (apply in_map_iff; now exists (tool, input)).
    fold candidates in Hnames. rewrite Hnames in Htool.
    assert (Hartifact :
              Artifacts.tool
                (match invoke tool input with
                 | DeepAgent.Returned output =>
                     {| Artifacts.tool := tool; Artifacts.output := output;
                        Artifacts.error := None |}
                 | DeepAgent.Failed message =>
                     {| Artifacts.tool := tool; Artifacts.output := None;
                        Artifacts.error := Some message |}
                 end) = tool)
      by now destruct (invoke tool input).
    rewrite Hartifact.
    destruct serp, soccer, odds; cbn in Htool |- *; tauto.
  - intros artifact Hin. apply in_map_iff in Hin.
    destruct Hin as ([tool input] & <- & _).
    exists tool, input. destruct (invoke tool input); cbn; tauto.
Qed.

Lemma undated_candidates structured originalQuery :
  Js.truthy (QuerySchema.date structured) = false ->
  (List.length (DeepAgent.candidateInputs structured originalQuery) < 3)%nat.
Proof.
  intros Hdate. unfold DeepAgent.candidateInputs. rewrite !length_app.
  destruct (DeepAgent.serpQuery structured originalQuery) as [[|c r]|];
    destruct (_ || _);
    destruct (QuerySchema.date structured) as [[|dc dr]|];
    try discriminate; cbn; lia.
Qed.

Lemma structured_date query structured :
  QuerySchema.parseQueryToStructuredRequest detectIsoDate query
    (Some (Utils.extractQueryMetadata detectIsoDate query)) = Some structured ->
  QuerySchema.date structured
  = detectIsoDate (Js.toLowerCase (Js.trim query)).
Proof.
  unfold QuerySchema.parseQueryToStructuredRequest.
  destruct (QuerySchema.schemaAccepts _); [|discriminate].
  intros Hstructured. injection Hstructured as <-. reflexivity.
Qed.

(** X24: a query in which no date is found cannot be resolved: at most two
    tools are asked, each artifact carries one provider, and three are
    needed.  What [resolveQuery] returns is [insufficient_data] with
    confidence 0.25 or 0.3 and no source. *)
Theorem undated_query_is_not_resolved query result :
  detectIsoDate (Js.toLowerCase (Js.trim query)) = None ->
  Resolve.resolveQuery now dateParse numberToString toNumber urlHostname
    detectIsoDate summarizeWithModel planner invoke chatModelBuilt
    logResolution query = inr result ->
  Resolve.resolution result = "insufficient_data"
  /\ (Resolve.confidence result = 0.25%float \/ Resolve.confidence result = 0.3%float)
  /\ Resolve.sources result = [].
Proof.
  intros Hnodate. unfold Resolve.resolveQuery.
  destruct (QuerySchema.parseQueryToStructuredRequest _ _ _)
    as [structured|] eqn:Hparse; [|discriminate].
  destruct (negb chatModelBuilt); [discriminate|].
  pose proof (runDeepAgent_artifacts structured None) as Hrun.
  destruct (DeepAgent.runDeepAgent planner invoke numberToString structured
              None) as [artifacts summary].
  cbv zeta in Hrun. cbn [fst] in Hrun.
  destruct Hrun as (Hlength & Htools & _).
  unfold Artifacts.analyzeArtifacts.
  destruct (Artifacts.normalizeAll _ _ _ artifacts structured) as [facts|]
    eqn:Hfacts; [|discriminate].
  cbn [option_map].
  destruct (logResolution _ _); [|discriminate].
  intros Hresult. injection Hresult as <-.
  cbn [Resolve.buildResult Resolve.resolution Resolve.confidence
       Resolve.sources].
  destruct (normalizeAll_facts _ _ _ _ _ _ Hfacts) as [_ Hproviders].
  destruct Hproviders as (providers & Hcount & Hin).
  { intros artifact Hartifact Hrss.
    specialize (Htools artifact Hartifact). rewrite Hrss in Htools.
    cbn in Htools. intuition discriminate. }
  apply few_providers_decide_nothing with (providers := providers);
    [|exact Hin].
  pose proof (structured_date _ _ Hparse) as Hdate.
  rewrite Hnodate in Hdate.
  assert (Hfew := undated_candidates structured None).
  rewrite Hdate in Hfew. specialize (Hfew eq_refl). lia.
Qed.

(** X25: when every tool throws, the query is answered with
    [insufficient_data] at the baseline confidence 0.25, without a source;
    the summarizing model is not consulted. *)
Theorem failed_tools_give_the_baseline query result :
  (forall tool input, exists message,
      invoke tool input = DeepAgent.Failed message) ->
  Resolve.resolveQuery now dateParse numberToString toNumber urlHostname
    detectIsoDate summarizeWithModel planner invoke chatModelBuilt
    logResolution query = inr result ->
  Resolve.resolution result = "insufficient_data"
  /\ Resolve.confidence result = 0.25%float
  /\ Resolve.reasoning result
     = "Insufficient corroboration from independent sources."
  /\ Resolve.sources result = [].
Proof.
  intros Hfail. unfold Resolve.resolveQuery.
  destruct (QuerySchema.parseQueryToStructuredRequest _ _ _)
    as [structured|]; [|discriminate].
  destruct (negb chatModelBuilt); [discriminate|].
  pose proof (runDeepAgent_artifacts structured None) as Hrun.
  destruct (DeepAgent.runDeepAgent planner invoke numberToString structured
              None) as [artifacts summary].
  cbv zeta in Hrun. cbn [fst] in Hrun.
  destruct Hrun as (_ & _ & Hinvoked).
  assert (Hnone :
            Artifacts.normalizeAll numberToString toNumber urlHostname
              artifacts structured = Some []).
  { unfold Artifacts.normalizeAll.
    induction artifacts as [|artifact artifacts IH]; [reflexivity|].
    cbn [fold_right].
    rewrite (IH (fun a Ha => Hinvoked a (or_intror Ha))).
    destruct (Hinvoked artifact (or_introl eq_refl))
      as (tool & input & _ & Hartifact).
    destruct (Hfail tool input) as [message Hmessage].
    rewrite Hmessage in Hartifact. destruct Hartifact as [Houtput Herror].
    unfold Artifacts.normalizeArtifact. rewrite Houtput, Herror.
    now destruct message. }
  unfold Artifacts.analyzeArtifacts. rewrite Hnone. cbn [option_map].
  destruct (logResolution _ _); [|discriminate].
  intros Hresult. injection Hresult as <-.
  cbn. tauto.
Qed.

(** X26: the schema check of [resolveQuery] fails exactly when a date is
    found in the query that holds no run of four digits, a dash, two
    digits, a dash and two digits; the bound on the teams cannot fail. *)
Theorem schema_check_fails_only_on_the_date query :
  QuerySchema.parseQueryToStructuredRequest detectIsoDate query
    (Some (Utils.extractQueryMetadata detectIsoDate query)) = None
  <-> exists date,
      detectIsoDate (Js.toLowerCase (Js.trim query)) = Some date
      /\ Regex.test QuerySchema.schemaDateRegex date = false.
Proof.
  unfold QuerySchema.parseQueryToStructuredRequest, QuerySchema.schemaAccepts.
  cbn [QuerySchema.date QuerySchema.teams Utils.date Utils.teams
       Utils.extractQueryMetadata].
  set (teams := Js.slice0 2 _).
  assert (Hteams : (List.length teams <=? 4)%nat = true).
  { apply Nat.leb_le. subst teams. unfold Js.slice0.
    rewrite length_firstn. lia. }
  rewrite Hteams, andb_true_r.
  destruct (detectIsoDate (Js.toLowerCase (Js.trim query))) as [date|].
  - destruct (Regex.test QuerySchema.schemaDateRegex date) eqn:Htest.
    + split; [discriminate|]. intros (d & Hd & Hbad).
      injection Hd as <-. congruence.
    + split; [|reflexivity]. intros _. now exists date.
  - split; [discriminate|]. intros (d & Hd & _). discriminate.
Qed.

End ResolveFacts.

(** ** Final facts *)

Section FinalFacts.

Lemma filter_filter_same {A} (f : A -> bool) (l : list A) :
  filter f (filter f l) = filter f l.
Proof.
  induction l as [|x l IH]; [reflexivity|].
  cbn [filter]. destruct (f x) eqn:Hx; [|exact IH].
  cbn [filter]. now rewrite Hx, IH.
Qed.

(** X27: [filterFinalFacts] keeps a part of the facts, in their order; it
    never empties a list that holds a fact, and filtering a second time
    changes nothing. *)
Theorem filterFinalFacts_is_a_stable_selection facts :
  incl (Resolver.filterFinalFacts facts) facts
  /\ (Resolver.filterFinalFacts facts = [] -> facts = [])
  /\ Resolver.filterFinalFacts (Resolver.filterFinalFacts facts)
     = Resolver.filterFinalFacts facts.
Proof.
  split; [|split].
  - unfold Resolver.filterFinalFacts.
    destruct (filter _ facts) as [|fact finals] eqn:Hfinals;
      [apply incl_refl|].
    rewrite <- Hfinals. intros x Hx. apply filter_In in Hx. tauto.
  - unfold Resolver.filterFinalFacts.
    destruct (filter _ facts) as [|fact finals]; [auto|discriminate].
  - unfold Resolver.filterFinalFacts at 2.
    destruct (filter _ facts) as [|fact finals] eqn:Hfinals.
    + unfold Resolver.filterFinalFacts. now rewrite Hfinals.
    + unfold Resolver.filterFinalFacts. rewrite <- Hfinals.
      rewrite filter_filter_same. now rewrite Hfinals.
Qed.

End FinalFacts.

(** ** The properties at work on the examples *)

Lemma normalized_statistic_has_the_source_of_its_response_witness :
  exists response payload,
    In (response, payload) Samples.bareAnswers
    /\ NormalizedStatistic.sources (Scenarios.buildStat "OPTA_STATS" 4 1)
       = [sourceOf response 4]
    /\ NormalizedStatistic.unit (Scenarios.buildStat "OPTA_STATS" 4 1)
       = StatisticUnit.count.
Proof.
  apply (normalized_statistic_has_the_source_of_its_response
           Samples.bareAnswers Scenarios.yellowCardsQuery
           (Scenarios.buildStat "OPTA_STATS" 4 1)).
  left. reflexivity.
Defined.

Lemma agreement_and_outliers_add_up_witness :
  exists c,
    Consensus.computeStatisticConsensus Scenarios.power Scenarios.threeAgree
                                        Scenarios.yellowCardsQuery = Some c
    /\ StatisticConsensus.agreementCount c = 3%nat
    /\ (StatisticConsensus.agreementCount c
        + List.length (StatisticConsensus.outliers c) = 4)%nat.
Proof.
  destruct (Consensus.computeStatisticConsensus Scenarios.power
              Scenarios.threeAgree Scenarios.yellowCardsQuery) as [c|] eqn:Hc;
    [|vm_compute in Hc; discriminate].
  exists c. split; [reflexivity|]. split.
  - vm_compute in Hc. injection Hc as <-. reflexivity.
  - rewrite (agreement_and_outliers_add_up Scenarios.power Scenarios.threeAgree
               Scenarios.yellowCardsQuery c Hc).
    + reflexivity.
    + intros v Hv. vm_compute in Hv.
      destruct Hv as [<-|[<-|[<-|[<-|[]]]]]; reflexivity.
Defined.

Lemma consensus_unit_follows_the_query_type_witness :
  exists c,
    Consensus.computeStatisticConsensus Scenarios.power
      (Normalization.deriveNormalizedStatistics Samples.bareAnswers
                                                Scenarios.yellowCardsQuery)
      Scenarios.yellowCardsQuery = Some c
    /\ StatisticConsensus.unit c = StatisticUnit.count.
Proof.
  destruct (Consensus.computeStatisticConsensus Scenarios.power
              (Normalization.deriveNormalizedStatistics Samples.bareAnswers
                                                        Scenarios.yellowCardsQuery)
              Scenarios.yellowCardsQuery) as [c|] eqn:Hc;
    [|vm_compute in Hc; discriminate].
  exists c. split; [reflexivity|].
  rewrite (consensus_unit_follows_the_query_type Scenarios.power
             Samples.bareAnswers
             Scenarios.yellowCardsQuery c Hc).
  reflexivity.
Defined.

Lemma agreed_consensus_has_an_official_source_witness :
  exists c,
    Consensus.computeStatisticConsensus Scenarios.power
      (Normalization.deriveNormalizedStatistics Samples.bareAnswers
                                                Scenarios.yellowCardsQuery)
      Scenarios.yellowCardsQuery = Some c
    /\ StatisticConsensus.agreed c = true
    /\ StatisticConsensus.officialSourcePresent c = true.
Proof.
  destruct (Consensus.computeStatisticConsensus Scenarios.power
              (Normalization.deriveNormalizedStatistics Samples.bareAnswers
                                                        Scenarios.yellowCardsQuery)
              Scenarios.yellowCardsQuery) as [c|] eqn:Hc;
    [|vm_compute in Hc; discriminate].
  exists c. split; [reflexivity|].
  assert (Hagreed : StatisticConsensus.agreed c = true)
    by (vm_compute in Hc; injection Hc as <-; reflexivity).
  split; [exact Hagreed|].
  refine (proj2 (agreed_consensus_has_an_official_source Scenarios.power
                   Samples.bareAnswers Scenarios.yellowCardsQuery c _ Hc)
                Hagreed).
  apply Forall_cons; [|apply Forall_cons; [|apply Forall_cons;
                                             [|apply Forall_nil]]];
    unfold configured; cbn.
  - right. left. reflexivity.
  - left. reflexivity.
  - do 5 right. left. reflexivity.
Defined.

Lemma listed_statistics_are_normalized_twice_witness :
  exists before between after,
    Normalization.deriveNormalizedStatistics
      [(Scenarios.optaResponse, Json.Obj Samples.listedEntries)]
      Scenarios.yellowCardsQuery
    = before
      ++ [Scenarios.buildStat "OPTA_STATS" 4 1]
      ++ between
      ++ [Scenarios.buildStat "OPTA_STATS" 4 1]
      ++ after.
Proof.
  apply (listed_statistics_are_normalized_twice Scenarios.optaResponse
           Scenarios.yellowCardsQuery "statistics" Samples.listedEntries
           Samples.listedStatistics).
  - left. reflexivity.
  - reflexivity.
Defined.

Lemma unanimous_statistics_count_in_full_witness :
  exists c,
    Consensus.computeStatisticConsensus Scenarios.power Samples.allAgree
                                        Scenarios.yellowCardsQuery = Some c
    /\ StatisticConsensus.agreedValue c = Some 4%float
    /\ StatisticConsensus.agreementCount c = 3%nat
    /\ StatisticConsensus.outliers c = []
    /\ StatisticConsensus.agreed c = true.
Proof.
  destruct (unanimous_statistics_count_in_full Scenarios.power Samples.allAgree
              Scenarios.yellowCardsQuery 4)
    as (c & Hc & Hvalue & Hcount & Hout & Hagreed).
  - vm_compute. discriminate.
  - reflexivity.
  - intros stat Hin. vm_compute in Hin.
    destruct Hin as [<-|[<-|[<-|[]]]]; reflexivity.
  - exists c. split; [exact Hc|]. split; [exact Hvalue|].
    split; [exact Hcount|]. split; [exact Hout|].
    apply Hagreed. split; [vm_compute; lia|]. split.
    + exists {| StatisticSource.source := "OPTA_STATS";
                StatisticSource.tier := 1;
                StatisticSource.weight := 0.45;
                StatisticSource.parsedValue := Some 4%float;
                StatisticSource.timestamp := Some Scenarios.clockNow |}.
      split.
      * right. left. reflexivity.
      * left. reflexivity.
    + vm_compute in Hc. injection Hc as <-. vm_compute. reflexivity.
Defined.

Lemma teams_key_ignores_the_order_witness :
  Artifacts.buildTeamsKey Scenarios.didArsenalWin (Some "Arsenal")
                          (Some "Chelsea") = "arsenal|chelsea"
  /\ Artifacts.buildTeamsKey Samples.didChelseaLose (Some "Chelsea")
                             (Some "Arsenal") = "arsenal|chelsea".
Proof.
  split; [reflexivity|].
  rewrite <- (teams_key_ignores_the_order Scenarios.didArsenalWin
                Samples.didChelseaLose (Some "Arsenal") (Some "Chelsea")
                (perm_swap "Chelsea" "Arsenal" [])).
  reflexivity.
Defined.

Lemma winner_fact_key_ignores_the_sides_witness :
  option_map Resolver.canonicalKey
    (Artifacts.buildFact Scenarios.printInteger Samples.arsenalWon)
  = Some Scenarios.arsenalKey
  /\ option_map Resolver.canonicalKey
       (Artifacts.buildFact Scenarios.printInteger
                            (swapSides Samples.arsenalWon))
     = Some Scenarios.arsenalKey.
Proof.
  split; [reflexivity|].
  rewrite <- (winner_fact_key_ignores_the_sides Scenarios.printInteger
                Samples.arsenalWon eq_refl).
  reflexivity.
Defined.

Lemma facts_of_artifacts_name_a_winner_witness :
  exists analysis,
    Artifacts.analyzeArtifacts Scenarios.printInteger Samples.toNumber
      Samples.hostOfUrl [Samples.eventsAtTop] Scenarios.didArsenalWin
    = Some analysis
    /\ List.length (Resolver.normalizedFacts analysis) = 1%nat
    /\ Forall reported (Resolver.normalizedFacts analysis).
Proof.
  destruct (Artifacts.analyzeArtifacts Scenarios.printInteger Samples.toNumber
              Samples.hostOfUrl [Samples.eventsAtTop] Scenarios.didArsenalWin)
    as [analysis|] eqn:Hanalysis; [|vm_compute in Hanalysis; discriminate].
  exists analysis. split; [reflexivity|]. split.
  - vm_compute in Hanalysis. injection Hanalysis as <-. reflexivity.
  - exact (facts_of_artifacts_name_a_winner Scenarios.printInteger
             Samples.toNumber Samples.hostOfUrl [Samples.eventsAtTop]
             Scenarios.didArsenalWin analysis Hanalysis).
Defined.

Lemma output_without_lists_gives_no_fact_witness :
  Artifacts.normalizeArtifact Scenarios.printInteger Samples.toNumber
    Samples.hostOfUrl Samples.eventsInPayload Scenarios.didArsenalWin
  = Some [].
Proof.
  apply (output_without_lists_gives_no_fact Scenarios.printInteger
           Samples.toNumber Samples.hostOfUrl Samples.eventsInPayload
           Scenarios.didArsenalWin Samples.evidenceEntries).
  - reflexivity.
  - intros key [<-|[<-|[<-|[<-|[]]]]]; reflexivity.
Defined.

Lemma null_entry_rejects_the_analysis_witness :
  Artifacts.analyzeArtifacts Scenarios.printInteger Samples.toNumber
    Samples.hostOfUrl [Samples.eventsAtTop; Samples.eventsWithNull]
    Scenarios.didArsenalWin
  = None.
Proof.
  apply (null_entry_rejects_the_analysis Scenarios.printInteger
           Samples.toNumber Samples.hostOfUrl
           [Samples.eventsAtTop; Samples.eventsWithNull]
           Scenarios.didArsenalWin Samples.eventsWithNull Samples.nullEntries
           "THESPORTSDB").
  - right. left. reflexivity.
  - reflexivity.
  - reflexivity.
  - reflexivity.
  - left. split; [reflexivity|]. right. left. reflexivity.
Defined.

Lemma headline_winner_is_a_team_of_the_query_witness :
  exists outcome winner,
    Artifacts.extractOutcomeFromTitle "Lakers beat Celtics in overtime"
                                      ["lakers"; "celtics"] = Some outcome
    /\ Artifacts.oe_winner outcome = Some winner
    /\ In winner ["lakers"; "celtics"].
Proof.
  destruct (Artifacts.extractOutcomeFromTitle "Lakers beat Celtics in overtime"
              ["lakers"; "celtics"]) as [outcome|] eqn:Houtcome;
    [|vm_compute in Houtcome; discriminate].
  destruct (headline_winner_is_a_team_of_the_query _ _ outcome Houtcome)
    as (winner & Hwinner & _ & Hin & _).
  exists outcome, winner. split; [reflexivity|]. split; assumption.
Defined.

Lemma undated_query_is_not_resolved_witness :
  exists result,
    Samples.resolveUndated Samples.oneToolUp "Did the Lakers beat the Celtics?"
    = inr result
    /\ Resolve.resolution result = "insufficient_data"
    /\ (Resolve.confidence result = 0.25%float
        \/ Resolve.confidence result = 0.3%float)
    /\ Resolve.sources result = [].
Proof.
  destruct (Samples.resolveUndated Samples.oneToolUp
              "Did the Lakers beat the Celtics?") as [failure|result]
    eqn:Hresult; [vm_compute in Hresult; discriminate|].
  exists result. split; [reflexivity|].
  exact (undated_query_is_not_resolved Scenarios.clockNow
           Scenarios.parseKnownDates Scenarios.printInteger Samples.toNumber
           Samples.hostOfUrl Scenarios.noDate Scenarios.noModel
           Samples.noPlanner Samples.oneToolUp true Samples.logged
           "Did the Lakers beat the Celtics?" result eq_refl Hresult).
Defined.

Lemma failed_tools_give_the_baseline_witness :
  exists result,
    Samples.resolveUndated Samples.toolsDown "Did the Lakers beat the Celtics?"
    = inr result
    /\ Resolve.resolution result = "insufficient_data"
    /\ Resolve.confidence result = 0.25%float
    /\ Resolve.reasoning result
       = "Insufficient corroboration from independent sources."
    /\ Resolve.sources result = [].
Proof.
  destruct (Samples.resolveUndated Samples.toolsDown
              "Did the Lakers beat the Celtics?") as [failure|result]
    eqn:Hresult; [vm_compute in Hresult; discriminate|].
  exists result. split; [reflexivity|].
  refine (failed_tools_give_the_baseline Scenarios.clockNow
            Scenarios.parseKnownDates Scenarios.printInteger Samples.toNumber
            Samples.hostOfUrl Scenarios.noDate Scenarios.noModel
            Samples.noPlanner Samples.toolsDown true Samples.logged
            "Did the Lakers beat the Celtics?" result _ Hresult).
  intros tool input. exists "connect ECONNREFUSED". reflexivity.
Defined.

